(** * smart-book-gist: a shallow embedding of the certificate setup script,
    the API client, the response processor, the CLI entry point and the
    HTTP front-end, with the properties the specification states of them.

  Python values are modelled as the interpreter has them: a [str] is a
  sequence of Unicode code points, [bytes] a sequence of octets, a dict an
  insertion-ordered association of keys to values, an exception a value of
  an error type threaded through a small result monad. *)

From Stdlib Require Import NArith ZArith Ascii String List Lia Bool.
From Stdlib.Strings Require Import Byte.
From stdpp Require Import base decidable option list gmap fin_maps.

Local Open Scope N_scope.

(* ===================================================================== *)
(** ** Python [str]                                                       *)
(* ===================================================================== *)

Module PyStr.

(** A character is its Unicode code point; a string is the sequence of
    its characters, so that [length] is Python's [len]. *)
Abbreviation char := N (only parsing).
Abbreviation str := (list N) (only parsing).

(** A literal of the source, character by character (all literals of the
    embedded code are ASCII except the ellipsis, written as its code point). *)
Definition lit (s : string) : str :=
  List.map N_of_ascii (list_ascii_of_string s).

Definition LF : char := 10.
Definition CR : char := 13.
Definition EQUALS : char := 61.
Definition HASH : char := 35.

(** [str.isspace] on one character, the set [str.strip()] removes:
    U+0009..U+000D, U+001C..U+0020, U+0085, U+00A0, U+1680,
    U+2000..U+200A, U+2028, U+2029, U+202F, U+205F, U+3000. *)
Definition is_space (c : char) : bool :=
  ((9 <=? c) && (c <=? 13)) || ((28 <=? c) && (c <=? 32))
  || (c =? 133) || (c =? 160) || (c =? 5760)
  || ((8192 <=? c) && (c <=? 8202))
  || (c =? 8232) || (c =? 8233) || (c =? 8239) || (c =? 8287)
  || (c =? 12288).

(** The line boundaries of [str.splitlines]: LF, VT, FF, CR, FS, GS, RS,
    NEL, LS, PS (and CR LF taken as one). *)
Definition is_linebreak (c : char) : bool :=
  ((10 <=? c) && (c <=? 13)) || ((28 <=? c) && (c <=? 30))
  || (c =? 133) || (c =? 8232) || (c =? 8233).

Fixpoint lstrip (s : str) : str :=
  match s with
  | c :: rest => if is_space c then lstrip rest else s
  | [] => []
  end.

Definition rstrip (s : str) : str := rev (lstrip (rev s)).

(** [s.strip()] *)
Definition strip (s : str) : str := rstrip (lstrip s).

(** [s.startswith(c)] for a one-character prefix. *)
Definition startswith_char (c : char) (s : str) : bool :=
  match s with
  | c' :: _ => c' =? c
  | [] => false
  end.

(** [c in s] for a one-character needle. *)
Definition contains_char (c : char) (s : str) : bool :=
  existsb (fun c' => c' =? c) s.

(** [s.split(sep, 1)] for a one-character separator that occurs in [s]:
    the text before the first separator and the text after it.  Without a
    separator the second component is empty (the caller checks first). *)
Fixpoint split_once (sep : char) (s : str) : str * str :=
  match s with
  | [] => ([], [])
  | c :: rest =>
      if c =? sep then ([], rest)
      else let '(k, v) := split_once sep rest in (c :: k, v)
  end.

(** [s.splitlines()]: [cur] is the line being read. A trailing line
    without a terminator is kept; a terminator at the very end opens no
    further line. *)
Fixpoint splitlines_from (cur : str) (s : str) : list str :=
  match s with
  | [] => match cur with [] => [] | _ => [cur] end
  | c :: rest =>
      if c =? CR then
        match rest with
        | c2 :: rest2 =>
            if c2 =? LF then cur :: splitlines_from [] rest2
            else cur :: splitlines_from [] rest
        | [] => cur :: splitlines_from [] rest
        end
      else if is_linebreak c then cur :: splitlines_from [] rest
      else splitlines_from (cur ++ [c]) rest
  end.

Definition splitlines (s : str) : list str := splitlines_from [] s.

(** [sep.join(parts)] *)
Fixpoint join (sep : str) (parts : list str) : str :=
  match parts with
  | [] => []
  | [p] => p
  | p :: rest => p ++ sep ++ join sep rest
  end.

(** [s.replace(a, b)] for one-character [a] and [b]. *)
Definition replace_char (a b : char) (s : str) : str :=
  List.map (fun c => if c =? a then b else c) s.

(** [str(n)] for a non-negative integer. *)
Definition digit (d : N) : char := 48 + d.

Fixpoint decimal_fuel (fuel : nat) (n : N) (acc : str) : str :=
  match fuel with
  | O => acc
  | S fuel' =>
      let acc' := digit (n mod 10) :: acc in
      if n / 10 =? 0 then acc' else decimal_fuel fuel' (n / 10) acc'
  end.

Definition str_of_N (n : N) : str := decimal_fuel (S (N.to_nat (N.log2 n))) n [].

Definition str_of_Z (z : Z) : str :=
  match z with
  | Z0 => [digit 0]
  | Zpos p => str_of_N (Npos p)
  | Zneg p => 45 :: str_of_N (Npos p)
  end.

End PyStr.
Import PyStr.

(* ===================================================================== *)
(** ** [pathlib] paths on a POSIX system                                  *)
(* ===================================================================== *)

Module PurePath.

Definition SLASH : char := 47.
Definition DOT : char := 46.

(** [s.split(sep)]: the pieces between separators, empty ones included;
    [cur] is the piece being read. *)
Fixpoint split_on (sep : char) (cur : str) (s : str) : list str :=
  match s with
  | [] => [cur]
  | c :: rest =>
      if c =? sep then cur :: split_on sep [] rest
      else split_on sep (cur ++ [c]) rest
  end.

(** A piece the parser drops: empty, or a single dot. *)
Definition dropped (piece : str) : bool :=
  match piece with
  | [] => true
  | [c] => c =? DOT
  | _ => false
  end.

(** The parts of a path below its root: empty pieces and single dots do
    not count, [..] is kept. *)
Definition components (s : str) : list str :=
  List.filter (fun piece => negb (dropped piece)) (split_on SLASH [] s).

Fixpoint leading_slashes (s : str) : nat :=
  match s with
  | c :: rest => if c =? SLASH then S (leading_slashes rest) else O
  | [] => O
  end.

(** The root: none for a relative path, two slashes when the text starts
    with exactly two, one slash otherwise. *)
Definition root_of (s : str) : str :=
  match leading_slashes s with
  | 0%nat => []
  | 2%nat => [SLASH; SLASH]
  | _ => [SLASH]
  end.

(** [str] of a path with the given root and parts; the path without root
    and parts is the current directory. *)
Definition render (root : str) (parts : list str) : str :=
  match root, parts with
  | [], [] => [DOT]
  | _, _ => root ++ join [SLASH] parts
  end.

(** [str(Path(s))] *)
Definition Path (s : str) : str := render (root_of s) (components s).

(** [str(Path(a) / b)]: an absolute [b] replaces [a]; a relative one adds
    its parts to those of [a]. *)
Definition joinpath (a b : str) : str :=
  match root_of b with
  | [] => render (root_of a) (components a ++ components b)
  | _ => Path b
  end.

End PurePath.


(* ===================================================================== *)
(** ** JSON documents as Python values                                    *)
(* ===================================================================== *)

Module Json.

Local Set Warnings "-register-all".

(** What [json.loads] builds: [None], [bool], [int], [float], [str],
    [list] and [dict].  A dict keeps its keys in insertion order.  A float
    is carried by the text [json.dumps] writes for it ([float.__repr__], or
    [NaN], [Infinity], [-Infinity]). *)
Inductive json : Type :=
| JNull
| JBool (b : bool)
| JInt (z : Z)
| JFloat (repr : str)
| JStr (s : str)
| JList (items : list json)
| JDict (fields : list (str * json)).

Abbreviation dict := (list (str * json)) (only parsing).

Definition str_eqb (a b : str) : bool := bool_decide (a = b).

(** [d.get(k)]: the value bound to [k], [None] when the key is absent. *)
Fixpoint dict_get (k : str) (d : dict) : option json :=
  match d with
  | [] => None
  | (k', v) :: rest => if str_eqb k' k then Some v else dict_get k rest
  end.

(** [k in d] *)
Definition dict_has (k : str) (d : dict) : bool :=
  match dict_get k d with Some _ => true | None => false end.

(** [d.get(k, dflt)] *)
Definition dict_get_default (k : str) (dflt : json) (d : dict) : json :=
  match dict_get k d with Some v => v | None => dflt end.

(** [d.keys()] *)
Definition dict_keys (d : dict) : list str := List.map fst d.

(** Truth value of a Python object, as [if v:], [v or w] test it. *)
Definition truthy (v : json) : bool :=
  match v with
  | JNull => false
  | JBool b => b
  | JInt z => negb (Z.eqb z 0)
  | JFloat r => negb (str_eqb r (lit "0.0") || str_eqb r (lit "-0.0"))
  | JStr s => match s with [] => false | _ => true end
  | JList l => match l with [] => false | _ => true end
  | JDict d => match d with [] => false | _ => true end
  end.

(** [a or b] *)
Definition py_or (a b : json) : json := if truthy a then a else b.

(** *** [json.dumps] *)

Definition hex_digit (d : N) : char := if d <? 10 then 48 + d else 87 + d.

(** [\uXXXX], four lower-case hexadecimal digits. *)
Definition u_escape (c : N) : str :=
  [92; 117; hex_digit (c / 4096 mod 16); hex_digit (c / 256 mod 16);
   hex_digit (c / 16 mod 16); hex_digit (c mod 16)].

(** The two-character escapes shared by both encoders. *)
Definition short_escape (c : char) : option str :=
  if c =? 34 then Some [92; 34]
  else if c =? 92 then Some [92; 92]
  else if c =? 10 then Some [92; 110]
  else if c =? 13 then Some [92; 114]
  else if c =? 9 then Some [92; 116]
  else if c =? 8 then Some [92; 98]
  else if c =? 12 then Some [92; 102]
  else None.

(** One character under [ensure_ascii=True]: everything outside
    [' '..'~'] is escaped, characters beyond the BMP as a surrogate pair. *)
Definition escape_ascii (c : char) : str :=
  match short_escape c with
  | Some e => e
  | None =>
      if (32 <=? c) && (c <=? 126) then [c]
      else if c <? 65536 then u_escape c
      else
        let n := c - 65536 in
        u_escape (55296 + (n / 1024) mod 1024) ++ u_escape (56320 + n mod 1024)
  end.

(** One character under [ensure_ascii=False]: only the quote, the
    backslash and the control characters below U+0020 are escaped. *)
Definition escape_plain (c : char) : str :=
  match short_escape c with
  | Some e => e
  | None => if c <? 32 then u_escape c else [c]
  end.

Definition dumps_str (ensure_ascii : bool) (s : str) : str :=
  [34] ++ flat_map (if ensure_ascii then escape_ascii else escape_plain) s ++ [34].

(** Line break and indentation in front of an item at nesting [level];
    empty when [indent] is [None]. *)
Definition newline_indent (indent : option nat) (level : nat) : str :=
  match indent with
  | None => []
  | Some n => LF :: repeat 32 (n * level)%nat
  end.

(** The item separator: [", "] by default, [","] when [indent] is given. *)
Definition item_separator (indent : option nat) : str :=
  match indent with
  | None => [44; 32]
  | Some _ => [44]
  end.

Fixpoint dumps_at (indent : option nat) (ensure_ascii : bool) (level : nat)
    (v : json) : str :=
  match v with
  | JNull => lit "null"
  | JBool true => lit "true"
  | JBool false => lit "false"
  | JInt z => str_of_Z z
  | JFloat r => r
  | JStr s => dumps_str ensure_ascii s
  | JList [] => lit "[]"
  | JList (x :: xs) =>
      [91] ++ newline_indent indent (S level)
      ++ dumps_at indent ensure_ascii (S level) x
      ++ (fix items (l : list json) : str :=
            match l with
            | [] => []
            | y :: ys =>
                item_separator indent ++ newline_indent indent (S level)
                ++ dumps_at indent ensure_ascii (S level) y ++ items ys
            end) xs
      ++ newline_indent indent level ++ [93]
  | JDict [] => lit "{}"
  | JDict ((k, x) :: xs) =>
      [123] ++ newline_indent indent (S level)
      ++ dumps_str ensure_ascii k ++ [58; 32]
      ++ dumps_at indent ensure_ascii (S level) x
      ++ (fix fields (l : list (str * json)) : str :=
            match l with
            | [] => []
            | (k', y) :: ys =>
                item_separator indent ++ newline_indent indent (S level)
                ++ dumps_str ensure_ascii k' ++ [58; 32]
                ++ dumps_at indent ensure_ascii (S level) y ++ fields ys
            end) xs
      ++ newline_indent indent level ++ [125]
  end.

(** [json.dumps(v)] *)
Definition dumps (v : json) : str := dumps_at None true 0 v.

(** [json.dumps(v, indent=n)] *)
Definition dumps_indent (n : nat) (v : json) : str := dumps_at (Some n) true 0 v.

(** [json.dump(v, fh, indent=n, ensure_ascii=False)], the text written. *)
Definition dump_indent_plain (n : nat) (v : json) : str := dumps_at (Some n) false 0 v.

End Json.
Import Json.


(* ===================================================================== *)
(** ** The interpreter: exceptions, console, file store                   *)
(* ===================================================================== *)

Module Runtime.

(** A path is the text [str(path)] gives, in normal form. *)
Abbreviation path := (list N) (only parsing).
Abbreviation bytes := (list byte) (only parsing).

(** The two messages [send_chat] raises a [RuntimeError] with:
    [f"Groq API error: {err_json}"] and
    [f"Failed to parse Groq response as JSON: {e}; raw: {text}"].
    The interpolated values are kept in place of their formatted text. *)
Inductive runtime_msg : Type :=
| Groq_API_error (err_json : json)
| Failed_to_parse (e : str) (raw : str).

Inductive exn : Type :=
| TypeError
| AttributeError
| KeyError
| IndexError
| FileNotFoundError (p : path)
| UnicodeDecodeError
| UnicodeEncodeError
| RequestException (what : str)
| RuntimeError (msg : runtime_msg)
| SystemExit (code : Z).

(** [except Exception] catches everything but [SystemExit], which derives
    from [BaseException]. *)
Definition is_Exception (e : exn) : bool :=
  match e with SystemExit _ => false | _ => true end.

Inductive result (A : Type) : Type :=
| Ok (a : A)
| Raise (e : exn).
Arguments Ok {A} a.
Arguments Raise {A} e.

(** What [print] wrote.  A formatted [str] is a [Line]; where the source
    formats an object whose text is Python's [repr], the object is kept. *)
Inductive event : Type :=
| Line (s : str)
| ErrorLine (exc : exn)              (* print("Error:", exc) *)
| NotObjectLine (response : json)    (* print("Top-level ... Type:", type(response)) *)
| PreviewLine (i : nat) (preview : json).
                                     (* print(f"\n[Choice {i}] Preview:\n{preview}") *)

(** The mutable part of the machine: the console and the regular files.
    Directories are not tracked ([mkdir(parents=True, exist_ok=True)]
    before a write is then a no-op). *)
Record machine : Type := Machine {
  stdout : list event;
  disk : gmap path bytes
}.

Definition io (A : Type) : Type := machine -> result A * machine.

Definition ret {A} (a : A) : io A := fun m => (Ok a, m).
Definition raise {A} (e : exn) : io A := fun m => (Raise e, m).
Definition bind {A B} (c : io A) (k : A -> io B) : io B :=
  fun m =>
    match c m with
    | (Ok a, m') => k a m'
    | (Raise e, m') => (Raise e, m')
    end.
Definition lift {A} (r : result A) : io A := fun m => (r, m).

(** [try: body except Exception as exc: handler(exc)] *)
Definition try_except {A} (body : io A) (handler : exn -> io A) : io A :=
  fun m =>
    match body m with
    | (Ok a, m') => (Ok a, m')
    | (Raise e, m') => if is_Exception e then handler e m' else (Raise e, m')
    end.

Definition print (ev : event) : io unit :=
  fun m => (Ok tt, Machine (stdout m ++ [ev]) (disk m)).

(** [p.exists()] *)
Definition exists_ (p : path) : io bool :=
  fun m => (Ok (bool_decide (is_Some (disk m !! p))), m).

(** [open(p, "rb")]: the file must be there. *)
Definition open_rb (p : path) : io unit :=
  fun m =>
    match disk m !! p with
    | Some _ => (Ok tt, m)
    | None => (Raise (FileNotFoundError p), m)
    end.

(** [f.read()] on a handle opened by [open_rb p] and not read before: the
    file as it is now. *)
Definition read_bytes (p : path) : io bytes :=
  fun m =>
    match disk m !! p with
    | Some b => (Ok b, m)
    | None => (Raise (FileNotFoundError p), m)
    end.

(** [open(p, "wb")]: the file is created, or emptied, when it is opened. *)
Definition open_wb (p : path) : io unit :=
  fun m => (Ok tt, Machine (stdout m) (<[p := []]> (disk m))).

(** [out.write(data)] on a handle opened by [open_wb p] and written by
    nobody else: the data goes to the end of the file. *)
Definition write (p : path) (data : bytes) : io unit :=
  fun m =>
    (Ok tt, Machine (stdout m) (<[p := default [] (disk m !! p) ++ data]> (disk m))).

(** [shutil.copy(src, dst)] *)
Definition copy (src dst : path) : io unit :=
  fun m =>
    match disk m !! src with
    | Some b => (Ok tt, Machine (stdout m) (<[dst := b]> (disk m)))
    | None => (Raise (FileNotFoundError src), m)
    end.

(** *** UTF-8, as text files are read and written *)

Definition is_cont (b : N) : bool := (128 <=? b) && (b <=? 191).
Definition is_surrogate (c : N) : bool := (55296 <=? c) && (c <=? 57343).

(** Strict decoding: no overlong forms, no surrogates, nothing above
    U+10FFFF. *)
Fixpoint utf8_decode (bs : list N) : option str :=
  match bs with
  | [] => Some []
  | b0 :: r0 =>
      if b0 <? 128 then cons b0 <$> utf8_decode r0
      else if (192 <=? b0) && (b0 <? 224) then
        match r0 with
        | b1 :: r1 =>
            let c := (b0 - 192) * 64 + (b1 - 128) in
            if is_cont b1 && (128 <=? c) then cons c <$> utf8_decode r1
            else None
        | _ => None
        end
      else if (224 <=? b0) && (b0 <? 240) then
        match r0 with
        | b1 :: b2 :: r2 =>
            let c := (b0 - 224) * 4096 + (b1 - 128) * 64 + (b2 - 128) in
            if is_cont b1 && is_cont b2 && (2048 <=? c) && negb (is_surrogate c)
            then cons c <$> utf8_decode r2
            else None
        | _ => None
        end
      else if (240 <=? b0) && (b0 <? 248) then
        match r0 with
        | b1 :: b2 :: b3 :: r3 =>
            let c := (b0 - 240) * 262144 + (b1 - 128) * 4096
                     + (b2 - 128) * 64 + (b3 - 128) in
            if is_cont b1 && is_cont b2 && is_cont b3
               && (65536 <=? c) && (c <=? 1114111)
            then cons c <$> utf8_decode r3
            else None
        | _ => None
        end
      else None
  end.

Definition utf8_encode_char (c : char) : option (list N) :=
  if c <? 128 then Some [c]
  else if c <? 2048 then Some [192 + c / 64; 128 + c mod 64]
  else if c <? 65536 then
    if is_surrogate c then None
    else Some [224 + c / 4096; 128 + (c / 64) mod 64; 128 + c mod 64]
  else if c <=? 1114111 then
    Some [240 + c / 262144; 128 + (c / 4096) mod 64;
          128 + (c / 64) mod 64; 128 + c mod 64]
  else None.

Fixpoint utf8_encode (s : str) : option (list N) :=
  match s with
  | [] => Some []
  | c :: rest =>
      match utf8_encode_char c, utf8_encode rest with
      | Some b, Some bs => Some (b ++ bs)
      | _, _ => None
      end
  end.

Definition byte_of_N (n : N) : byte := default x00 (Byte.of_N n).

(** The bytes of a text of characters below U+0100, one byte each (for
    ASCII this is its UTF-8 encoding). *)
Definition ascii_bytes (s : str) : bytes := List.map byte_of_N s.

(** Universal newlines on reading ([newline=None]): CR LF and a lone CR
    arrive as LF. *)
Fixpoint universal_newlines (s : str) : str :=
  match s with
  | [] => []
  | c :: rest =>
      if c =? CR then
        match rest with
        | c2 :: rest2 =>
            if c2 =? LF then LF :: universal_newlines rest2
            else LF :: universal_newlines rest
        | [] => [LF]
        end
      else c :: universal_newlines rest
  end.

(** [p.read_text(encoding="utf-8")] *)
Definition read_text (p : path) : io str :=
  bind (read_bytes p) (fun b =>
    match utf8_decode (List.map Byte.to_N b) with
    | Some s => ret (universal_newlines s)
    | None => raise UnicodeDecodeError
    end).

(** [p.write_text(text, encoding="utf-8")] where the line separator of the
    platform is LF: the file is opened, and so emptied, before the text is
    encoded and written in one piece. *)
Definition write_text (p : path) (text : str) : io unit :=
  bind (open_wb p) (fun _ =>
    match utf8_encode text with
    | Some b => write p (List.map byte_of_N b)
    | None => raise UnicodeEncodeError
    end).

(** A computation that raises nothing [except Exception] would miss. *)
Definition catchable {A} (c : io A) : Prop :=
  forall (m m' : machine) e, c m = (Raise e, m') -> is_Exception e = true.

(** How a finished script leaves the interpreter: 0 on a normal return,
    the code of a [SystemExit], 1 after the traceback of any other
    exception. *)
Definition exit_status {A} (r : result A) : Z :=
  match r with
  | Ok _ => 0
  | Raise (SystemExit code) => code
  | Raise _ => 1
  end.

End Runtime.
Import Runtime.

Declare Scope io_scope.
Delimit Scope io_scope with io.
Notation "x <- c1 ;; c2" := (bind c1 (fun x => c2))
(at level 100, c1 at next level, c2 at level 200, right associativity) : io_scope.
Notation "c1 ;; c2" := (bind c1 (fun _ => c2))
(at level 100, c2 at level 200, right associativity) : io_scope.


Local Open Scope io_scope.

(* ===================================================================== *)
(** ** scripts/setup_certs.py                                             *)
(* ===================================================================== *)

Module SetupCerts.

Definition ENV_PATH : path := lit ".env".
Definition BACKUP_SUFFIX : str := lit ".bak".

(** [str(a / b)] for a path [a] and a text [b]. *)
Definition path_join (a : path) (b : str) : path := PurePath.joinpath a b.

(** What the script is given by its surroundings: the working directory,
    the file [certifi.where()] names, and the entries of [/mnt/c/Users]
    in the order [iterdir] yields them ([None] when it does not exist). *)
Record host : Type := Host {
  cwd : path;
  certifi_where : path;
  mnt_users : option (list path)
}.

Definition OUT_DEFAULT (h : host) : path :=
  path_join (path_join (cwd h) (lit ".certs")) (lit "certifi_with_zscaler.pem").

Fixpoint filter_existing (ps : list path) : io (list path) :=
  match ps with
  | [] => ret []
  | p :: rest =>
      e <- exists_ p ;;
      keep <- filter_existing rest ;;
      ret (if e then p :: keep else keep)
  end.

Definition find_zscaler_candidates (h : host) : io (list path) :=
  let candidates :=
    [lit "/etc/ssl/certs/zscaler_root.pem";
     lit "/usr/local/share/ca-certificates/zscaler_root.crt";
     lit "/usr/local/share/ca-certificates/zscaler_root.pem"] in
  found <-
    match mnt_users h with
    | Some users =>
        filter_existing
          (flat_map (fun user =>
             [path_join (path_join user (lit "Downloads")) (lit "zscaler_root.cer");
              path_join (path_join user (lit "Downloads")) (lit "zscaler_root.crt")])
             users)
    | None => ret []
    end ;;
  filter_existing (candidates ++ found).

(** [env_path.with_name(env_path.name + BACKUP_SUFFIX)] for a path with a
    final component. *)
Definition backup_path (env_path : path) : path := env_path ++ BACKUP_SUFFIX.

Definition backup_env (env_path : path) : io (option path) :=
  e <- exists_ env_path ;;
  if e then
    let bak := backup_path env_path in
    b <- exists_ bak ;;
    (if negb b then
       copy env_path bak ;;
       print (Line (lit "Backup created: " ++ bak))
     else
       print (Line (lit "Backup already exists: " ++ bak))) ;;
    ret (Some bak)
  else
    print (Line (lit "No existing .env to back up.")) ;;
    ret None.

(** The three files are opened in the order the [with] statement lists
    them, so [out_path] is emptied before anything is read; every write
    reaches the file at once. *)
Definition write_combined_bundle (h : host) (zscaler_path out_path : path)
    : io path :=
  open_rb (certifi_where h) ;;
  open_rb zscaler_path ;;
  open_wb out_path ;;
  cf <- read_bytes (certifi_where h) ;;
  write out_path cf ;;
  write out_path [byte_of_N LF] ;;
  zf <- read_bytes zscaler_path ;;
  write out_path zf ;;
  print (Line (lit "Combined bundle written to: " ++ out_path)) ;;
  ret out_path.

(** The dict [keys_to_set], in insertion order. *)
Definition keys_to_set (out_bundle_path : path) : list (str * str) :=
  [(lit "SSL_CERT_FILE", out_bundle_path);
   (lit "REQUESTS_CA_BUNDLE", out_bundle_path)].

Fixpoint lookup_key (k : str) (d : list (str * str)) : option str :=
  match d with
  | [] => None
  | (k', v) :: rest => if str_eqb k' k then Some v else lookup_key k rest
  end.

Definition is_empty (s : str) : bool :=
  match s with [] => true | _ => false end.

(** One turn of the loop over [original_lines]; the state is
    [(new_lines, found)]. *)
Definition merge_step (keys : list (str * str))
    (state : list str * gset str) (line : str) : list str * gset str :=
  let '(new_lines, found) := state in
  let stripped := strip line in
  if is_empty stripped || startswith_char HASH stripped
     || negb (contains_char EQUALS line)
  then (new_lines ++ [line], found)
  else
    let '(k, v) := split_once EQUALS line in
    let k_name := strip k in
    match lookup_key k_name keys with
    | Some value => (new_lines ++ [k_name ++ [EQUALS] ++ value], {[k_name]} ∪ found)
    | None => (new_lines ++ [line], found)
    end.

(** The second loop: every key not found is appended. *)
Definition append_missing (keys : list (str * str)) (found : gset str)
    (new_lines : list str) : list str :=
  fold_left
    (fun acc kv => if bool_decide (kv.1 ∈ found) then acc
                   else acc ++ [kv.1 ++ [EQUALS] ++ kv.2])
    keys new_lines.

(** [new_lines] as it stands when the file is written. *)
Definition merged_lines (out_bundle_path : path) (original_lines : list str)
    : list str :=
  let keys := keys_to_set out_bundle_path in
  let '(new_lines, found) := fold_left (merge_step keys) original_lines ([], ∅) in
  append_missing keys found new_lines.

(** The text handed to [write_text]. *)
Definition env_text (new_lines : list str) : str := join [LF] new_lines ++ [LF].

Definition update_env_file (out_bundle_path env_path : path) : io unit :=
  backup_env env_path ;;
  e <- exists_ env_path ;;
  original_lines <-
    (if e then text <- read_text env_path ;; ret (splitlines text)
     else ret []) ;;
  write_text env_path (env_text (merged_lines out_bundle_path original_lines)) ;;
  print (Line (lit ".env updated (merged) with keys: "
               ++ join (lit ", ") (List.map fst (keys_to_set out_bundle_path)))).

(** The parsed command line; an option not given is [None]. *)
Record args : Type := Args {
  zscaler : option str;
  out : option str
}.

(** [if x:] on an optional string. *)
Definition given (x : option str) : option str :=
  match x with
  | Some (c :: s) => Some (c :: s)
  | _ => None
  end.

Definition main (h : host) (a : args) : io unit :=
  let out := match given (out a) with
             | Some p => PurePath.Path p
             | None => OUT_DEFAULT h
             end in
  match given (zscaler a) with
  | Some z =>
      let zpath := PurePath.Path z in
      e <- exists_ zpath ;;
      if negb e then
        print (Line (lit "Provided zscaler cert does not exist: " ++ zpath)) ;;
        raise (SystemExit 2)
      else
        write_combined_bundle h zpath out ;;
        update_env_file out ENV_PATH ;;
        ret tt
  | None =>
      candidates <- find_zscaler_candidates h ;;
      match candidates with
      | [] =>
          print (Line (lit "No Zscaler cert found in known locations. Re-run with --zscaler /path/to/zscaler_root.cer")) ;;
          print (Line (lit "Searched: /etc/ssl/certs/zscaler_root.pem, /usr/local/share/ca-certificates/, and Windows Downloads (WSL)")) ;;
          raise (SystemExit 2)
      | zpath :: _ =>
          print (Line (lit "Using Zscaler cert: " ++ zpath)) ;;
          write_combined_bundle h zpath out ;;
          update_env_file out ENV_PATH ;;
          print (Line (lit "Done. .env was backed up to .env.bak (if it existed) and merged safely."))
      end
  end.

End SetupCerts.


(* ===================================================================== *)
(** ** src/groq_client.py                                                 *)
(* ===================================================================== *)

Module GroqClient.

(** The module-level constants, read from the environment on import. *)
Record config : Type := Config {
  GROQ_API_URL : str;
  GROQ_API_KEY : str;
  GROQ_MODEL : str
}.

(** [os.getenv(k)] as a Python value: [None] when unset. *)
Definition getenv (environ : gmap str str) (k : str) : json :=
  match environ !! k with Some v => JStr v | None => JNull end.

(** The import of the module: the three constants, or the [RuntimeError]
    raised when no key is set (no request is ever attempted then). *)
Definition load_config (environ : gmap str str) : option config :=
  match environ !! lit "GROQ_API_KEY" with
  | Some (c :: key) =>
      Some (Config
        (default (lit "https://api.groq.com/openai/v1/chat/completions")
                 (environ !! lit "GROQ_API_URL"))
        (c :: key)
        (default (lit "openai/gpt-oss-20b") (environ !! lit "GROQ_MODEL")))
  | _ => None
  end.

Definition HEADERS (cfg : config) : list (str * str) :=
  [(lit "Authorization", lit "Bearer " ++ GROQ_API_KEY cfg);
   (lit "Content-Type", lit "application/json");
   (lit "User-Agent", lit "groq-python-app/1.0")].

(** The [verify] argument of [requests.post]: [True] or a bundle path. *)
Inductive verify : Type :=
| VerifyDefault
| VerifyPath (p : str).

Record request : Type := Request {
  req_url : str;
  req_headers : list (str * str);
  req_json : json;
  req_timeout : Z;
  req_verify : verify
}.

(** What the client reads of a [requests.Response]: the status line, the
    body text, and the outcome of [resp.json()], either the parsed
    document or the message of the decoding error. *)
Inductive json_outcome : Type :=
| Parsed (doc : json)
| Unparsable (e : str).

Record response : Type := Response {
  status_code : N;
  reason : str;
  text : str;
  json_ : json_outcome
}.

(** [resp.ok]: [raise_for_status] raises for 400..599 and nothing else. *)
Definition ok (resp : response) : bool :=
  negb ((400 <=? status_code resp) && (status_code resp <? 600)).

(** [requests.post] returns a response or raises one of the exceptions of
    [requests] (connection failure, timeout, ...). *)
Inductive post_outcome : Type :=
| Answered (resp : response)
| Failed (what : str).

(** The surroundings of a call: the process environment, the working
    directory, [Path.resolve], and the far end of [requests.post]. *)
Record net : Type := Net {
  environ : gmap str str;
  cwd : path;
  resolve : path -> path;
  post : request -> post_outcome
}.

Definition _effective_verify_path (w : net) : io verify :=
  let env_verify :=
    py_or (getenv (environ w) (lit "SSL_CERT_FILE"))
          (getenv (environ w) (lit "REQUESTS_CA_BUNDLE")) in
  match env_verify with
  | JStr (c :: p) => ret (VerifyPath (c :: p))
  | _ =>
      let project_local :=
        SetupCerts.path_join (SetupCerts.path_join (cwd w) (lit ".certs"))
                             (lit "certifi_with_zscaler.pem") in
      e <- exists_ project_local ;;
      if e then ret (VerifyPath (resolve w project_local))
      else ret VerifyDefault
  end.

(** [model], [temperature] and [max_tokens] are whatever the caller
    passes; an absent argument is [None]. *)
Definition send_chat (cfg : config) (w : net)
    (messages model temperature max_tokens : json) (timeout : Z) : io json :=
  let payload :=
    [(lit "model", py_or model (JStr (GROQ_MODEL cfg)));
     (lit "messages", messages);
     (lit "temperature", temperature)]
    ++ match max_tokens with
       | JNull => []
       | _ => [(lit "max_tokens", max_tokens)]
       end in
  verify <- _effective_verify_path w ;;
  resp <-
    match post w (Request (GROQ_API_URL cfg) (HEADERS cfg) (JDict payload)
                          timeout verify) with
    | Answered resp => ret resp
    | Failed what => raise (RequestException what)
    end ;;
  let text := text resp in
  if negb (ok resp) then
    let err_json :=
      match json_ resp with
      | Parsed doc => doc
      | Unparsable _ =>
          py_or (JStr text)
                (JStr (str_of_N (status_code resp) ++ lit " " ++ reason resp))
      end in
    raise (RuntimeError (Groq_API_error err_json))
  else
    match json_ resp with
    | Parsed doc => ret doc
    | Unparsable e => raise (RuntimeError (Failed_to_parse e text))
    end.

End GroqClient.

(* ===================================================================== *)
(** ** src/processor.py                                                   *)
(* ===================================================================== *)

Module Processor.

(** The ellipsis U+2026, one character. *)
Definition ELLIPSIS : char := 8230.

Fixpoint is_prefix (a s : str) : bool :=
  match a, s with
  | [], _ => true
  | x :: a', y :: s' => (x =? y) && is_prefix a' s'
  | _ :: _, [] => false
  end.

(** [needle in s] on strings. *)
Fixpoint is_substring (needle s : str) : bool :=
  is_prefix needle s
  || match s with
     | [] => false
     | _ :: s' => is_substring needle s'
     end.

(** [k in choice] for a string [k]: a key of a dict, an element of a
    list, a substring of a string; any other object is not iterable. *)
Definition py_in (k : str) (v : json) : result bool :=
  match v with
  | JDict d => Ok (dict_has k d)
  | JList l => Ok (existsb (fun x => match x with
                                     | JStr s => str_eqb s k
                                     | _ => false
                                     end) l)
  | JStr s => Ok (is_substring k s)
  | _ => Raise TypeError
  end.

(** [len(v)] *)
Definition py_len (v : json) : result nat :=
  match v with
  | JStr s => Ok (length s)
  | JList l => Ok (length l)
  | JDict d => Ok (length d)
  | _ => Raise TypeError
  end.

(** [v[:n] + "…"] *)
Definition cut_with_ellipsis (n : nat) (v : json) : result json :=
  match v with
  | JStr s => Ok (JStr (take n s ++ [ELLIPSIS]))
  | _ => Raise TypeError
  end.

(** The value of [content] when the [return] is reached, for a dict. *)
Definition content_of (choice : dict) : json :=
  match dict_get (lit "message") choice with
  | Some (JDict message) => dict_get_default (lit "content") (JStr []) message
  | _ =>
      match dict_get (lit "text") choice with
      | Some t => t
      | None => JStr (take 400 (dumps (JDict choice)))
      end
  end.

(** [content if len(content) <= 400 else content[:400] + "…"] *)
Definition preview_of (content : json) : result json :=
  match py_len content with
  | Ok n => if (n <=? 400)%nat then Ok content else cut_with_ellipsis 400 content
  | Raise e => Raise e
  end.

(** [summarize_choice] on whatever the list of choices holds.  On a dict
    it is [preview_of (content_of choice)]; on anything else the tests and
    the subscript behave as Python has them on that type. *)
Definition summarize_choice (choice : json) : result json :=
  match choice with
  | JDict d => preview_of (content_of d)
  | _ =>
      match py_in (lit "message") choice with
      | Raise e => Raise e
      | Ok true => Raise TypeError          (* choice["message"] *)
      | Ok false =>
          match py_in (lit "text") choice with
          | Raise e => Raise e
          | Ok true => Raise AttributeError (* choice.get *)
          | Ok false => preview_of (JStr (take 400 (dumps choice)))
          end
      end
  end.

Fixpoint print_previews (i : nat) (choices : list json) : io unit :=
  match choices with
  | [] => ret tt
  | ch :: rest =>
      preview <- lift (summarize_choice ch) ;;
      print (PreviewLine i preview) ;;
      print_previews (S i) rest
  end.

Definition str_of_nat (n : nat) : str := str_of_N (N.of_nat n).

(** [with out_file.open("w", encoding="utf-8") as fh: json.dump(..., fh, ...)]
    with the rendering [text].  When a chunk cannot be encoded (a lone
    surrogate) the call raises; the chunks written before it are not
    tracked, the file is left as opening it made it. *)
Definition dump_to_file (out_file : path) (text : str) : io unit :=
  write_text out_file text.

Definition process_and_save (resolve : path -> path) (response : json)
    (out_path : str) : io unit :=
  print (Line (LF :: lit "=== GROQ Response Summary ===")) ;;
  match response with
  | JDict d =>
      print (Line (lit "Top-level keys: " ++ join (lit ", ") (dict_keys d))) ;;
      match dict_get (lit "choices") d with
      | Some (JList choices) =>
          print (Line (lit "Choices: " ++ str_of_nat (length choices))) ;;
          print_previews 1 (take 3 choices)
      | _ => ret tt
      end ;;
      let usage := dict_get_default (lit "usage") JNull d in
      (if truthy usage then
         print (Line (LF :: lit "Usage:")) ;;
         print (Line (dumps_indent 2 usage))
       else ret tt) ;;
      (if dict_has (lit "output") d then
         print (Line (LF :: lit "Has 'output' key"))
       else ret tt) ;;
      (if dict_has (lit "outputs") d then
         print (Line (LF :: lit "Has 'outputs' key (len="
                      ++ match dict_get (lit "outputs") d with
                         | Some (JList l) => str_of_nat (length l)
                         | _ => lit "?"
                         end ++ lit ")"))
       else ret tt) ;;
      let out_file := resolve out_path in
      dump_to_file out_file (dump_indent_plain 2 response) ;;
      print (Line (LF :: lit "Full response written to: " ++ out_file)) ;;
      print (Line (lit "=== End summary ===" ++ [LF]))
  | _ =>
      print (NotObjectLine response) ;;
      raise AttributeError                  (* response.get *)
  end.

End Processor.

(* ===================================================================== *)
(** ** src/main.py                                                        *)
(* ===================================================================== *)

Module Cli.
Import GroqClient Processor.

Definition DEFAULT_PROMPT : str :=
  lit "Explain the importance of fast language models in 3 concise bullet points.".

Definition build_messages (prompt : str) : json :=
  JList [JDict [(lit "role", JStr (lit "system"));
                (lit "content", JStr (lit "You are a concise, professional assistant."))];
         JDict [(lit "role", JStr (lit "user"));
                (lit "content", JStr prompt)]].

(** [utcnow] is [datetime.utcnow().isoformat(timespec="seconds")]. *)
Definition default_output_path (w : net) (utcnow : str) (output_dir : json) : str :=
  let od := py_or output_dir
              (JStr (default (lit "outputs") (environ w !! lit "OUTPUT_DIR"))) in
  let ts := replace_char 58 45 utcnow in
  SetupCerts.path_join (match od with JStr d => d | _ => [] end)
                       (lit "groq-response-" ++ ts ++ lit ".json").

(** The parsed command line.  [--temperature] is a float (default 0.2),
    [--max-tokens] an int (default 800); the other options are [None]
    when not given. *)
Record args : Type := Args {
  prompt : option str;
  file : option str;
  out : option str;
  temperature : str;
  max_tokens : Z;
  model : option str
}.

Definition opt_json (x : option str) : json :=
  match x with Some s => JStr s | None => JNull end.

(** [if x:] and [x or dflt] on an optional string. *)
Definition given (x : option str) : option str :=
  match x with
  | Some (c :: s) => Some (c :: s)
  | _ => None
  end.

(** The prompt: the stripped text of [--file], else [--prompt], else the
    default.  Reading the file comes before the [try] statement. *)
Definition read_prompt (a : args) : io str :=
  match given (file a) with
  | Some f => t <- read_text (PurePath.Path f) ;; ret (strip t)
  | None => ret (default DEFAULT_PROMPT (given (prompt a)))
  end.

(** The body of the [try] statement. *)
Definition request_and_save (cfg : config) (w : net) (utcnow : str) (a : args)
    (messages model : json) : io unit :=
  print (Line (lit "Sending request to Groq...")) ;;
  resp <- send_chat cfg w messages model (JFloat (temperature a))
                    (JInt (max_tokens a)) 15 ;;
  let out_path := default (default_output_path w utcnow JNull) (given (out a)) in
  process_and_save (resolve w) resp out_path.

Definition main (cfg : config) (w : net) (utcnow : str) (a : args) : io unit :=
  prompt <- read_prompt a ;;
  let messages := build_messages prompt in
  let model := py_or (opt_json (model a)) (getenv (environ w) (lit "GROQ_MODEL")) in
  try_except
    (request_and_save cfg w utcnow a messages model)
    (fun exc =>
       print (ErrorLine exc) ;;
       raise (SystemExit 2)).

End Cli.

(* ===================================================================== *)
(** ** src/webapp.py                                                      *)
(* ===================================================================== *)

Module Webapp.
Import GroqClient.

(** What a view returns: [jsonify(body)] with a status.  In the error
    body [details] is [str(e)]; the exception is kept in its place. *)
Inductive reply : Type :=
| JsonReply (status : N) (body : json)
| ErrorReply (status : N) (error : str) (details : exn)
| EmptyReply (status : N).

Definition index : reply :=
  JsonReply 200
    (JDict [(lit "service", JStr (lit "smart-book-gist"));
            (lit "status", JStr (lit "ok"));
            (lit "message",
             JStr (lit "Hello " ++ [8212]
                   ++ lit " the container is running and listening on the expected port."))]).

Definition health : reply := EmptyReply 200.

(** [v.get(k, dflt)] on an arbitrary object: only a dict has [get]. *)
Definition py_get (k : str) (dflt : json) (v : json) : result json :=
  match v with
  | JDict d => Ok (dict_get_default k dflt d)
  | _ => Raise AttributeError
  end.

(** [v[0]] *)
Definition py_first (v : json) : result json :=
  match v with
  | JList (x :: _) => Ok x
  | JList [] => Raise IndexError
  | JStr (c :: _) => Ok (JStr [c])
  | JStr [] => Raise IndexError
  | JDict _ => Raise KeyError
  | _ => Raise TypeError
  end.

(** [resp.get("choices", [{}])[0].get("message", {}).get("content") or resp] *)
Definition extract_summary (resp : json) : result json :=
  match py_get (lit "choices") (JList [JDict []]) resp with
  | Raise e => Raise e
  | Ok choices =>
      match py_first choices with
      | Raise e => Raise e
      | Ok first =>
          match py_get (lit "message") (JDict []) first with
          | Raise e => Raise e
          | Ok message =>
              match py_get (lit "content") JNull message with
              | Raise e => Raise e
              | Ok content => Ok (py_or content resp)
              end
          end
      end
  end.

(** The [messages] list built at the head of the [try] statement. *)
Definition messages_of (prompt : json) : json :=
  JList [JDict [(lit "role", JStr (lit "system"));
                (lit "content",
                 JStr (lit "You are a concise, professional assistant."))];
         JDict [(lit "role", JStr (lit "user"));
                (lit "content", prompt)]].

(** [request_json] is [request.get_json(silent=True)]: [None] when the
    body is missing or is not JSON.  An exception that leaves the view is
    the unhandled fault the framework answers itself. *)
Definition summarize (cfg : config) (w : net) (request_json : json) : io reply :=
  let body := py_or request_json (JDict []) in
  prompt <- lift (py_get (lit "prompt") (JStr (lit "No prompt provided")) body) ;;
  temperature <- lift (py_get (lit "temperature") (JFloat (lit "0.2")) body) ;;
  max_tokens <- lift (py_get (lit "max_tokens") (JInt 800) body) ;;
  model <- lift (py_get (lit "model") JNull body) ;;
  let model := py_or model (JStr (GROQ_MODEL cfg)) in
  try_except
    (let messages := messages_of prompt in
     resp <- send_chat cfg w messages model temperature max_tokens 15 ;;
     summary <- lift (extract_summary resp) ;;
     ret (JsonReply 200 (JDict [(lit "prompt", prompt); (lit "gist", summary)])))
    (fun e =>
       ret (ErrorReply 500 (lit "Failed to call Groq API") e)).

End Webapp.

(* ===================================================================== *)
(** ** The vocabulary of the environment-file properties                  *)
(* ===================================================================== *)

Module EnvFile.
Import SetupCerts.

(** The lines the loop appends untouched without looking for a key:
    blank, comment-prefixed, or without an equals sign. *)
Definition passes_through (line : str) : bool :=
  is_empty (strip line) || startswith_char HASH (strip line)
  || negb (contains_char EQUALS line).

(** The key a line binds, as the loop reads it. *)
Definition line_key (line : str) : option str :=
  if passes_through line then None
  else Some (strip (split_once EQUALS line).1).

Definition MANAGED : list str := [lit "SSL_CERT_FILE"; lit "REQUESTS_CA_BUNDLE"].

Definition is_managed_key (k : str) : bool := bool_decide (k ∈ MANAGED).

(** A line that binds one of the two managed keys. *)
Definition managed_line (line : str) : bool :=
  match line_key line with
  | Some k => is_managed_key k
  | None => false
  end.

(** A line that binds some other key: not a managed-key line and not
    blank, comment-prefixed or malformed. *)
Definition unrelated_binding (line : str) : bool :=
  match line_key line with
  | Some k => negb (is_managed_key k)
  | None => false
  end.

Definition binds (k : str) (line : str) : bool :=
  bool_decide (line_key line = Some k).

(** How many lines bind [k]. *)
Definition occurrences (k : str) (lines : list str) : nat :=
  length (List.filter (binds k) lines).

(** The line written for key [k]. *)
Definition binding (k value : str) : str := k ++ [EQUALS] ++ value.

(** What becomes of one line of the original file. *)
Definition rewritten (out_bundle_path : path) (line : str) : str :=
  match line_key line with
  | Some k => if is_managed_key k then binding k out_bundle_path else line
  | None => line
  end.

(** A key that reads back as itself from the line written for it: it is its own stripped form,
    it has no equals sign, and it starts with a character that is neither
    white space nor the comment mark. *)
Definition clean_key (k : str) : Prop :=
  strip k = k /\ contains_char EQUALS k = false /\
  exists c t, k = c :: t /\ is_space c = false /\ (c =? HASH) = false.

(** A text that [splitlines] leaves in one piece. *)
Definition no_linebreak (s : str) : bool :=
  forallb (fun c => negb (is_linebreak c)) s.

End EnvFile.

(* ===================================================================== *)
(** ** The vocabulary of the client properties                            *)
(* ===================================================================== *)

Module Answers.
Import GroqClient.

(** What [send_chat] makes of an answer. *)
Definition checked (resp : response) : result json :=
  if negb (ok resp) then
    Raise (RuntimeError (Groq_API_error
      match json_ resp with
      | Parsed doc => doc
      | Unparsable _ =>
          match text resp with
          | [] => JStr (str_of_N (status_code resp) ++ lit " " ++ reason resp)
          | _ => JStr (text resp)
          end
      end))
  else
    match json_ resp with
    | Parsed doc => Ok doc
    | Unparsable e => Raise (RuntimeError (Failed_to_parse e (text resp)))
    end.

(** An error answer without a body, a network that gives one answer to
    every request, and a configuration to call it with. *)
Definition gateway_error : response :=
  Response 502 (lit "Bad Gateway") []
           (Unparsable (lit "Expecting value: line 1 column 1 (char 0)")).

Definition quiet_net (answer : post_outcome) : net :=
  Net ∅ (lit "/work") (fun p => p) (fun _ => answer).

Definition test_config : config :=
  Config (lit "https://api.groq.com/openai/v1/chat/completions") (lit "key")
         (lit "openai/gpt-oss-20b").

End Answers.

(* ===================================================================== *)
(** ** The vocabulary of the further properties                           *)
(* ===================================================================== *)

Module Probing.
Import SetupCerts.

(** [p] is a file of the store. *)
Definition on_disk (m : machine) (p : path) : bool :=
  bool_decide (is_Some (disk m !! p)).

(** The locations [find_zscaler_candidates] probes, in its order: the
    three fixed ones, then the two download names of each Windows user. *)
Definition probed (h : host) : list path :=
  [lit "/etc/ssl/certs/zscaler_root.pem";
   lit "/usr/local/share/ca-certificates/zscaler_root.crt";
   lit "/usr/local/share/ca-certificates/zscaler_root.pem"]
  ++ match mnt_users h with
     | Some users =>
         flat_map (fun user =>
           [path_join (path_join user (lit "Downloads")) (lit "zscaler_root.cer");
            path_join (path_join user (lit "Downloads")) (lit "zscaler_root.crt")])
           users
     | None => []
     end.

End Probing.

Module Summary.
Import Processor.

(** The list under ["choices"], empty when the key is absent or holds
    something else. *)
Definition choices_of (d : dict) : list json :=
  match dict_get (lit "choices") d with
  | Some (JList choices) => choices
  | _ => []
  end.

(** The previews on the console, with their numbers, in order. *)
Definition previews_printed (out : list event) : list (nat * json) :=
  flat_map (fun ev => match ev with
                      | PreviewLine i preview => [(i, preview)]
                      | _ => []
                      end) out.

(** [i, i+1, ...] paired with the items, as [enumerate(items, start=i)]. *)
Fixpoint enumerate (i : nat) (items : list json) : list (nat * json) :=
  match items with
  | [] => []
  | x :: rest => (i, x) :: enumerate (S i) rest
  end.

(** A step that only prints lines of text and always succeeds. *)
Definition prints_lines (c : io unit) : Prop :=
  forall m : machine, exists out,
    c m = (Ok tt, Machine (stdout m ++ out) (disk m)) /\ previews_printed out = [].

End Summary.

Module Settings.
Import GroqClient.

(** The value of an environment variable that is set and not empty. *)
Definition set_nonempty (environ : gmap str str) (k : str) : option str :=
  match environ !! k with
  | Some (c :: v) => Some (c :: v)
  | _ => None
  end.

(** The bundle [setup_certs.py] writes by default, seen from the client. *)
Definition project_local (w : net) : path :=
  SetupCerts.path_join (SetupCerts.path_join (cwd w) (lit ".certs"))
                       (lit "certifi_with_zscaler.pem").

End Settings.

(* ===================================================================== *)
(** * Properties                                                          *)
(* ===================================================================== *)

(** ** Strings *)

Arguments lit : simpl never.

Section StrFacts.

Lemma lstrip_keeps_head c t : is_space c = false -> lstrip (c :: t) = c :: t.
Proof. intros H. simpl. now rewrite H. Qed.

Lemma lstrip_snoc u c :
  is_space c = false -> exists u', lstrip (u ++ [c]) = u' ++ [c].
Proof.
  intros Hc. induction u as [|x u IH]; simpl.
  - rewrite Hc. now exists [].
  - destruct (is_space x).
    + exact IH.
    + now exists (x :: u).
Qed.

Lemma rstrip_keeps_head c t :
  is_space c = false -> exists t', rstrip (c :: t) = c :: t'.
Proof.
  intros Hc. unfold rstrip. simpl rev.
  destruct (lstrip_snoc (rev t) c Hc) as [u' ->].
  exists (rev u'). now rewrite rev_app_distr.
Qed.

Lemma strip_keeps_head c t :
  is_space c = false -> exists t', strip (c :: t) = c :: t'.
Proof.
  intros Hc. unfold strip. rewrite lstrip_keeps_head by assumption.
  now apply rstrip_keeps_head.
Qed.

Lemma contains_char_app c a b :
  contains_char c (a ++ b) = contains_char c a || contains_char c b.
Proof. unfold contains_char. apply existsb_app. Qed.

Lemma split_once_app sep k v :
  contains_char sep k = false -> split_once sep (k ++ sep :: v) = (k, v).
Proof.
  induction k as [|c k IH]; simpl; intros H.
  - now rewrite N.eqb_refl.
  - apply orb_false_iff in H as [Hc Hk].
    rewrite Hc, (IH Hk). reflexivity.
Qed.

End StrFacts.

(** ** The merge of the environment file *)

Section Merge.
Import SetupCerts EnvFile.

Lemma managed_clean k : is_managed_key k = true -> clean_key k.
Proof.
  unfold is_managed_key, MANAGED. intros H. apply bool_decide_eq_true in H.
  rewrite !elem_of_cons in H. destruct H as [-> | [-> | H]].
  - repeat split; [vm_compute; reflexivity ..|].
    eexists _, _. repeat split; vm_compute; reflexivity.
  - repeat split; [vm_compute; reflexivity ..|].
    eexists _, _. repeat split; vm_compute; reflexivity.
  - now apply elem_of_nil in H.
Qed.

Lemma is_managed_lookup b k :
  lookup_key k (keys_to_set b) = if is_managed_key k then Some b else None.
Proof.
  unfold keys_to_set, is_managed_key, MANAGED, lookup_key, str_eqb.
  destruct (decide (lit "SSL_CERT_FILE" = k)) as [<- | H1].
  { rewrite !bool_decide_eq_true_2; [reflexivity | rewrite !elem_of_cons; tauto | reflexivity]. }
  rewrite (bool_decide_eq_false_2 _ H1).
  destruct (decide (lit "REQUESTS_CA_BUNDLE" = k)) as [<- | H2].
  { rewrite !bool_decide_eq_true_2;
      [reflexivity | rewrite !elem_of_cons; tauto | reflexivity]. }
  rewrite (bool_decide_eq_false_2 _ H2).
  rewrite bool_decide_eq_false_2; [reflexivity|].
  rewrite !elem_of_cons, elem_of_nil. intros [-> | [-> | []]]; congruence.
Qed.

Lemma line_key_binding k v : clean_key k -> line_key (binding k v) = Some k.
Proof.
  intros (Hs & He & c & t & Hk & Hc & Hh).
  assert (Hstrip : exists t', strip (binding k v) = c :: t').
  { unfold binding. rewrite Hk. apply (strip_keeps_head c _ Hc). }
  assert (Hcont : contains_char EQUALS (binding k v) = true).
  { unfold binding. rewrite contains_char_app. simpl.
    now rewrite orb_true_r. }
  assert (Hsplit : split_once EQUALS (binding k v) = (k, v)).
  { unfold binding. now apply split_once_app. }
  destruct Hstrip as [t' Hstrip].
  unfold line_key, passes_through.
  rewrite Hstrip, Hcont, Hsplit. simpl. rewrite Hh. simpl. now rewrite Hs.
Qed.

Lemma line_key_rewritten b line : line_key (rewritten b line) = line_key line.
Proof.
  unfold rewritten. destruct (line_key line) as [k|] eqn:Hk; [|exact Hk].
  destruct (is_managed_key k) eqn:Hm; [|exact Hk].
  apply line_key_binding. now apply managed_clean.
Qed.

Lemma merge_step_rewritten b new_lines found line :
  merge_step (keys_to_set b) (new_lines, found) line =
  (new_lines ++ [rewritten b line],
   match line_key line with
   | Some k => if is_managed_key k then {[k]} ∪ found else found
   | None => found
   end).
Proof.
  unfold merge_step, rewritten, line_key, passes_through.
  destruct (is_empty (strip line) || startswith_char HASH (strip line)
            || negb (contains_char EQUALS line)); [reflexivity|].
  destruct (split_once EQUALS line) as [k v].
  rewrite is_managed_lookup. cbn [fst].
  now destruct (is_managed_key (strip k)).
Qed.

Lemma merge_loop b lines new_lines found :
  exists found',
    fold_left (merge_step (keys_to_set b)) lines (new_lines, found) =
    (new_lines ++ List.map (rewritten b) lines, found')
    /\ forall k, k ∈ found' <->
         k ∈ found \/ (is_managed_key k = true /\ existsb (binds k) lines = true).
Proof.
  revert new_lines found. induction lines as [|line lines IH]; intros new_lines found.
  - exists found. simpl. rewrite app_nil_r. split; [reflexivity|]. intros k. intuition discriminate.
  - cbn [fold_left]. rewrite merge_step_rewritten.
    edestruct IH as (found' & -> & Hf). exists found'. split.
    + simpl. now rewrite <- app_assoc.
    + intros k. rewrite Hf. simpl existsb. unfold binds at 2.
      destruct (line_key line) as [k'|] eqn:Hk.
      * destruct (is_managed_key k') eqn:Hm.
        -- rewrite elem_of_union, elem_of_singleton. case_bool_decide as Hd.
           ++ inversion Hd; subst. simpl. tauto.
           ++ simpl. assert (k <> k') by congruence. tauto.
        -- case_bool_decide as Hd.
           ++ inversion Hd; subst. simpl. rewrite Hm. intuition discriminate.
           ++ simpl. tauto.
      * case_bool_decide; [discriminate|]. simpl. tauto.
Qed.

(** The lines written: every original line rewritten in place, then a
    binding for each managed key no line binds. *)
Lemma merged_lines_eq b lines :
  merged_lines b lines =
  List.map (rewritten b) lines
  ++ (if existsb (binds (lit "SSL_CERT_FILE")) lines then []
      else [binding (lit "SSL_CERT_FILE") b])
  ++ (if existsb (binds (lit "REQUESTS_CA_BUNDLE")) lines then []
      else [binding (lit "REQUESTS_CA_BUNDLE") b]).
Proof.
  unfold merged_lines.
  destruct (merge_loop b lines [] ∅) as (found & -> & Hf).
  rewrite app_nil_l.
  assert (Hin : forall k, is_managed_key k = true ->
            bool_decide (k ∈ found) = existsb (binds k) lines).
  { intros k Hm. destruct (existsb (binds k) lines) eqn:He.
    - apply bool_decide_eq_true_2. apply Hf. now right.
    - apply bool_decide_eq_false_2. rewrite Hf.
      intros [H | [_ H]]; [now apply elem_of_empty in H | congruence]. }
  unfold append_missing, keys_to_set. cbn [fold_left fst snd].
  rewrite !Hin by (vm_compute; reflexivity).
  unfold binding.
  destruct (existsb (binds (lit "SSL_CERT_FILE")) lines),
           (existsb (binds (lit "REQUESTS_CA_BUNDLE")) lines);
    rewrite ?app_nil_r, <- ?app_assoc; reflexivity.
Qed.

(** Rewriting keeps every line that binds no managed key, and what it
    writes for a managed key binds that key again: a selection of lines by
    their key that leaves the managed keys out is the same before and
    after. *)
Lemma filter_merged_lines (Q : option (list N) -> bool) b lines :
  (forall k, is_managed_key k = true -> Q (Some k) = false) ->
  List.filter (fun l => Q (line_key l)) (merged_lines b lines) =
  List.filter (fun l => Q (line_key l)) lines.
Proof.
  intros HQ. rewrite merged_lines_eq, !List.filter_app.
  assert (Hnew : forall k, is_managed_key k = true ->
            List.filter (fun l => Q (line_key l)) [binding k b] = []).
  { intros k Hk. cbn [List.filter].
    now rewrite (line_key_binding k b (managed_clean k Hk)), (HQ k Hk). }
  assert (Htail : forall (c : bool) k, is_managed_key k = true ->
            List.filter (fun l => Q (line_key l)) (if c then [] else [binding k b]) = []).
  { intros [|] k Hk; [reflexivity | now apply Hnew]. }
  rewrite !Htail by (vm_compute; reflexivity). rewrite !app_nil_r.
  induction lines as [|line lines IH]; [reflexivity|].
  cbn [List.map List.filter]. rewrite line_key_rewritten, IH.
  destruct (Q (line_key line)) eqn:Hq; [|reflexivity].
  f_equal. unfold rewritten.
  destruct (line_key line) as [k|]; [|reflexivity].
  destruct (is_managed_key k) eqn:Hk; [|reflexivity].
  rewrite (HQ k Hk) in Hq. discriminate.
Qed.

Lemma managed_bound_in_merged b lines line k :
  In line (merged_lines b lines) -> line_key line = Some k ->
  is_managed_key k = true -> line = binding k b.
Proof.
  rewrite merged_lines_eq, !in_app_iff, in_map_iff.
  intros [(l0 & <- & _) | [H | H]] Hk Hm.
  - rewrite line_key_rewritten in Hk. unfold rewritten.
    now rewrite Hk, Hm.
  - destruct (existsb _ lines); [destruct H|].
    destruct H as [<- | []].
    rewrite line_key_binding in Hk by (apply managed_clean; vm_compute; reflexivity).
    now inversion Hk.
  - destruct (existsb _ lines); [destruct H|].
    destruct H as [<- | []].
    rewrite line_key_binding in Hk by (apply managed_clean; vm_compute; reflexivity).
    now inversion Hk.
Qed.

Lemma occurrences_app k a b : occurrences k (a ++ b) = (occurrences k a + occurrences k b)%nat.
Proof. unfold occurrences. now rewrite List.filter_app, length_app. Qed.

Lemma binds_rewritten k b line : binds k (rewritten b line) = binds k line.
Proof. unfold binds. now rewrite line_key_rewritten. Qed.

Lemma occurrences_cons k line lines :
  occurrences k (line :: lines) =
  ((if binds k line then 1 else 0) + occurrences k lines)%nat.
Proof. unfold occurrences. cbn [List.filter]. now destruct (binds k line). Qed.

Lemma occurrences_rewritten k b lines :
  occurrences k (List.map (rewritten b) lines) = occurrences k lines.
Proof.
  induction lines as [|l lines IH]; [reflexivity|].
  cbn [List.map]. now rewrite !occurrences_cons, binds_rewritten, IH.
Qed.

Lemma occurrences_zero k lines :
  existsb (binds k) lines = false <-> occurrences k lines = 0%nat.
Proof.
  unfold occurrences. induction lines as [|l lines IH]; [easy|].
  cbn [existsb List.filter]. destruct (binds k l); simpl; [easy | exact IH].
Qed.

Lemma occurrences_binding k k' b :
  is_managed_key k' = true ->
  occurrences k [binding k' b] = if bool_decide (k' = k) then 1%nat else 0%nat.
Proof.
  intros Hk'. unfold occurrences, binds. cbn [List.filter].
  rewrite (line_key_binding k' b (managed_clean k' Hk')).
  repeat case_bool_decide; try reflexivity; congruence.
Qed.

Lemma occurrences_tail k k' b (c : bool) :
  is_managed_key k' = true ->
  occurrences k (if c then [] else [binding k' b]) =
  if c then 0%nat else if bool_decide (k' = k) then 1%nat else 0%nat.
Proof. intros Hk'. destruct c; [reflexivity | now apply occurrences_binding]. Qed.

Lemma managed_keys_distinct : lit "SSL_CERT_FILE" <> lit "REQUESTS_CA_BUNDLE".
Proof. intros E. vm_compute in E. discriminate E. Qed.

Lemma occurrences_merged b lines k :
  is_managed_key k = true ->
  occurrences k (merged_lines b lines) = Nat.max 1 (occurrences k lines).
Proof.
  intros Hk. rewrite merged_lines_eq, !occurrences_app, occurrences_rewritten.
  rewrite !occurrences_tail by (vm_compute; reflexivity).
  assert (Hcase : k = lit "SSL_CERT_FILE" \/ k = lit "REQUESTS_CA_BUNDLE").
  { unfold is_managed_key, MANAGED in Hk. apply bool_decide_eq_true_1 in Hk.
    rewrite !elem_of_cons, elem_of_nil in Hk. tauto. }
  pose proof managed_keys_distinct as Hne.
  pose proof (occurrences_zero k lines) as Hz.
  destruct Hcase as [-> | ->].
  - rewrite (bool_decide_eq_true_2 (lit "SSL_CERT_FILE" = lit "SSL_CERT_FILE")) by reflexivity.
    rewrite (bool_decide_eq_false_2 (lit "REQUESTS_CA_BUNDLE" = lit "SSL_CERT_FILE"))
      by congruence.
    destruct (existsb (binds (lit "SSL_CERT_FILE")) lines).
    + assert (occurrences (lit "SSL_CERT_FILE") lines <> 0%nat)
        by (intros E; apply Hz in E; discriminate).
      destruct (existsb _ lines); lia.
    + assert (occurrences (lit "SSL_CERT_FILE") lines = 0%nat) by now apply Hz.
      destruct (existsb _ lines); lia.
  - rewrite (bool_decide_eq_true_2 (lit "REQUESTS_CA_BUNDLE" = lit "REQUESTS_CA_BUNDLE"))
      by reflexivity.
    rewrite (bool_decide_eq_false_2 (lit "SSL_CERT_FILE" = lit "REQUESTS_CA_BUNDLE"))
      by congruence.
    destruct (existsb (binds (lit "REQUESTS_CA_BUNDLE")) lines).
    + assert (occurrences (lit "REQUESTS_CA_BUNDLE") lines <> 0%nat)
        by (intros E; apply Hz in E; discriminate).
      destruct (existsb _ lines); lia.
    + assert (occurrences (lit "REQUESTS_CA_BUNDLE") lines = 0%nat) by now apply Hz.
      destruct (existsb _ lines); lia.
Qed.

Lemma merged_lines_lookup b (lines : list (list N)) i line :
  lines !! i = Some line -> merged_lines b lines !! i = Some (rewritten b line).
Proof.
  intros H. rewrite merged_lines_eq.
  rewrite lookup_app_l.
  - change (List.map (rewritten b) lines) with (rewritten b <$> lines).
    now rewrite list_lookup_fmap, H.
  - rewrite List.length_map. now apply lookup_lt_Some in H.
Qed.

End Merge.

(** ** Lines of a text *)

Section Lines.
Import EnvFile SetupCerts.

Lemma linebreak_not_CR c : is_linebreak c = false -> (c =? CR) = false.
Proof.
  intros H. destruct (N.eqb_spec c CR) as [-> | _]; [|reflexivity].
  vm_compute in H. discriminate H.
Qed.

Lemma splitlines_from_line cur l rest :
  no_linebreak l = true ->
  splitlines_from cur (l ++ LF :: rest) = (cur ++ l) :: splitlines_from [] rest.
Proof.
  revert cur. induction l as [|c l IH]; intros cur H.
  - rewrite app_nil_r. reflexivity.
  - cbn [no_linebreak forallb] in H. apply andb_true_iff in H as [Hc Hl].
    apply negb_true_iff in Hc.
    cbn [app splitlines_from]. rewrite (linebreak_not_CR c Hc), Hc.
    rewrite (IH (cur ++ [c]) Hl). now rewrite <- app_assoc.
Qed.

(** Reading back what was written: the lines of the text are the lines
    joined, provided none of them holds a line boundary. *)
Lemma splitlines_env_text lines :
  lines <> [] -> forallb no_linebreak lines = true ->
  splitlines (env_text lines) = lines.
Proof.
  unfold splitlines, env_text.
  induction lines as [|p rest IH]; [congruence|]. intros _ H.
  cbn [forallb] in H. apply andb_true_iff in H as [Hp Hrest].
  destruct rest as [|q rest].
  - cbn [join]. rewrite (splitlines_from_line [] p [] Hp). reflexivity.
  - change (join [LF] (p :: q :: rest)) with (p ++ [LF] ++ join [LF] (q :: rest)).
    rewrite <- !app_assoc. cbn [app].
    rewrite (splitlines_from_line [] p _ Hp). cbn [app].
    f_equal. apply IH; [congruence | exact Hrest].
Qed.

Lemma no_linebreak_app a b :
  no_linebreak (a ++ b) = no_linebreak a && no_linebreak b.
Proof. unfold no_linebreak. apply forallb_app. Qed.

Lemma splitlines_from_no_linebreak n : forall s cur,
  (length s <= n)%nat -> no_linebreak cur = true ->
  forallb no_linebreak (splitlines_from cur s) = true.
Proof.
  induction n as [|n IH]; intros s cur Hn Hcur.
  - destruct s; [|simpl in Hn; lia]. cbn [splitlines_from].
    destruct cur; [reflexivity|]. cbn [forallb]. now rewrite Hcur.
  - destruct s as [|c rest].
    { cbn [splitlines_from]. destruct cur; [reflexivity|].
      cbn [forallb]. now rewrite Hcur. }
    simpl in Hn. cbn [splitlines_from].
    destruct (c =? CR).
    + destruct rest as [|c2 rest2].
      * cbn [splitlines_from forallb]. now rewrite Hcur.
      * destruct (c2 =? LF); cbn [forallb]; rewrite Hcur; cbn [andb];
          apply IH; simpl in *; try lia; reflexivity.
    + destruct (is_linebreak c) eqn:Hc.
      * cbn [forallb]. rewrite Hcur. cbn [andb]. apply IH; [lia | reflexivity].
      * apply IH; [lia|]. rewrite no_linebreak_app, Hcur.
        unfold no_linebreak. cbn [forallb]. now rewrite Hc.
Qed.

Lemma splitlines_no_linebreak s : forallb no_linebreak (splitlines s) = true.
Proof. now apply (splitlines_from_no_linebreak (length s)). Qed.

Lemma rewritten_no_linebreak b line :
  no_linebreak b = true -> no_linebreak line = true ->
  no_linebreak (rewritten b line) = true.
Proof.
  intros Hb Hl. unfold rewritten.
  destruct (line_key line) as [k|]; [|exact Hl].
  destruct (is_managed_key k) eqn:Hk; [|exact Hl].
  unfold binding. rewrite !no_linebreak_app, Hb.
  unfold is_managed_key, MANAGED in Hk. apply bool_decide_eq_true_1 in Hk.
  rewrite !elem_of_cons, elem_of_nil in Hk.
  destruct Hk as [-> | [-> | []]]; vm_compute; reflexivity.
Qed.

Lemma merged_lines_no_linebreak b lines :
  no_linebreak b = true -> forallb no_linebreak lines = true ->
  forallb no_linebreak (merged_lines b lines) = true.
Proof.
  intros Hb Hl. rewrite merged_lines_eq, !forallb_app.
  repeat (apply andb_true_iff; split).
  - induction lines as [|l lines IH]; [reflexivity|].
    cbn [forallb List.map] in *. apply andb_true_iff in Hl as [H1 H2].
    now rewrite rewritten_no_linebreak, IH.
  - destruct (existsb _ lines); [reflexivity|]. cbn [forallb].
    unfold binding. rewrite !no_linebreak_app, Hb. vm_compute. reflexivity.
  - destruct (existsb _ lines); [reflexivity|]. cbn [forallb].
    unfold binding. rewrite !no_linebreak_app, Hb. vm_compute. reflexivity.
Qed.

Lemma merged_lines_not_nil b lines : merged_lines b lines <> [].
Proof.
  intros E.
  pose proof (occurrences_merged b lines (lit "SSL_CERT_FILE") eq_refl) as H.
  rewrite E in H. unfold occurrences in H at 1. simpl in H. lia.
Qed.

(** The lines of the file written are exactly [new_lines]. *)
Lemma splitlines_merged b text :
  no_linebreak b = true ->
  splitlines (env_text (merged_lines b (splitlines text))) =
  merged_lines b (splitlines text).
Proof.
  intros Hb. apply splitlines_env_text.
  - apply merged_lines_not_nil.
  - apply merged_lines_no_linebreak; [exact Hb | apply splitlines_no_linebreak].
Qed.

End Lines.

(** ** The file store *)

Section Files.
Import EnvFile SetupCerts.

Lemma bind_ok {A B} (c : io A) (k : A -> io B) (m m' : machine) a :
  c m = (Ok a, m') -> bind c k m = k a m'.
Proof. intros H. unfold bind. now rewrite H. Qed.

Lemma bind_raise {A B} (c : io A) (k : A -> io B) (m m' : machine) e :
  c m = (Raise e, m') -> bind c k m = (Raise e, m').
Proof. intros H. unfold bind. now rewrite H. Qed.

Lemma open_rb_ok (m : machine) p x :
  disk m !! p = Some x -> open_rb p m = (Ok tt, m).
Proof. intros H. unfold open_rb. now rewrite H. Qed.

Lemma read_bytes_ok (m : machine) p x :
  disk m !! p = Some x -> read_bytes p m = (Ok x, m).
Proof. intros H. unfold read_bytes. now rewrite H. Qed.

Lemma exists_some (m : machine) p x :
  disk m !! p = Some x -> exists_ p m = (Ok true, m).
Proof. intros H. unfold exists_. rewrite H. reflexivity. Qed.

Lemma exists_none (m : machine) p :
  disk m !! p = None -> exists_ p m = (Ok false, m).
Proof. intros H. unfold exists_. rewrite H. reflexivity. Qed.

Lemma backup_path_ne (env_path : list N) : backup_path env_path <> env_path.
Proof.
  unfold backup_path. intros E. apply (f_equal length) in E.
  rewrite length_app in E. vm_compute (length BACKUP_SUFFIX) in E. lia.
Qed.

(** The backup in one equation: a copy is made exactly when the
    environment file exists and the backup path does not. *)
Lemma backup_env_run env_path (m : machine) :
  backup_env env_path m =
  match disk m !! env_path with
  | Some raw =>
      match disk m !! backup_path env_path with
      | None =>
          (Ok (Some (backup_path env_path)),
           Machine (stdout m ++ [Line (lit "Backup created: " ++ backup_path env_path)])
                   (<[backup_path env_path := raw]> (disk m)))
      | Some _ =>
          (Ok (Some (backup_path env_path)),
           Machine (stdout m
                    ++ [Line (lit "Backup already exists: " ++ backup_path env_path)])
                   (disk m))
      end
  | None =>
      (Ok None,
       Machine (stdout m ++ [Line (lit "No existing .env to back up.")]) (disk m))
  end.
Proof.
  unfold backup_env, bind.
  destruct (disk m !! env_path) as [raw|] eqn:He.
  - rewrite (exists_some m _ _ He).
    destruct (disk m !! backup_path env_path) as [old|] eqn:Hb.
    + rewrite (exists_some m _ _ Hb). reflexivity.
    + rewrite (exists_none m _ Hb). cbn [negb]. unfold copy. rewrite He. reflexivity.
  - rewrite (exists_none m _ He). reflexivity.
Qed.

(** After the backup step the backup file holds what it held, or, if
    there was none, what the environment file holds; nothing else moved. *)
Lemma backup_env_disk env_path (m : machine) :
  let m' := (backup_env env_path m).2 in
  disk m' !! backup_path env_path =
    match disk m !! backup_path env_path with
    | Some old => Some old
    | None => disk m !! env_path
    end
  /\ forall p, p <> backup_path env_path -> disk m' !! p = disk m !! p.
Proof.
  rewrite backup_env_run.
  destruct (disk m !! env_path) as [raw|] eqn:He;
    [destruct (disk m !! backup_path env_path) as [old|] eqn:Hb|]; cbn [snd disk].
  - rewrite Hb. auto.
  - rewrite lookup_insert_eq. split; [reflexivity|].
    intros p Hp. now rewrite lookup_insert_ne.
  - split; [|reflexivity]. now destruct (disk m !! backup_path env_path).
Qed.

Lemma backup_env_ok env_path (m : machine) :
  exists r, (backup_env env_path m).1 = Ok r.
Proof.
  rewrite backup_env_run.
  destruct (disk m !! env_path); [destruct (disk m !! backup_path env_path)|];
    eexists; reflexivity.
Qed.

(** Writing a text touches one file, which exists afterwards. *)
Lemma write_text_disk p text (m : machine) :
  let m' := (write_text p text m).2 in
  is_Some (disk m' !! p) /\ forall q, q <> p -> disk m' !! q = disk m !! q.
Proof.
  unfold write_text, bind, open_wb, write, raise.
  destruct (utf8_encode text); cbn [snd disk].
  - rewrite lookup_insert_eq. split; [eauto|].
    intros q Hq. now rewrite !lookup_insert_ne.
  - rewrite lookup_insert_eq. split; [eauto|].
    intros q Hq. now rewrite !lookup_insert_ne.
Qed.

Lemma write_text_ok p text out (m : machine) :
  utf8_encode text = Some out ->
  exists m', write_text p text m = (Ok tt, m')
             /\ stdout m' = stdout m
             /\ disk m' !! p = Some (List.map byte_of_N out).
Proof.
  intros H. unfold write_text, bind, open_wb, write. rewrite H.
  eexists. split; [reflexivity|]. cbn [stdout disk]. split; [reflexivity|].
  rewrite lookup_insert_eq, lookup_insert_eq. reflexivity.
Qed.

Lemma read_text_disk p (m : machine) : (read_text p m).2 = m.
Proof.
  unfold read_text, bind, read_bytes, ret, raise.
  destruct (disk m !! p); [|reflexivity].
  now destruct (utf8_decode _).
Qed.

Lemma read_text_ok p raw text (m : machine) :
  disk m !! p = Some raw -> utf8_decode (List.map Byte.to_N raw) = Some text ->
  read_text p m = (Ok (universal_newlines text), m).
Proof.
  intros Hp Hd. unfold read_text, bind, read_bytes. rewrite Hp, Hd. reflexivity.
Qed.

(** What an update does to the store, whatever its outcome: the backup
    path holds what it held or, if it held nothing, the old environment
    file; an environment file that was there is still there; no other file
    is touched. *)
Lemma update_env_file_disk b env_path (m : machine) :
  let m' := (update_env_file b env_path m).2 in
  disk m' !! backup_path env_path =
    match disk m !! backup_path env_path with
    | Some old => Some old
    | None => disk m !! env_path
    end
  /\ (is_Some (disk m !! env_path) -> is_Some (disk m' !! env_path))
  /\ forall p, p <> env_path -> p <> backup_path env_path ->
               disk m' !! p = disk m !! p.
Proof.
  pose proof (backup_path_ne env_path) as Hne.
  destruct (backup_env_disk env_path m) as [Hbak Hrest].
  destruct (backup_env_ok env_path m) as [r1 Hr1].
  unfold update_env_file, bind.
  destruct (backup_env env_path m) as [r m1]. cbn [fst snd] in *. subst r.
  assert (Henv : disk m1 !! env_path = disk m !! env_path)
    by (apply Hrest; congruence).
  destruct (disk m1 !! env_path) as [raw|] eqn:H1.
  - rewrite (exists_some m1 _ _ H1). cbv beta iota.
    pose proof (read_text_disk env_path m1) as Hread.
    destruct (read_text env_path m1) as [[text|e] m1']; cbn [snd] in Hread; subst m1';
      cbv beta iota.
    + unfold ret at 1 2 3. cbv beta iota.
      destruct (write_text_disk env_path
                  (env_text (merged_lines b (splitlines text))) m1) as [Hw1 Hw2].
      destruct (write_text env_path _ m1) as [[[]|e] m2]; cbn [snd] in Hw1, Hw2;
        cbv beta iota; unfold print; cbn [snd disk].
      * split; [|split].
        -- rewrite Hw2 by congruence. exact Hbak.
        -- intros _. exact Hw1.
        -- intros p Hp1 Hp2. rewrite Hw2 by congruence. now apply Hrest.
      * split; [|split].
        -- rewrite Hw2 by congruence. exact Hbak.
        -- intros _. exact Hw1.
        -- intros p Hp1 Hp2. rewrite Hw2 by congruence. now apply Hrest.
    + cbn [snd]. split; [exact Hbak|split].
      * intros _. rewrite H1. eauto.
      * intros p Hp1 Hp2. now apply Hrest.
  - rewrite (exists_none m1 _ H1). cbv beta iota.
    unfold ret at 1 2 3. cbv beta iota.
    destruct (write_text_disk env_path (env_text (merged_lines b [])) m1) as [Hw1 Hw2].
    destruct (write_text env_path _ m1) as [[[]|e] m2]; cbn [snd] in Hw1, Hw2;
      cbv beta iota; unfold print; cbn [snd disk].
    + split; [|split].
      * rewrite Hw2 by congruence. exact Hbak.
      * intros _. exact Hw1.
      * intros p Hp1 Hp2. rewrite Hw2 by congruence. now apply Hrest.
    + split; [|split].
      * rewrite Hw2 by congruence. exact Hbak.
      * intros _. exact Hw1.
      * intros p Hp1 Hp2. rewrite Hw2 by congruence. now apply Hrest.
Qed.

(** An update of an existing, readable file succeeds and writes the
    merged lines. *)
Lemma update_env_file_writes b env_path (m : machine) raw text out :
  disk m !! env_path = Some raw ->
  utf8_decode (List.map Byte.to_N raw) = Some text ->
  utf8_encode (env_text (merged_lines b (splitlines (universal_newlines text))))
    = Some out ->
  exists m', update_env_file b env_path m = (Ok tt, m')
             /\ disk m' !! env_path = Some (List.map byte_of_N out).
Proof.
  intros He Hd Ho.
  pose proof (backup_path_ne env_path) as Hne.
  destruct (backup_env_disk env_path m) as [_ Hrest].
  destruct (backup_env_ok env_path m) as [r1 Hr1].
  unfold update_env_file, bind.
  destruct (backup_env env_path m) as [r m1]. cbn [fst snd] in *. subst r.
  assert (Henv : disk m1 !! env_path = Some raw)
    by (rewrite Hrest; [exact He | congruence]).
  rewrite (exists_some m1 _ _ Henv). cbv beta iota.
  rewrite (read_text_ok _ _ _ m1 Henv Hd). cbv beta iota.
  unfold ret at 1. cbv beta iota.
  destruct (write_text_ok env_path _ out m1 Ho) as (m2 & -> & _ & Hw).
  unfold print. eexists. split; [reflexivity|]. exact Hw.
Qed.

End Files.

(* ===================================================================== *)
(** * The certificate setup script                                        *)
(* ===================================================================== *)

Section SetupCertsClaims.
Import EnvFile SetupCerts.

(** C1, as stated, fails on a file that binds a managed key twice: both
    lines are rewritten and both stay, so the key appears twice in the
    file written, not once. *)
Lemma update_env_file_keeps_duplicates :
  let m := Machine [] {[ ENV_PATH :=
               ascii_bytes (lit "SSL_CERT_FILE=/old" ++ [LF]
                            ++ lit "SSL_CERT_FILE=/older" ++ [LF]) ]} in
  let m' := (update_env_file (lit "/b.pem") ENV_PATH m).2 in
  (read_text ENV_PATH m').1 =
    Ok (lit "SSL_CERT_FILE=/b.pem" ++ [LF] ++ lit "SSL_CERT_FILE=/b.pem" ++ [LF]
        ++ lit "REQUESTS_CA_BUNDLE=/b.pem" ++ [LF])
  /\ occurrences (lit "SSL_CERT_FILE")
       (splitlines (lit "SSL_CERT_FILE=/b.pem" ++ [LF] ++ lit "SSL_CERT_FILE=/b.pem"
                    ++ [LF] ++ lit "REQUESTS_CA_BUNDLE=/b.pem" ++ [LF])) = 2%nat.
Proof. split; vm_compute; reflexivity. Qed.

(** C1, as amended: updating an existing environment file succeeds and
    writes [new_lines] joined by newlines; every original line that binds
    an unrelated key (in fact every line that binds no managed key)
    appears unchanged and in its original relative order; each of the two
    managed keys appears at least once, exactly as often as in the
    original when it was there, and every line that binds it binds it to
    the new bundle path. *)
Theorem update_env_file_merges b env_path (m : machine) raw text out :
  disk m !! env_path = Some raw ->
  utf8_decode (List.map Byte.to_N raw) = Some text ->
  let original_lines := splitlines (universal_newlines text) in
  let new_lines := merged_lines b original_lines in
  utf8_encode (env_text new_lines) = Some out ->
  (exists m', update_env_file b env_path m = (Ok tt, m')
              /\ disk m' !! env_path = Some (List.map byte_of_N out))
  /\ (no_linebreak b = true -> splitlines (env_text new_lines) = new_lines)
  /\ List.filter unrelated_binding new_lines
     = List.filter unrelated_binding original_lines
  /\ List.filter (fun l => negb (managed_line l)) new_lines
     = List.filter (fun l => negb (managed_line l)) original_lines
  /\ forall k, is_managed_key k = true ->
       occurrences k new_lines = Nat.max 1 (occurrences k original_lines)
       /\ forall line, In line new_lines -> line_key line = Some k ->
                       line = binding k b.
Proof.
  intros He Hd original_lines new_lines Ho. repeat split.
  - exact (update_env_file_writes b env_path m raw text out He Hd Ho).
  - intros Hb. now apply splitlines_merged.
  - apply (filter_merged_lines
             (fun o => match o with Some k => negb (is_managed_key k) | None => false end)).
    intros k ->. reflexivity.
  - apply (filter_merged_lines
             (fun o => negb match o with Some k => is_managed_key k | None => false end)).
    intros k ->. reflexivity.
  - now apply occurrences_merged.
  - intros line Hin Hk. now apply (managed_bound_in_merged b original_lines).
Qed.

Lemma update_env_file_merges_witness :
  exists m',
    update_env_file (lit "/b.pem") ENV_PATH
      (Machine [] {[ ENV_PATH := ascii_bytes (lit "A=1" ++ [LF] ++ lit "SSL_CERT_FILE=x") ]})
    = (Ok tt, m')
    /\ disk m' !! ENV_PATH =
       Some (ascii_bytes (lit "A=1" ++ [LF] ++ lit "SSL_CERT_FILE=/b.pem" ++ [LF]
                          ++ lit "REQUESTS_CA_BUNDLE=/b.pem" ++ [LF])).
Proof.
  refine (proj1 (update_env_file_merges (lit "/b.pem") ENV_PATH
            (Machine [] {[ ENV_PATH := ascii_bytes (lit "A=1" ++ [LF] ++ lit "SSL_CERT_FILE=x") ]})
            (ascii_bytes (lit "A=1" ++ [LF] ++ lit "SSL_CERT_FILE=x"))
            (lit "A=1" ++ [LF] ++ lit "SSL_CERT_FILE=x")
            (lit "A=1" ++ [LF] ++ lit "SSL_CERT_FILE=/b.pem" ++ [LF]
             ++ lit "REQUESTS_CA_BUNDLE=/b.pem" ++ [LF])
            _ _ _)).
  - vm_compute. reflexivity.
  - vm_compute. reflexivity.
  - vm_compute. reflexivity.
Defined.

(** C2, as stated, fails: the later line of a duplicated managed key does
    not keep its stale value, it is rewritten like the first. *)
Lemma update_env_file_rewrites_later_duplicate :
  let original := lit "REQUESTS_CA_BUNDLE=/first" ++ [LF] ++ lit "X=1" ++ [LF]
                  ++ lit "REQUESTS_CA_BUNDLE=/stale" ++ [LF] in
  let m := Machine [] {[ ENV_PATH := ascii_bytes original ]} in
  let m' := (update_env_file (lit "/b.pem") ENV_PATH m).2 in
  splitlines original !! 2%nat = Some (lit "REQUESTS_CA_BUNDLE=/stale")
  /\ exists text, (read_text ENV_PATH m').1 = Ok text
     /\ splitlines text !! 0%nat = Some (lit "REQUESTS_CA_BUNDLE=/b.pem")
     /\ splitlines text !! 2%nat = Some (lit "REQUESTS_CA_BUNDLE=/b.pem")
     /\ splitlines text !! 2%nat <> Some (lit "REQUESTS_CA_BUNDLE=/stale").
Proof.
  split; [vm_compute; reflexivity|].
  eexists. split; [vm_compute; reflexivity|].
  split; [vm_compute; reflexivity|]. split; [vm_compute; reflexivity|].
  vm_compute. discriminate.
Qed.

(** C2, as amended: the update replaces the value on every line that
    binds a managed key, the first and every later one alike; the line at
    each such position of the file written is the key bound to the new
    bundle path. *)
Theorem update_env_file_replaces_every_occurrence
    b env_path (m : machine) raw text out i line k :
  disk m !! env_path = Some raw ->
  utf8_decode (List.map Byte.to_N raw) = Some text ->
  let original_lines := splitlines (universal_newlines text) in
  let new_lines := merged_lines b original_lines in
  utf8_encode (env_text new_lines) = Some out ->
  original_lines !! i = Some line ->
  line_key line = Some k ->
  is_managed_key k = true ->
  (exists m', update_env_file b env_path m = (Ok tt, m')
              /\ disk m' !! env_path = Some (List.map byte_of_N out))
  /\ new_lines !! i = Some (binding k b).
Proof.
  intros He Hd original_lines new_lines Ho Hi Hk Hm. split.
  - exact (update_env_file_writes b env_path m raw text out He Hd Ho).
  - unfold new_lines. rewrite (merged_lines_lookup b original_lines i line Hi).
    unfold rewritten. now rewrite Hk, Hm.
Qed.

Lemma update_env_file_replaces_every_occurrence_witness :
  merged_lines (lit "/b.pem")
    (splitlines (universal_newlines
       (lit "SSL_CERT_FILE=a" ++ [LF] ++ lit "SSL_CERT_FILE=b"))) !! 1%nat
  = Some (binding (lit "SSL_CERT_FILE") (lit "/b.pem")).
Proof.
  refine (proj2 (update_env_file_replaces_every_occurrence (lit "/b.pem") ENV_PATH
            (Machine [] {[ ENV_PATH :=
                 ascii_bytes (lit "SSL_CERT_FILE=a" ++ [LF] ++ lit "SSL_CERT_FILE=b") ]})
            (ascii_bytes (lit "SSL_CERT_FILE=a" ++ [LF] ++ lit "SSL_CERT_FILE=b"))
            (lit "SSL_CERT_FILE=a" ++ [LF] ++ lit "SSL_CERT_FILE=b")
            (lit "SSL_CERT_FILE=/b.pem" ++ [LF] ++ lit "SSL_CERT_FILE=/b.pem" ++ [LF]
             ++ lit "REQUESTS_CA_BUNDLE=/b.pem" ++ [LF])
            1%nat (lit "SSL_CERT_FILE=b") (lit "SSL_CERT_FILE")
            _ _ _ _ _ _)); vm_compute; reflexivity.
Defined.

(** C3, as stated, fails when there is no environment file to start
    with: the first update has nothing to copy, and the second backs up
    the file the first one wrote, that is the state before the second
    update. *)
Lemma backup_after_fresh_start_is_second_state :
  let m := Machine [] ∅ in
  let m1 := (update_env_file (lit "/b.pem") ENV_PATH m).2 in
  let m2 := (update_env_file (lit "/b.pem") ENV_PATH m1).2 in
  disk m !! ENV_PATH = None
  /\ disk m !! backup_path ENV_PATH = None
  /\ disk m1 !! backup_path ENV_PATH = None
  /\ disk m1 !! ENV_PATH =
     Some (ascii_bytes (lit "SSL_CERT_FILE=/b.pem" ++ [LF]
                        ++ lit "REQUESTS_CA_BUNDLE=/b.pem" ++ [LF]))
  /\ disk m2 !! backup_path ENV_PATH = disk m1 !! ENV_PATH
  /\ disk m2 !! backup_path ENV_PATH <> disk m !! ENV_PATH.
Proof.
  repeat split; try (vm_compute; reflexivity).
  vm_compute. discriminate.
Qed.

(** C3, as amended: when the environment file exists and no backup file
    does, the backup file holds, after one update and still after a
    second, the content the environment file had before the first update;
    an update never replaces a backup that is already there. *)
Theorem backup_holds_state_before_first_update
    b1 b2 env_path (m : machine) content :
  disk m !! env_path = Some content ->
  disk m !! backup_path env_path = None ->
  let m1 := (update_env_file b1 env_path m).2 in
  let m2 := (update_env_file b2 env_path m1).2 in
  disk m1 !! backup_path env_path = Some content
  /\ disk m2 !! backup_path env_path = Some content
  /\ forall b (m0 : machine) old,
       disk m0 !! backup_path env_path = Some old ->
       disk (update_env_file b env_path m0).2 !! backup_path env_path = Some old.
Proof.
  intros He Hb m1 m2.
  assert (Hkeep : forall b (m0 : machine) old,
            disk m0 !! backup_path env_path = Some old ->
            disk (update_env_file b env_path m0).2 !! backup_path env_path = Some old).
  { intros b m0 old H0.
    destruct (update_env_file_disk b env_path m0) as [Hbak _].
    rewrite Hbak, H0. reflexivity. }
  assert (H1 : disk m1 !! backup_path env_path = Some content).
  { destruct (update_env_file_disk b1 env_path m) as [Hbak _].
    unfold m1. rewrite Hbak, Hb. exact He. }
  split; [exact H1|]. split; [|exact Hkeep].
  unfold m2. now apply Hkeep.
Qed.

Lemma backup_holds_state_before_first_update_witness :
  let m := Machine [] {[ ENV_PATH := ascii_bytes (lit "A=1") ]} in
  let m1 := (update_env_file (lit "/one.pem") ENV_PATH m).2 in
  let m2 := (update_env_file (lit "/two.pem") ENV_PATH m1).2 in
  disk m2 !! backup_path ENV_PATH = Some (ascii_bytes (lit "A=1")).
Proof.
  refine (proj1 (proj2 (backup_holds_state_before_first_update
            (lit "/one.pem") (lit "/two.pem") ENV_PATH
            (Machine [] {[ ENV_PATH := ascii_bytes (lit "A=1") ]})
            (ascii_bytes (lit "A=1")) _ _))); vm_compute; reflexivity.
Defined.

(** C4: with the public bundle in the file [certifi.where()] names, the
    custom certificate in [zscaler_path], and [out_path] a third file,
    [write_combined_bundle] succeeds and leaves in [out_path] exactly the
    public bytes, one newline byte, and the custom bytes, whatever the
    two byte strings are and whatever [out_path] held; no other file
    changes. *)
Theorem write_combined_bundle_is_concatenation
    h zscaler_path out_path (m : machine) public custom :
  disk m !! certifi_where h = Some public ->
  disk m !! zscaler_path = Some custom ->
  out_path <> certifi_where h ->
  out_path <> zscaler_path ->
  exists m',
    write_combined_bundle h zscaler_path out_path m = (Ok out_path, m')
    /\ disk m' !! out_path = Some (public ++ [byte_of_N LF] ++ custom)
    /\ forall p, p <> out_path -> disk m' !! p = disk m !! p.
Proof.
  intros Hc Hz Hoc Hoz. unfold write_combined_bundle.
  rewrite (bind_ok _ _ m _ _ (open_rb_ok m _ _ Hc)).
  rewrite (bind_ok _ _ m _ _ (open_rb_ok m _ _ Hz)).
  rewrite (bind_ok _ _ m _ _ eq_refl : bind (open_wb out_path) _ m = _).
  set (m1 := Machine (stdout m) (<[out_path := []]> (disk m))).
  assert (Hc1 : disk m1 !! certifi_where h = Some public)
    by (cbn [m1 disk]; now rewrite lookup_insert_ne).
  rewrite (bind_ok _ _ m1 _ _ (read_bytes_ok m1 _ _ Hc1)).
  rewrite (bind_ok _ _ m1 _ _ eq_refl : bind (write out_path public) _ m1 = _).
  set (m2 := Machine _ _).
  rewrite (bind_ok _ _ m2 _ _ eq_refl : bind (write out_path [byte_of_N LF]) _ m2 = _).
  set (m3 := Machine _ _).
  assert (Hz3 : disk m3 !! zscaler_path = Some custom).
  { cbn [m3 m2 m1 disk stdout]. now rewrite !lookup_insert_ne. }
  rewrite (bind_ok _ _ m3 _ _ (read_bytes_ok m3 _ _ Hz3)).
  rewrite (bind_ok _ _ m3 _ _ eq_refl : bind (write out_path custom) _ m3 = _).
  set (m4 := Machine _ _).
  rewrite (bind_ok _ _ m4 _ _ eq_refl : bind (print _) _ m4 = _).
  unfold ret. eexists. split; [reflexivity|]. cbn [disk]. split.
  - cbn [m4 m3 m2 m1 disk stdout]. rewrite !lookup_insert_eq. cbn [default app].
    unfold id. cbn [app]. now rewrite <- app_assoc.
  - intros p Hp. cbn [m4 m3 m2 m1 disk stdout].
    rewrite !lookup_insert_ne by congruence. reflexivity.
Qed.

Lemma write_combined_bundle_is_concatenation_witness :
  exists m',
    write_combined_bundle
      (Host (lit "/work") (lit "/site/cacert.pem") None)
      (lit "/z.cer") (lit "/work/.certs/out.pem")
      (Machine [] (<[lit "/z.cer" := ascii_bytes (lit "ZZ")]>
                     {[ lit "/site/cacert.pem" := ascii_bytes (lit "PUBLIC") ]}))
    = (Ok (lit "/work/.certs/out.pem"), m')
    /\ disk m' !! lit "/work/.certs/out.pem"
       = Some (ascii_bytes (lit "PUBLIC") ++ [byte_of_N LF] ++ ascii_bytes (lit "ZZ")).
Proof.
  destruct (write_combined_bundle_is_concatenation
              (Host (lit "/work") (lit "/site/cacert.pem") None)
              (lit "/z.cer") (lit "/work/.certs/out.pem")
              (Machine [] (<[lit "/z.cer" := ascii_bytes (lit "ZZ")]>
                             {[ lit "/site/cacert.pem" := ascii_bytes (lit "PUBLIC") ]}))
              (ascii_bytes (lit "PUBLIC")) (ascii_bytes (lit "ZZ")))
    as (m' & H1 & H2 & _).
  - vm_compute. reflexivity.
  - vm_compute. reflexivity.
  - intros E. vm_compute in E. discriminate E.
  - intros E. vm_compute in E. discriminate E.
  - exists m'. split; assumption.
Defined.

End SetupCertsClaims.

(* ===================================================================== *)
(** * The response processor                                              *)
(* ===================================================================== *)

Section ProcessorClaims.
Import Processor.

Lemma preview_of_short s :
  (length s <= 400)%nat -> preview_of (JStr s) = Ok (JStr s).
Proof.
  intros H. unfold preview_of, py_len.
  now rewrite (proj2 (Nat.leb_le _ _) H).
Qed.

Lemma preview_of_long s :
  (400 < length s)%nat -> preview_of (JStr s) = Ok (JStr (take 400 s ++ [ELLIPSIS])).
Proof.
  intros H. unfold preview_of, py_len.
  now rewrite (proj2 (Nat.leb_gt _ _) H).
Qed.

Lemma preview_of_length v p :
  preview_of v = Ok (JStr p) -> (length p <= 401)%nat.
Proof.
  unfold preview_of. destruct (py_len v) as [n|e] eqn:Hn; [|discriminate].
  destruct (n <=? 400)%nat eqn:Hle.
  - intros [= ->]. simpl in Hn. injection Hn as <-. apply Nat.leb_le in Hle. lia.
  - destruct v; simpl; try discriminate.
    intros [= <-]. rewrite length_app, length_take. cbn [length]. lia.
Qed.

(** C7, as stated, fails on the last step of the chain: the JSON
    rendering of a choice with neither a message object nor a text field
    is cut to 400 characters and returned as it is, with no ellipsis
    marker at its end. *)
Lemma truncated_rendering_has_no_ellipsis :
  let choice := [(lit "index", JInt 0); (lit "delta", JStr (repeat 97 400))] in
  length (dumps (JDict choice)) = 425%nat
  /\ summarize_choice (JDict choice) = Ok (JStr (take 400 (dumps (JDict choice))))
  /\ last (take 400 (dumps (JDict choice))) = Some 97
  /\ last (take 400 (dumps (JDict choice))) <> Some ELLIPSIS.
Proof.
  repeat split; try (vm_compute; reflexivity).
  vm_compute. discriminate.
Qed.

(** C7, as amended: the preview of a choice is taken from the content
    field of its message object if it has one (the empty string when the
    object has no content), else from its text field if it has one, else
    it is the JSON rendering of the whole choice cut to at most 400
    characters; a preview cut from a message content or a text field
    longer than 400 characters ends with the ellipsis marker. *)
Theorem summarize_choice_fallback_chain (choice : list (list N * json)) :
  summarize_choice (JDict choice) = preview_of (content_of choice)
  /\ (forall message,
        dict_get (lit "message") choice = Some (JDict message) ->
        content_of choice = dict_get_default (lit "content") (JStr []) message)
  /\ ((forall message, dict_get (lit "message") choice <> Some (JDict message)) ->
      forall t, dict_get (lit "text") choice = Some t -> content_of choice = t)
  /\ ((forall message, dict_get (lit "message") choice <> Some (JDict message)) ->
      dict_get (lit "text") choice = None ->
      summarize_choice (JDict choice) = Ok (JStr (take 400 (dumps (JDict choice)))))
  /\ (forall s, content_of choice = JStr s -> (400 < length s)%nat ->
        summarize_choice (JDict choice) = Ok (JStr (take 400 s ++ [ELLIPSIS]))).
Proof.
  split; [reflexivity|]. split; [|split; [|split]].
  - intros message H. unfold content_of. now rewrite H.
  - intros Hm t Ht. unfold content_of.
    destruct (dict_get (lit "message") choice) as [[]|] eqn:E;
      rewrite ?Ht; try reflexivity.
    now elim (Hm fields).
  - intros Hm Ht. cbn [summarize_choice]. unfold content_of.
    destruct (dict_get (lit "message") choice) as [[]|] eqn:E;
      rewrite ?Ht; try (apply preview_of_short; rewrite length_take; lia).
    now elim (Hm fields).
  - intros s Hs Hlen. cbn [summarize_choice]. rewrite Hs.
    now apply preview_of_long.
Qed.

Lemma summarize_choice_fallback_chain_witness :
  summarize_choice (JDict [(lit "text", JStr (repeat 120 401))])
  = Ok (JStr (repeat 120 400 ++ [ELLIPSIS])).
Proof.
  refine (proj2 (proj2 (proj2 (proj2
            (summarize_choice_fallback_chain [(lit "text", JStr (repeat 120 401))]))))
            (repeat 120 401) _ _).
  - vm_compute. reflexivity.
  - vm_compute. lia.
Defined.

(** C8: when the content extracted from a choice is a string of exactly
    401 characters, the preview is its first 400 characters and one
    ellipsis character; when it has at most 400 characters, the preview is
    the content itself, and summarizing that preview again gives it back. *)
Theorem preview_truncation (choice : list (list N * json)) (s : list N) :
  content_of choice = JStr s ->
  (length s = 401%nat ->
     summarize_choice (JDict choice) = Ok (JStr (take 400 s ++ [ELLIPSIS])))
  /\ ((length s <= 400)%nat ->
        summarize_choice (JDict choice) = Ok (JStr s)
        /\ preview_of (JStr s) = Ok (JStr s)
        /\ summarize_choice (JDict [(lit "text", JStr s)]) = Ok (JStr s)).
Proof.
  intros Hs. split.
  - intros Hlen. cbn [summarize_choice]. rewrite Hs. apply preview_of_long. lia.
  - intros Hlen. cbn [summarize_choice]. rewrite Hs.
    split; [|split]; now apply preview_of_short.
Qed.

Lemma preview_truncation_witness :
  summarize_choice (JDict [(lit "message", JDict [(lit "content", JStr (repeat 120 401))])])
    = Ok (JStr (repeat 120 400 ++ [ELLIPSIS]))
  /\ summarize_choice (JDict [(lit "message", JDict [(lit "content", JStr (lit "X is..."))])])
    = Ok (JStr (lit "X is...")).
Proof.
  split.
  - refine (proj1 (preview_truncation
              [(lit "message", JDict [(lit "content", JStr (repeat 120 401))])]
              (repeat 120 401) _) _); vm_compute; reflexivity.
  - refine (proj1 (proj2 (preview_truncation
              [(lit "message", JDict [(lit "content", JStr (lit "X is..."))])]
              (lit "X is...") _) _)).
    + vm_compute. reflexivity.
    + vm_compute. lia.
Defined.

(** C10 promises a string of at most 401 characters for every choice, as
    the annotation [-> str] of [summarize_choice] does.  The code does not
    keep the promise on a choice whose content is not a string: a message
    whose content is null (as the API sends with tool calls) makes [len]
    raise [TypeError], so no value is returned at all, and a [text] that
    is a short list is returned as it is, a list and not a string. *)
Theorem summarize_choice_without_string :
  summarize_choice (JDict [(lit "message", JDict [(lit "content", JNull)])])
    = Raise TypeError
  /\ summarize_choice (JDict [(lit "text", JList [JInt 1; JInt 2])])
    = Ok (JList [JInt 1; JInt 2]).
Proof. split; vm_compute; reflexivity. Qed.

(** For every choice whose content (the message content, else the text
    field, else the cut JSON rendering) is a string, [summarize_choice]
    returns a string of at most 401 characters; and whatever the choice, a
    string it returns has at most 401 characters. *)
Theorem summarize_choice_length (choice : list (list N * json)) :
  (forall s, content_of choice = JStr s ->
     exists p, summarize_choice (JDict choice) = Ok (JStr p)
               /\ (length p <= 401)%nat)
  /\ (forall p, summarize_choice (JDict choice) = Ok (JStr p) ->
                (length p <= 401)%nat).
Proof.
  split.
  - intros s Hs. cbn [summarize_choice]. rewrite Hs.
    destruct (Nat.le_gt_cases (length s) 400) as [H | H].
    + exists s. split; [now apply preview_of_short | lia].
    + exists (take 400 s ++ [ELLIPSIS]). split; [now apply preview_of_long|].
      rewrite length_app, length_take. cbn [length]. lia.
  - intros p Hp. cbn [summarize_choice] in Hp. now apply preview_of_length in Hp.
Qed.

Lemma summarize_choice_length_witness :
  exists p, summarize_choice (JDict [(lit "finish_reason", JStr (lit "stop"))]) = Ok (JStr p)
            /\ (length p <= 401)%nat.
Proof.
  refine (proj1 (summarize_choice_length [(lit "finish_reason", JStr (lit "stop"))])
            (take 400 (dumps (JDict [(lit "finish_reason", JStr (lit "stop"))]))) _).
  vm_compute. reflexivity.
Defined.

End ProcessorClaims.

(* ===================================================================== *)
(** * The API client                                                      *)
(* ===================================================================== *)

Section ClientClaims.
Import GroqClient Answers.

Lemma effective_verify_path_run w (m : machine) :
  exists v, _effective_verify_path w m = (Ok v, m).
Proof.
  unfold _effective_verify_path.
  destruct (py_or _ _) as [| | | |[|c p]| |]; try (eexists; reflexivity);
    unfold bind, exists_, ret; destruct (bool_decide _); eexists; reflexivity.
Qed.

Lemma send_chat_answered cfg w messages model temperature max_tokens timeout
    (m : machine) resp :
  (forall req, post w req = Answered resp) ->
  send_chat cfg w messages model temperature max_tokens timeout m
  = (checked resp, m).
Proof.
  intros Hpost. unfold send_chat.
  destruct (effective_verify_path_run w m) as [v Hv].
  rewrite (bind_ok _ _ m m v Hv), Hpost.
  rewrite (bind_ok (ret resp) _ m m resp eq_refl). unfold checked.
  destruct (negb (ok resp)).
  - unfold raise. do 3 f_equal.
    destruct (json_ resp); [reflexivity|].
    unfold py_or. cbn [truthy]. now destruct (text resp).
  - now destruct (json_ resp).
Qed.

Lemma send_chat_failed cfg w messages model temperature max_tokens timeout
    (m : machine) what :
  (forall req, post w req = Failed what) ->
  send_chat cfg w messages model temperature max_tokens timeout m
  = (Raise (RequestException what), m).
Proof.
  intros Hpost. unfold send_chat.
  destruct (effective_verify_path_run w m) as [v Hv].
  rewrite (bind_ok _ _ m m v Hv), Hpost.
  now rewrite (bind_raise (raise (RequestException what)) _ m m _ eq_refl).
Qed.

(** The client raises nothing but [RuntimeError] and what [requests]
    raises, and leaves console and files alone. *)
Lemma send_chat_raises cfg w messages model temperature max_tokens timeout
    (m m' : machine) e :
  send_chat cfg w messages model temperature max_tokens timeout m = (Raise e, m') ->
  is_Exception e = true /\ m' = m.
Proof.
  unfold send_chat.
  destruct (effective_verify_path_run w m) as [v Hv].
  rewrite (bind_ok _ _ m m v Hv).
  destruct (post w _) as [resp | what].
  - rewrite (bind_ok (ret resp) _ m m resp eq_refl).
    destruct (negb (ok resp)); [intros [= <- <-]; auto|].
    destruct (json_ resp); [discriminate|]. intros [= <- <-]; auto.
  - rewrite (bind_raise (raise (RequestException what)) _ m m _ eq_refl).
    intros [= <- <-]; auto.
Qed.

(** C5, as stated, fails on an error answer with an empty body: the body
    is not valid JSON, yet the error carries the status code and reason
    phrase, not the (empty) raw text. *)
Lemma api_error_on_empty_body_carries_status_line :
  text gateway_error = []
  /\ ok gateway_error = false
  /\ (send_chat test_config (quiet_net (Answered gateway_error))
        (JList []) JNull (JFloat (lit "0.2")) (JInt 800) 15 (Machine [] ∅)).1
     = Raise (RuntimeError (Groq_API_error (JStr (lit "502 Bad Gateway"))))
  /\ (send_chat test_config (quiet_net (Answered gateway_error))
        (JList []) JNull (JFloat (lit "0.2")) (JInt 800) 15 (Machine [] ∅)).1
     <> Raise (RuntimeError (Groq_API_error (JStr (text gateway_error)))).
Proof.
  repeat split; try (vm_compute; reflexivity).
  vm_compute. discriminate.
Qed.

(** C5, as amended: for every response received, when the status is
    outside the range [resp.ok] accepts the call raises the API error,
    which carries the parsed body if the body is JSON, else the raw text
    if there is any, else the status code and reason phrase; when the
    status is accepted and the body is not JSON the call raises the
    decoding error with the parser's message and the raw text; otherwise
    it returns the parsed document as it is.  Console and files are
    untouched. *)
Theorem send_chat_validates_response
    cfg w messages model temperature max_tokens timeout (m : machine) resp :
  (forall req, post w req = Answered resp) ->
  let run := send_chat cfg w messages model temperature max_tokens timeout m in
  run.2 = m
  /\ (ok resp = false -> forall doc, json_ resp = Parsed doc ->
        run.1 = Raise (RuntimeError (Groq_API_error doc)))
  /\ (ok resp = false -> forall e, json_ resp = Unparsable e -> text resp <> [] ->
        run.1 = Raise (RuntimeError (Groq_API_error (JStr (text resp)))))
  /\ (ok resp = false -> forall e, json_ resp = Unparsable e -> text resp = [] ->
        run.1 = Raise (RuntimeError (Groq_API_error
                  (JStr (str_of_N (status_code resp) ++ lit " " ++ reason resp)))))
  /\ (ok resp = true -> forall e, json_ resp = Unparsable e ->
        run.1 = Raise (RuntimeError (Failed_to_parse e (text resp))))
  /\ (ok resp = true -> forall doc, json_ resp = Parsed doc -> run.1 = Ok doc).
Proof.
  intros Hpost run. unfold run.
  rewrite (send_chat_answered _ _ _ _ _ _ _ _ _ Hpost). cbn [fst snd].
  unfold checked. repeat split.
  - intros -> doc ->. reflexivity.
  - intros -> e -> Ht. cbn [negb]. now destruct (text resp).
  - intros -> e -> ->. reflexivity.
  - intros -> e ->. reflexivity.
  - intros -> doc ->. reflexivity.
Qed.

Lemma send_chat_validates_response_witness :
  (send_chat test_config
     (quiet_net (Answered (Response 401 (lit "Unauthorized") (lit "{...}")
                  (Parsed (JDict [(lit "error", JStr (lit "invalid api key"))])))))
     (JList []) JNull (JFloat (lit "0.2")) (JInt 800) 15 (Machine [] ∅)).1
  = Raise (RuntimeError (Groq_API_error
             (JDict [(lit "error", JStr (lit "invalid api key"))]))).
Proof.
  refine (proj1 (proj2 (send_chat_validates_response test_config
            (quiet_net (Answered (Response 401 (lit "Unauthorized") (lit "{...}")
                  (Parsed (JDict [(lit "error", JStr (lit "invalid api key"))])))))
            (JList []) JNull (JFloat (lit "0.2")) (JInt 800) 15 (Machine [] ∅)
            (Response 401 (lit "Unauthorized") (lit "{...}")
                  (Parsed (JDict [(lit "error", JStr (lit "invalid api key"))])))
            _)) _ _ _).
  - intros req. reflexivity.
  - vm_compute. reflexivity.
  - reflexivity.
Defined.

End ClientClaims.

(* ===================================================================== *)
(** * The entry points                                                    *)
(* ===================================================================== *)

Section EntryPoints.
Import GroqClient Processor Answers.

Lemma catchable_ret {A} (a : A) : catchable (ret a).
Proof. intros m m' e H. discriminate H. Qed.

Lemma catchable_raise {A} e : is_Exception e = true -> catchable (@raise A e).
Proof. intros He m m' e' [= <- _]. exact He. Qed.

Lemma catchable_print ev : catchable (print ev).
Proof. intros m m' e H. discriminate H. Qed.

Lemma catchable_bind {A B} (c : io A) (k : A -> io B) :
  catchable c -> (forall a, catchable (k a)) -> catchable (bind c k).
Proof.
  intros Hc Hk m m' e. unfold bind.
  destruct (c m) as [[a|e1] m1] eqn:E.
  - apply Hk.
  - intros [= <- <-]. exact (Hc _ _ _ E).
Qed.

Lemma catchable_lift {A} (r : result A) :
  (forall e, r = Raise e -> is_Exception e = true) -> catchable (lift r).
Proof. intros Hr m m' e [= -> _]. now apply Hr. Qed.

Lemma catchable_write_text p text : catchable (write_text p text).
Proof.
  unfold write_text. apply catchable_bind; [intros m m' e H; discriminate H|].
  intros _. destruct (utf8_encode text).
  - intros m m' e H. discriminate H.
  - now apply catchable_raise.
Qed.

Lemma preview_of_raises v e : preview_of v = Raise e -> e = TypeError.
Proof.
  unfold preview_of. destruct v; simpl; try (intros [= <-]; reflexivity);
    destruct (_ <=? 400)%nat; try discriminate; intros [= <-]; reflexivity.
Qed.

Lemma summarize_choice_raises choice e :
  summarize_choice choice = Raise e -> is_Exception e = true.
Proof.
  assert (Hp : forall v, preview_of v = Raise e -> is_Exception e = true).
  { intros v H. now rewrite (preview_of_raises v e H). }
  destruct choice; cbn [summarize_choice py_in]; try (intros [= <-]; reflexivity);
    try apply Hp.
  - destruct (is_substring _ s); [intros [= <-]; reflexivity|].
    destruct (is_substring _ s); [intros [= <-]; reflexivity|]. apply Hp.
  - destruct (existsb _ items); [intros [= <-]; reflexivity|].
    destruct (existsb _ items); [intros [= <-]; reflexivity|]. apply Hp.
Qed.

Lemma catchable_print_previews choices : forall i, catchable (print_previews i choices).
Proof.
  induction choices as [|ch rest IH]; intros i; cbn [print_previews].
  - apply catchable_ret.
  - apply catchable_bind; [apply catchable_lift, summarize_choice_raises|].
    intros preview. apply catchable_bind; [apply catchable_print|].
    intros _. apply IH.
Qed.

Lemma catchable_process_and_save resolve response out_path :
  catchable (process_and_save resolve response out_path).
Proof.
  unfold process_and_save. apply catchable_bind; [apply catchable_print|]. intros _.
  destruct response;
    try (apply catchable_bind; [apply catchable_print|]; intros _;
         now apply catchable_raise).
  apply catchable_bind; [apply catchable_print|]. intros _.
  apply catchable_bind.
  { destruct (dict_get (lit "choices") fields) as [[]|]; try apply catchable_ret.
    apply catchable_bind; [apply catchable_print|]. intros _.
    apply catchable_print_previews. }
  intros _. apply catchable_bind.
  { destruct (truthy _); [|apply catchable_ret].
    apply catchable_bind; [apply catchable_print|]. intros _. apply catchable_print. }
  intros _. apply catchable_bind.
  { destruct (dict_has _ fields); [apply catchable_print | apply catchable_ret]. }
  intros _. apply catchable_bind.
  { destruct (dict_has _ fields); [apply catchable_print | apply catchable_ret]. }
  intros _. apply catchable_bind; [apply catchable_write_text|]. intros _.
  apply catchable_bind; [apply catchable_print|]. intros _. apply catchable_print.
Qed.

Lemma catchable_send_chat cfg w messages model temperature max_tokens timeout :
  catchable (send_chat cfg w messages model temperature max_tokens timeout).
Proof. intros m m' e H. now apply send_chat_raises in H. Qed.

Lemma catchable_request_and_save cfg w utcnow a messages model :
  catchable (Cli.request_and_save cfg w utcnow a messages model).
Proof.
  unfold Cli.request_and_save.
  apply catchable_bind; [apply catchable_print|]. intros _.
  apply catchable_bind; [apply catchable_send_chat|]. intros resp.
  apply catchable_process_and_save.
Qed.

Lemma try_except_ok {A} (body : io A) handler (m m' : machine) a :
  body m = (Ok a, m') -> try_except body handler m = (Ok a, m').
Proof. intros H. unfold try_except. now rewrite H. Qed.

Lemma try_except_caught {A} (body : io A) handler (m m' : machine) e :
  body m = (Raise e, m') -> is_Exception e = true ->
  try_except body handler m = handler e m'.
Proof. intros H He. unfold try_except. now rewrite H, He. Qed.

Lemma read_prompt_without_file a (m : machine) :
  Cli.given (Cli.file a) = None ->
  Cli.read_prompt a m
  = (Ok (default Cli.DEFAULT_PROMPT (Cli.given (Cli.prompt a))), m).
Proof. intros H. unfold Cli.read_prompt. now rewrite H. Qed.

(** A failure of the client inside the [try] statement, after the line
    that announces the request. *)
Lemma request_and_save_client_failure cfg w utcnow a messages model (m : machine) r :
  (forall m1 : machine,
     send_chat cfg w messages model (JFloat (Cli.temperature a))
               (JInt (Cli.max_tokens a)) 15 m1 = (r, m1)) ->
  forall e, r = Raise e ->
  Cli.request_and_save cfg w utcnow a messages model m
  = (Raise e, Machine (stdout m ++ [Line (lit "Sending request to Groq...")]) (disk m)).
Proof.
  intros Hsend e ->. unfold Cli.request_and_save.
  rewrite (bind_ok (print _) _ m _ tt eq_refl).
  now rewrite (bind_raise _ _ _ _ _ (Hsend _)).
Qed.

(** C6 names the missing prompt file among the failures after which the
    entry point prints the error and exits with code 2.  The code does not
    do so: run with [--file prompt.txt] where no such file exists, it
    reads the file before the [try] statement, so the [FileNotFoundError]
    leaves [main] uncaught; the program prints nothing and the interpreter
    ends with status 1, not 2, after its traceback. *)
Theorem missing_prompt_file_is_not_handled :
  let a := Cli.Args None (Some (lit "prompt.txt")) None (lit "0.2") 800 None in
  let run := Cli.main test_config (quiet_net (Failed []))
                      (lit "2026-01-01T00:00:00") a (Machine [] ∅) in
  run.1 = Raise (FileNotFoundError (lit "prompt.txt"))
  /\ stdout run.2 = []
  /\ exit_status run.1 = 1%Z
  /\ exit_status run.1 <> 2%Z.
Proof.
  repeat split; try (vm_compute; reflexivity).
  vm_compute. discriminate.
Qed.

(** Once the prompt is at hand (no prompt file was asked for, or it could
    be read), the command-line entry point exits with code 0 when the
    request and the processing of the answer succeed, and on every failure
    raised there (a transport failure, an API error, a failure while
    summarising or saving) it prints the error and exits with code 2. *)
Theorem handled_failures_exit_with_2 cfg w utcnow a (m m0 : machine) prompt :
  Cli.read_prompt a m = (Ok prompt, m0) ->
  let messages := Cli.build_messages prompt in
  let model := py_or (Cli.opt_json (Cli.model a))
                     (getenv (environ w) (lit "GROQ_MODEL")) in
  let body := Cli.request_and_save cfg w utcnow a messages model in
  let run := Cli.main cfg w utcnow a m in
  let sending := Line (lit "Sending request to Groq...") in
  (forall m1, body m0 = (Ok tt, m1) ->
     run = (Ok tt, m1) /\ exit_status run.1 = 0%Z)
  /\ (forall exc m1, body m0 = (Raise exc, m1) ->
        run = (Raise (SystemExit 2), Machine (stdout m1 ++ [ErrorLine exc]) (disk m1))
        /\ exit_status run.1 = 2%Z)
  /\ (forall what, (forall req, post w req = Failed what) ->
        run = (Raise (SystemExit 2),
               Machine (stdout m0 ++ [sending; ErrorLine (RequestException what)])
                       (disk m0)))
  /\ (forall resp, (forall req, post w req = Answered resp) -> ok resp = false ->
        exists err,
          checked resp = Raise (RuntimeError (Groq_API_error err))
          /\ run = (Raise (SystemExit 2),
                    Machine (stdout m0
                             ++ [sending; ErrorLine (RuntimeError (Groq_API_error err))])
                            (disk m0))).
Proof.
  intros Hread messages model body run sending.
  assert (Hrun : run = try_except body
                   (fun exc => bind (print (ErrorLine exc))
                                    (fun _ => raise (SystemExit 2))) m0).
  { unfold run, Cli.main. now rewrite (bind_ok _ _ m m0 prompt Hread). }
  assert (Hcaught : forall exc m1, body m0 = (Raise exc, m1) ->
            run = (Raise (SystemExit 2),
                   Machine (stdout m1 ++ [ErrorLine exc]) (disk m1))).
  { intros exc m1 Hb. rewrite Hrun.
    rewrite (try_except_caught _ _ m0 m1 exc Hb
               (catchable_request_and_save _ _ _ _ _ _ _ _ _ Hb)).
    reflexivity. }
  split; [|split; [|split]].
  - intros m1 Hb. rewrite Hrun, (try_except_ok _ _ m0 m1 tt Hb). auto.
  - intros exc m1 Hb. rewrite (Hcaught exc m1 Hb). auto.
  - intros what Hpost.
    rewrite (Hcaught (RequestException what)
               (Machine (stdout m0 ++ [sending]) (disk m0))).
    + cbn [stdout disk]. now rewrite <- app_assoc.
    + apply (request_and_save_client_failure _ _ _ _ _ _ _
               (Raise (RequestException what))); [|reflexivity].
      intros m1. now apply send_chat_failed.
  - intros resp Hpost Hok.
    assert (Hc : exists err, checked resp = Raise (RuntimeError (Groq_API_error err))).
    { unfold checked. rewrite Hok. eexists. reflexivity. }
    destruct Hc as [err Hc]. exists err. split; [exact Hc|].
    rewrite (Hcaught (RuntimeError (Groq_API_error err))
               (Machine (stdout m0 ++ [sending]) (disk m0))).
    + cbn [stdout disk]. now rewrite <- app_assoc.
    + apply (request_and_save_client_failure _ _ _ _ _ _ _ (checked resp));
        [|exact Hc].
      intros m1. now apply send_chat_answered.
Qed.

Lemma handled_failures_exit_with_2_witness :
  exit_status
    (Cli.main test_config (quiet_net (Failed (lit "timed out")))
              (lit "2026-01-01T00:00:00")
              (Cli.Args (Some (lit "Summarize X")) None None (lit "0.2") 800 None)
              (Machine [] ∅)).1 = 2%Z.
Proof.
  pose proof (proj1 (proj2 (proj2
    (handled_failures_exit_with_2 test_config (quiet_net (Failed (lit "timed out")))
       (lit "2026-01-01T00:00:00")
       (Cli.Args (Some (lit "Summarize X")) None None (lit "0.2") 800 None)
       (Machine [] ∅) (Machine [] ∅) (lit "Summarize X") eq_refl)))
    (lit "timed out") (fun _ => eq_refl)) as H.
  cbv zeta in H. rewrite H. reflexivity.
Defined.

(** The bundle path the setup script works with: [Path(args.out)] when
    [--out] is given, the default below the working directory otherwise. *)
Lemma setup_main_with_certificate h sa (ms m1 m2 : machine) z custom :
  SetupCerts.given (SetupCerts.zscaler sa) = Some z ->
  disk ms !! PurePath.Path z = Some custom ->
  let out := default (SetupCerts.OUT_DEFAULT h)
                     (PurePath.Path <$> SetupCerts.given (SetupCerts.out sa)) in
  SetupCerts.write_combined_bundle h (PurePath.Path z) out ms = (Ok out, m1) ->
  SetupCerts.update_env_file out SetupCerts.ENV_PATH m1 = (Ok tt, m2) ->
  SetupCerts.main h sa ms = (Ok tt, m2).
Proof.
  intros Hz Hsome out Hw Hu.
  unfold SetupCerts.main. rewrite Hz. cbv zeta.
  rewrite (bind_ok _ _ ms ms true (exists_some ms _ custom Hsome)).
  cbn [negb].
  replace (match SetupCerts.given (SetupCerts.out sa) with
           | Some p => PurePath.Path p
           | None => SetupCerts.OUT_DEFAULT h
           end) with out
    by (unfold out; now destruct (SetupCerts.given (SetupCerts.out sa))).
  rewrite (bind_ok _ _ ms m1 out Hw).
  now rewrite (bind_ok _ _ m1 m2 tt Hu).
Qed.

(** Run with [--zscaler] naming a certificate that does not exist, the
    setup script prints one line, which ends with the path as [pathlib]
    writes it, and exits with code 2; no file is touched. *)
Theorem setup_main_missing_certificate_exits_2 h sa (ms : machine) z :
  SetupCerts.given (SetupCerts.zscaler sa) = Some z ->
  disk ms !! PurePath.Path z = None ->
  SetupCerts.main h sa ms
  = (Raise (SystemExit 2),
     Machine (stdout ms
              ++ [Line (lit "Provided zscaler cert does not exist: "
                        ++ PurePath.Path z)])
             (disk ms))
  /\ exit_status (SetupCerts.main h sa ms).1 = 2%Z.
Proof.
  intros Hz Hnone.
  assert (E : SetupCerts.main h sa ms
              = (Raise (SystemExit 2),
                 Machine (stdout ms
                          ++ [Line (lit "Provided zscaler cert does not exist: "
                                    ++ PurePath.Path z)])
                         (disk ms))).
  { unfold SetupCerts.main. rewrite Hz. cbv zeta.
    rewrite (bind_ok _ _ ms ms false (exists_none ms _ Hnone)). reflexivity. }
  rewrite E. auto.
Qed.

Lemma setup_main_missing_certificate_exits_2_witness :
  SetupCerts.main (SetupCerts.Host (lit "/work") (lit "/site/cacert.pem") None)
                  (SetupCerts.Args (Some (lit "./certs//nope.cer")) None)
                  (Machine [] ∅)
  = (Raise (SystemExit 2),
     Machine [Line (lit "Provided zscaler cert does not exist: certs/nope.cer")] ∅).
Proof.
  refine (eq_trans (proj1 (setup_main_missing_certificate_exits_2
            (SetupCerts.Host (lit "/work") (lit "/site/cacert.pem") None)
            (SetupCerts.Args (Some (lit "./certs//nope.cer")) None)
            (Machine [] ∅) (lit "./certs//nope.cer") eq_refl _)) _).
  - vm_compute. reflexivity.
  - vm_compute. reflexivity.
Defined.

(** C9: whenever the request body is an object, so that the client is
    called at all, every failure the client raises is caught by the view,
    which answers with status 500 and a JSON body holding the error
    message and the text of the exception as details; this covers a
    transport failure and every answer the client rejects.  The failure
    never leaves the view. *)
Theorem summarize_catches_client_failures
    cfg w request_json (body : list (list N * json)) (m : machine) :
  py_or request_json (JDict []) = JDict body ->
  let prompt := dict_get_default (lit "prompt") (JStr (lit "No prompt provided")) body in
  let temperature := dict_get_default (lit "temperature") (JFloat (lit "0.2")) body in
  let max_tokens := dict_get_default (lit "max_tokens") (JInt 800) body in
  let model := py_or (dict_get_default (lit "model") JNull body)
                     (JStr (GROQ_MODEL cfg)) in
  let call := send_chat cfg w (Webapp.messages_of prompt) model temperature
                        max_tokens 15 in
  let failed e := Webapp.ErrorReply 500 (lit "Failed to call Groq API") e in
  (forall e m1, call m = (Raise e, m1) ->
     Webapp.summarize cfg w request_json m = (Ok (failed e), m1))
  /\ (forall what, (forall req, post w req = Failed what) ->
        Webapp.summarize cfg w request_json m
        = (Ok (failed (RequestException what)), m))
  /\ (forall resp e, (forall req, post w req = Answered resp) ->
        checked resp = Raise e ->
        Webapp.summarize cfg w request_json m = (Ok (failed e), m)).
Proof.
  intros Hbody prompt temperature max_tokens model call failed.
  assert (Hcatch : forall e m1, call m = (Raise e, m1) ->
            Webapp.summarize cfg w request_json m = (Ok (failed e), m1)).
  { intros e m1 Hcall. unfold Webapp.summarize. rewrite Hbody.
    cbn [Webapp.py_get].
    rewrite (bind_ok (lift (Ok prompt)) _ m m prompt eq_refl).
    rewrite (bind_ok (lift (Ok temperature)) _ m m temperature eq_refl).
    rewrite (bind_ok (lift (Ok max_tokens)) _ m m max_tokens eq_refl).
    rewrite (bind_ok (lift (Ok (dict_get_default (lit "model") JNull body))) _ m m
               _ eq_refl).
    apply send_chat_raises in Hcall as Hexc. destruct Hexc as [Hexc _].
    erewrite try_except_caught; [reflexivity | | exact Hexc].
    fold prompt model temperature max_tokens call.
    apply (bind_raise call _ m m1 e Hcall). }
  split; [exact Hcatch|]. split.
  - intros what Hpost. apply Hcatch. unfold call. now apply send_chat_failed.
  - intros resp e Hpost He. apply Hcatch. unfold call.
    rewrite (send_chat_answered _ _ _ _ _ _ _ _ _ Hpost). now rewrite He.
Qed.

Lemma summarize_catches_client_failures_witness :
  Webapp.summarize test_config (quiet_net (Answered gateway_error))
    (JDict [(lit "prompt", JStr (lit "Summarize X"))]) (Machine [] ∅)
  = (Ok (Webapp.ErrorReply 500 (lit "Failed to call Groq API")
           (RuntimeError (Groq_API_error (JStr (lit "502 Bad Gateway"))))),
     Machine [] ∅).
Proof.
  refine (proj2 (proj2 (summarize_catches_client_failures test_config
            (quiet_net (Answered gateway_error))
            (JDict [(lit "prompt", JStr (lit "Summarize X"))])
            [(lit "prompt", JStr (lit "Summarize X"))] (Machine [] ∅) eq_refl))
            gateway_error _ (fun _ => eq_refl) _).
  vm_compute. reflexivity.
Defined.

End EntryPoints.


(* ===================================================================== *)
(** * Further properties of the environment-file merge                    *)
(* ===================================================================== *)

Section MergeMore.
Import EnvFile SetupCerts.

Lemma rewritten_rewritten b1 b2 line :
  rewritten b2 (rewritten b1 line) = rewritten b2 line.
Proof.
  unfold rewritten at 1. rewrite line_key_rewritten.
  unfold rewritten. destruct (line_key line) as [k|]; [|reflexivity].
  now destruct (is_managed_key k).
Qed.

Lemma rewritten_binding b1 b2 k :
  is_managed_key k = true -> rewritten b2 (binding k b1) = binding k b2.
Proof.
  intros Hk. unfold rewritten.
  now rewrite (line_key_binding k b1 (managed_clean k Hk)), Hk.
Qed.

Lemma existsb_binds_merged b lines k :
  is_managed_key k = true -> existsb (binds k) (merged_lines b lines) = true.
Proof.
  intros Hk. destruct (existsb (binds k) (merged_lines b lines)) eqn:E; [reflexivity|].
  apply occurrences_zero in E. rewrite (occurrences_merged b lines k Hk) in E. lia.
Qed.

Lemma merged_lines_over c1 c2 lines :
  merged_lines c2 (merged_lines c1 lines) = merged_lines c2 lines.
Proof.
  rewrite (merged_lines_eq c2 (merged_lines c1 lines)).
  rewrite !existsb_binds_merged by reflexivity. rewrite !app_nil_r.
  rewrite (merged_lines_eq c1 lines), (merged_lines_eq c2 lines), !List.map_app.
  rewrite List.map_map.
  rewrite (List.map_ext _ _ (rewritten_rewritten c1 c2)).
  f_equal.
  destruct (existsb (binds (lit "SSL_CERT_FILE")) lines),
           (existsb (binds (lit "REQUESTS_CA_BUNDLE")) lines);
    cbn [List.map app]; rewrite ?rewritten_binding by reflexivity; reflexivity.
Qed.

(** A second merge only swaps the bundle path: merging for [b2] what was
    merged for [b1] gives what merging the original for [b2] gives.  With
    the same path twice the merge changes nothing the second time: no line
    is added again. *)
Theorem merged_lines_again b1 b2 lines :
  merged_lines b2 (merged_lines b1 lines) = merged_lines b2 lines
  /\ merged_lines b1 (merged_lines b1 lines) = merged_lines b1 lines.
Proof. split; apply merged_lines_over. Qed.

(** The merge keeps every line in its place: a line that binds no managed
    key (a comment, a blank or malformed line, another key) is found at
    the same position afterwards, unchanged; the result is the original
    length plus one line for each managed key that was bound nowhere, so
    never shorter and at most two lines longer. *)
Theorem merged_lines_keeps_positions b (lines : list (list N)) :
  (forall i line, lines !! i = Some line -> managed_line line = false ->
     merged_lines b lines !! i = Some line)
  /\ length (merged_lines b lines)
     = (length lines
        + (if existsb (binds (lit "SSL_CERT_FILE")) lines then 0 else 1)
        + (if existsb (binds (lit "REQUESTS_CA_BUNDLE")) lines then 0 else 1))%nat
  /\ (length lines <= length (merged_lines b lines) <= length lines + 2)%nat.
Proof.
  assert (Hlen : length (merged_lines b lines)
     = (length lines
        + (if existsb (binds (lit "SSL_CERT_FILE")) lines then 0 else 1)
        + (if existsb (binds (lit "REQUESTS_CA_BUNDLE")) lines then 0 else 1))%nat).
  { rewrite merged_lines_eq, !length_app, List.length_map.
    destruct (existsb _ lines), (existsb _ lines); cbn [length]; lia. }
  split; [|split; [exact Hlen|]].
  - intros i line Hi Hm. rewrite (merged_lines_lookup b lines i line Hi).
    f_equal. unfold rewritten. unfold managed_line in Hm.
    destruct (line_key line) as [k|]; [|reflexivity]. now rewrite Hm.
  - rewrite Hlen.
    destruct (existsb _ lines), (existsb _ lines); lia.
Qed.

Lemma merged_lines_keeps_positions_witness :
  merged_lines (lit "/b.pem") [lit "# SSL_CERT_FILE=commented"; lit "SSL_CERT_FILE=x"]
    !! 0%nat = Some (lit "# SSL_CERT_FILE=commented").
Proof.
  refine (proj1 (merged_lines_keeps_positions (lit "/b.pem")
            [lit "# SSL_CERT_FILE=commented"; lit "SSL_CERT_FILE=x"])
            0%nat (lit "# SSL_CERT_FILE=commented") _ _); vm_compute; reflexivity.
Defined.

End MergeMore.


(* ===================================================================== *)
(** * Further properties of the certificate setup script                  *)
(* ===================================================================== *)

Section SetupMore.
Import EnvFile SetupCerts.

Lemma update_env_file_fresh b env_path (m : machine) out :
  disk m !! env_path = None ->
  utf8_encode (env_text [binding (lit "SSL_CERT_FILE") b;
                         binding (lit "REQUESTS_CA_BUNDLE") b]) = Some out ->
  exists m',
    update_env_file b env_path m = (Ok tt, m')
    /\ disk m' !! env_path = Some (List.map byte_of_N out)
    /\ disk m' !! backup_path env_path = disk m !! backup_path env_path
    /\ (forall p, p <> env_path -> disk m' !! p = disk m !! p)
    /\ stdout m'
       = stdout m ++ [Line (lit "No existing .env to back up.");
                      Line (lit ".env updated (merged) with keys: SSL_CERT_FILE, REQUESTS_CA_BUNDLE")].
Proof.
  intros He Ho. unfold update_env_file.
  assert (Hb : backup_env env_path m
               = (Ok None, Machine (stdout m ++ [Line (lit "No existing .env to back up.")])
                                   (disk m)))
    by (rewrite backup_env_run, He; reflexivity).
  rewrite (bind_ok _ _ _ _ _ Hb).
  set (m1 := Machine _ (disk m)).
  assert (He1 : disk m1 !! env_path = None) by exact He.
  rewrite (bind_ok _ _ _ _ _ (exists_none m1 env_path He1)).
  rewrite (bind_ok (ret []) _ m1 m1 [] eq_refl).
  change (merged_lines b []) with
    [binding (lit "SSL_CERT_FILE") b; binding (lit "REQUESTS_CA_BUNDLE") b].
  unfold write_text.
  rewrite (bind_ok (bind (open_wb env_path) _) _ m1
             (Machine (stdout m1) (<[env_path := List.map byte_of_N out]>
                                     (<[env_path := []]> (disk m1)))) tt).
  2:{ unfold bind, open_wb, write. rewrite Ho. cbn [disk stdout].
      now rewrite lookup_insert_eq. }
  unfold print. eexists. split; [reflexivity|]. cbn [disk stdout m1].
  split; [now rewrite lookup_insert_eq|].
  split; [rewrite !lookup_insert_ne by (apply not_eq_sym, backup_path_ne); reflexivity|].
  split.
  - intros p Hp. now rewrite !lookup_insert_ne by congruence.
  - rewrite <- app_assoc. reflexivity.
Qed.

(** Without an environment file the update writes a new one that holds
    the two managed keys bound to the bundle path and nothing else; it
    makes no backup, says so, and touches no other file. *)
Theorem update_env_file_creates b env_path (m : machine) out :
  disk m !! env_path = None ->
  utf8_encode (env_text [binding (lit "SSL_CERT_FILE") b;
                         binding (lit "REQUESTS_CA_BUNDLE") b]) = Some out ->
  exists m',
    update_env_file b env_path m = (Ok tt, m')
    /\ disk m' !! env_path = Some (List.map byte_of_N out)
    /\ disk m' !! backup_path env_path = disk m !! backup_path env_path
    /\ (forall p, p <> env_path -> disk m' !! p = disk m !! p)
    /\ stdout m'
       = stdout m ++ [Line (lit "No existing .env to back up.");
                      Line (lit ".env updated (merged) with keys: SSL_CERT_FILE, REQUESTS_CA_BUNDLE")].
Proof. exact (update_env_file_fresh b env_path m out). Qed.

Lemma update_env_file_creates_witness :
  exists m',
    update_env_file (lit "/b.pem") ENV_PATH (Machine [] ∅) = (Ok tt, m')
    /\ disk m' !! ENV_PATH
       = Some (ascii_bytes (lit "SSL_CERT_FILE=/b.pem" ++ [LF]
                            ++ lit "REQUESTS_CA_BUNDLE=/b.pem" ++ [LF])).
Proof.
  destruct (update_env_file_creates (lit "/b.pem") ENV_PATH (Machine [] ∅)
              (lit "SSL_CERT_FILE=/b.pem" ++ [LF]
               ++ lit "REQUESTS_CA_BUNDLE=/b.pem" ++ [LF]))
    as (m' & H1 & H2 & _).
  - vm_compute. reflexivity.
  - vm_compute. reflexivity.
  - exists m'. split; assumption.
Defined.

(** An environment file that is not valid UTF-8 stops the update with a
    [UnicodeDecodeError]: the file is left exactly as it was, and the only
    change on disk is the backup copy made before the read (when there was
    no backup yet). *)
Theorem update_env_file_undecodable b env_path (m : machine) raw :
  disk m !! env_path = Some raw ->
  utf8_decode (List.map Byte.to_N raw) = None ->
  exists m',
    update_env_file b env_path m = (Raise UnicodeDecodeError, m')
    /\ disk m' !! env_path = Some raw
    /\ disk m' !! backup_path env_path
       = Some (default raw (disk m !! backup_path env_path))
    /\ forall p, p <> backup_path env_path -> disk m' !! p = disk m !! p.
Proof.
  intros He Hd.
  pose proof (backup_path_ne env_path) as Hne.
  destruct (backup_env_disk env_path m) as [Hbak Hrest].
  destruct (backup_env_ok env_path m) as [r1 Hr1].
  unfold update_env_file.
  destruct (backup_env env_path m) as [r m1] eqn:Hrun. cbn [fst snd] in *. subst r.
  rewrite (bind_ok _ _ m m1 r1 Hrun).
  assert (Henv : disk m1 !! env_path = Some raw)
    by (rewrite Hrest; [exact He | congruence]).
  rewrite (bind_ok _ _ _ _ _ (exists_some m1 env_path raw Henv)).
  assert (Hread : read_text env_path m1 = (Raise UnicodeDecodeError, m1)).
  { unfold read_text, bind, read_bytes. rewrite Henv, Hd. reflexivity. }
  rewrite (bind_raise _ _ m1 m1 UnicodeDecodeError).
  2:{ now rewrite (bind_raise _ _ m1 m1 UnicodeDecodeError Hread). }
  exists m1. split; [reflexivity|]. split; [exact Henv|]. split; [|exact Hrest].
  rewrite Hbak, He. now destruct (disk m !! backup_path env_path).
Qed.

Lemma update_env_file_undecodable_witness :
  exists m',
    update_env_file (lit "/b.pem") ENV_PATH
      (Machine [] {[ ENV_PATH := [byte_of_N 255] ]})
    = (Raise UnicodeDecodeError, m')
    /\ disk m' !! ENV_PATH = Some [byte_of_N 255].
Proof.
  destruct (update_env_file_undecodable (lit "/b.pem") ENV_PATH
              (Machine [] {[ ENV_PATH := [byte_of_N 255] ]}) [byte_of_N 255])
    as (m' & H1 & H2 & _).
  - vm_compute. reflexivity.
  - vm_compute. reflexivity.
  - exists m'. split; assumption.
Defined.

(** When the public bundle or the custom certificate cannot be opened,
    [write_combined_bundle] raises [FileNotFoundError] for that file before
    the output is opened: nothing is printed, and the output file is neither
    created nor emptied. *)
Theorem write_combined_bundle_missing_input h zscaler_path out_path (m : machine) :
  (disk m !! certifi_where h = None ->
     write_combined_bundle h zscaler_path out_path m
     = (Raise (FileNotFoundError (certifi_where h)), m))
  /\ (forall public, disk m !! certifi_where h = Some public ->
        disk m !! zscaler_path = None ->
        write_combined_bundle h zscaler_path out_path m
        = (Raise (FileNotFoundError zscaler_path), m)).
Proof.
  split.
  - intros Hc. unfold write_combined_bundle.
    apply bind_raise. unfold open_rb. now rewrite Hc.
  - intros public Hc Hz. unfold write_combined_bundle.
    rewrite (bind_ok _ _ m _ _ (open_rb_ok m _ _ Hc)).
    apply bind_raise. unfold open_rb. now rewrite Hz.
Qed.

Lemma write_combined_bundle_missing_input_witness :
  write_combined_bundle (Host (lit "/work") (lit "/site/cacert.pem") None)
    (lit "/z.cer") (lit "/out.pem")
    (Machine [] {[ lit "/site/cacert.pem" := ascii_bytes (lit "PUBLIC") ]})
  = (Raise (FileNotFoundError (lit "/z.cer")),
     Machine [] {[ lit "/site/cacert.pem" := ascii_bytes (lit "PUBLIC") ]}).
Proof.
  refine (proj2 (write_combined_bundle_missing_input
            (Host (lit "/work") (lit "/site/cacert.pem") None)
            (lit "/z.cer") (lit "/out.pem")
            (Machine [] {[ lit "/site/cacert.pem" := ascii_bytes (lit "PUBLIC") ]}))
            (ascii_bytes (lit "PUBLIC")) _ _); vm_compute; reflexivity.
Defined.

(** The bundle step in one equation, for inputs that are there and an
    output that is a third file. *)
Lemma write_combined_bundle_run h zscaler_path out_path (m : machine) public custom :
  disk m !! certifi_where h = Some public ->
  disk m !! zscaler_path = Some custom ->
  out_path <> certifi_where h ->
  out_path <> zscaler_path ->
  write_combined_bundle h zscaler_path out_path m
  = (Ok out_path,
     Machine (stdout m ++ [Line (lit "Combined bundle written to: " ++ out_path)])
             (<[out_path := public ++ [byte_of_N LF] ++ custom]> (disk m))).
Proof.
  intros Hc Hz Hoc Hoz. unfold write_combined_bundle.
  rewrite (bind_ok _ _ m _ _ (open_rb_ok m _ _ Hc)).
  rewrite (bind_ok _ _ m _ _ (open_rb_ok m _ _ Hz)).
  rewrite (bind_ok _ _ m _ _ eq_refl : bind (open_wb out_path) _ m = _).
  set (m1 := Machine (stdout m) (<[out_path := []]> (disk m))).
  assert (Hc1 : disk m1 !! certifi_where h = Some public)
    by (cbn [m1 disk]; now rewrite lookup_insert_ne).
  rewrite (bind_ok _ _ m1 _ _ (read_bytes_ok m1 _ _ Hc1)).
  rewrite (bind_ok _ _ m1 _ _ eq_refl : bind (write out_path public) _ m1 = _).
  set (m2 := Machine _ _).
  rewrite (bind_ok _ _ m2 _ _ eq_refl : bind (write out_path [byte_of_N LF]) _ m2 = _).
  set (m3 := Machine _ _).
  assert (Hz3 : disk m3 !! zscaler_path = Some custom).
  { cbn [m3 m2 m1 disk stdout]. now rewrite !lookup_insert_ne. }
  rewrite (bind_ok _ _ m3 _ _ (read_bytes_ok m3 _ _ Hz3)).
  rewrite (bind_ok _ _ m3 _ _ eq_refl : bind (write out_path custom) _ m3 = _).
  set (m4 := Machine _ _).
  rewrite (bind_ok _ _ m4 _ _ eq_refl : bind (print _) _ m4 = _).
  unfold ret. cbn [m4 m3 m2 m1 disk stdout]. do 2 f_equal.
  rewrite !lookup_insert_eq. cbn [default]. rewrite !insert_insert_eq.
  unfold id. cbn [app]. now rewrite <- app_assoc.
Qed.

(** The whole setup with the certificate named on the command line, on a
    machine without an environment file.  The script works with the paths
    as [pathlib] writes them: [Path(args.zscaler)] for the certificate and
    [Path(args.out)], or the default, for the bundle.  It exits with code
    0, the bundle file holds the public bundle, a newline and the
    certificate, and the new environment file binds the two managed keys
    to the bundle path; no backup file appears. *)
Theorem main_with_certificate_sets_up h a (m : machine) z public custom bytes :
  given (zscaler a) = Some z ->
  let zpath := PurePath.Path z in
  disk m !! zpath = Some custom ->
  disk m !! certifi_where h = Some public ->
  let out := default (OUT_DEFAULT h) (PurePath.Path <$> given (out a)) in
  out <> certifi_where h -> out <> zpath ->
  out <> ENV_PATH -> out <> backup_path ENV_PATH ->
  disk m !! ENV_PATH = None ->
  utf8_encode (env_text [binding (lit "SSL_CERT_FILE") out;
                         binding (lit "REQUESTS_CA_BUNDLE") out]) = Some bytes ->
  exists m',
    main h a m = (Ok tt, m')
    /\ exit_status (main h a m).1 = 0%Z
    /\ disk m' !! out = Some (public ++ [byte_of_N LF] ++ custom)
    /\ disk m' !! ENV_PATH = Some (List.map byte_of_N bytes)
    /\ disk m' !! backup_path ENV_PATH = disk m !! backup_path ENV_PATH.
Proof.
  intros Hz zpath Hcustom Hpublic out Hoc Hoz Hoe Hob Henv Henc.
  pose proof (write_combined_bundle_run h zpath out m public custom
                Hpublic Hcustom Hoc Hoz) as Hw.
  set (m1 := Machine _ (<[out := _]> (disk m))) in Hw.
  assert (Henv1 : disk m1 !! ENV_PATH = None)
    by (cbn [m1 disk]; now rewrite lookup_insert_ne).
  destruct (update_env_file_fresh out ENV_PATH m1 bytes Henv1 Henc)
    as (m' & Hu & Hfile & Hbak & Hrest & _).
  assert (E : main h a m = (Ok tt, m'))
    by exact (setup_main_with_certificate h a m m1 m' z custom Hz Hcustom Hw Hu).
  exists m'. rewrite E. split; [reflexivity|]. split; [reflexivity|].
  split; [|split; [exact Hfile|]].
  - rewrite (Hrest out Hoe). cbn [m1 disk]. now rewrite lookup_insert_eq.
  - rewrite Hbak. cbn [m1 disk]. now rewrite lookup_insert_ne.
Qed.

Lemma main_with_certificate_sets_up_witness :
  exists m',
    main (Host (lit "/work") (lit "/site/cacert.pem") None)
         (Args (Some (lit "./z.cer")) (Some (lit "./out.pem")))
         (Machine [] (<[lit "z.cer" := ascii_bytes (lit "ZZ")]>
                        {[ lit "/site/cacert.pem" := ascii_bytes (lit "PUBLIC") ]}))
    = (Ok tt, m')
    /\ disk m' !! ENV_PATH
       = Some (ascii_bytes (lit "SSL_CERT_FILE=out.pem" ++ [LF]
                            ++ lit "REQUESTS_CA_BUNDLE=out.pem" ++ [LF])).
Proof.
  destruct (main_with_certificate_sets_up
              (Host (lit "/work") (lit "/site/cacert.pem") None)
              (Args (Some (lit "./z.cer")) (Some (lit "./out.pem")))
              (Machine [] (<[lit "z.cer" := ascii_bytes (lit "ZZ")]>
                             {[ lit "/site/cacert.pem" := ascii_bytes (lit "PUBLIC") ]}))
              (lit "./z.cer") (ascii_bytes (lit "PUBLIC")) (ascii_bytes (lit "ZZ"))
              (lit "SSL_CERT_FILE=out.pem" ++ [LF]
               ++ lit "REQUESTS_CA_BUNDLE=out.pem" ++ [LF]))
    as (m' & H1 & _ & _ & H2 & _);
    try (vm_compute; reflexivity);
    try (intros E; vm_compute in E; discriminate E).
  exists m'. split; assumption.
Defined.

End SetupMore.


(* ===================================================================== *)
(** * The discovery of the custom certificate                             *)
(* ===================================================================== *)

Section Discovery.
Import SetupCerts Probing.

Lemma filter_existing_run ps (m : machine) :
  filter_existing ps m = (Ok (List.filter (on_disk m) ps), m).
Proof.
  induction ps as [|p rest IH]; [reflexivity|].
  cbn [filter_existing List.filter].
  rewrite (bind_ok (exists_ p) _ m m (on_disk m p) eq_refl).
  rewrite (bind_ok _ _ m m _ IH). unfold ret.
  now destruct (on_disk m p).
Qed.

Lemma filter_filter_same {A} (f : A -> bool) l :
  List.filter f (List.filter f l) = List.filter f l.
Proof.
  induction l as [|x l IH]; [reflexivity|]. cbn [List.filter].
  destruct (f x) eqn:E; [|exact IH]. cbn [List.filter]. now rewrite E, IH.
Qed.

Lemma find_zscaler_candidates_run h (m : machine) :
  find_zscaler_candidates h m = (Ok (List.filter (on_disk m) (probed h)), m).
Proof.
  unfold find_zscaler_candidates, probed.
  destruct (mnt_users h) as [users|].
  - rewrite (bind_ok _ _ m m _ (filter_existing_run _ m)).
    rewrite filter_existing_run. do 2 f_equal.
    now rewrite !List.filter_app, filter_filter_same.
  - rewrite (bind_ok (ret []) _ m m [] eq_refl).
    rewrite filter_existing_run. do 2 f_equal.
Qed.

(** [find_zscaler_candidates] returns exactly the probed locations that
    exist, in the order they are probed: a path is returned if and only if
    it is probed and is a file, the list is empty exactly when no probed
    location exists, and neither console nor files change. *)
Theorem find_zscaler_candidates_are_existing h (m : machine) :
  exists found,
    find_zscaler_candidates h m = (Ok found, m)
    /\ found = List.filter (on_disk m) (probed h)
    /\ (forall p, In p found <-> In p (probed h) /\ is_Some (disk m !! p))
    /\ (found = [] <-> forall p, In p (probed h) -> disk m !! p = None).
Proof.
  exists (List.filter (on_disk m) (probed h)).
  split; [apply find_zscaler_candidates_run|]. split; [reflexivity|].
  assert (Hin : forall p, In p (List.filter (on_disk m) (probed h))
                          <-> In p (probed h) /\ is_Some (disk m !! p)).
  { intros p. rewrite List.filter_In. unfold on_disk.
    now rewrite bool_decide_eq_true. }
  split; [exact Hin|]. split.
  - intros E p Hp. destruct (disk m !! p) as [x|] eqn:Hx; [|reflexivity].
    assert (In p (List.filter (on_disk m) (probed h)))
      by (apply Hin; split; [exact Hp | rewrite Hx; eauto]).
    rewrite E in H. destruct H.
  - intros Hnone. destruct (List.filter (on_disk m) (probed h)) as [|p l] eqn:E;
      [reflexivity|].
    assert (Hp : In p (probed h) /\ is_Some (disk m !! p))
      by (apply Hin; now left).
    destruct Hp as [Hp [x Hx]]. rewrite (Hnone p Hp) in Hx. discriminate Hx.
Qed.

(** Run without [--zscaler] where none of the probed locations exists,
    the setup script prints its two lines of advice and exits with code 2;
    it writes no bundle and leaves the environment file alone. *)
Theorem main_without_candidates_exits_2 h a (m : machine) :
  given (zscaler a) = None ->
  (forall p, In p (probed h) -> disk m !! p = None) ->
  main h a m
  = (Raise (SystemExit 2),
     Machine (stdout m
              ++ [Line (lit "No Zscaler cert found in known locations. Re-run with --zscaler /path/to/zscaler_root.cer");
                  Line (lit "Searched: /etc/ssl/certs/zscaler_root.pem, /usr/local/share/ca-certificates/, and Windows Downloads (WSL)")])
             (disk m))
  /\ exit_status (main h a m).1 = 2%Z.
Proof.
  intros Hz Hnone.
  assert (Hf : List.filter (on_disk m) (probed h) = []).
  { induction (probed h) as [|p ps IH]; [reflexivity|].
    cbn [List.filter]. unfold on_disk at 1.
    rewrite (Hnone p (or_introl eq_refl)).
    rewrite bool_decide_eq_false_2 by (intros [x Hx]; discriminate Hx).
    apply IH. intros q Hq. apply Hnone. now right. }
  assert (E : main h a m
    = (Raise (SystemExit 2),
       Machine (stdout m
                ++ [Line (lit "No Zscaler cert found in known locations. Re-run with --zscaler /path/to/zscaler_root.cer");
                    Line (lit "Searched: /etc/ssl/certs/zscaler_root.pem, /usr/local/share/ca-certificates/, and Windows Downloads (WSL)")])
               (disk m))).
  { unfold main. rewrite Hz.
    rewrite (bind_ok _ _ m m _ (find_zscaler_candidates_run h m)), Hf.
    unfold bind, print, raise. cbn [stdout disk]. now rewrite <- app_assoc. }
  rewrite E. auto.
Qed.

Lemma main_without_candidates_exits_2_witness :
  exit_status (main (Host (lit "/work") (lit "/site/cacert.pem") None)
                    (Args None None) (Machine [] ∅)).1 = 2%Z.
Proof.
  refine (proj2 (main_without_candidates_exits_2
            (Host (lit "/work") (lit "/site/cacert.pem") None)
            (Args None None) (Machine [] ∅) eq_refl _)).
  intros p _. reflexivity.
Defined.

End Discovery.


(* ===================================================================== *)
(** * Reading back what was written                                       *)
(* ===================================================================== *)

Section ReadBack.
Import EnvFile SetupCerts.

Ltac split_div c k :=
  let q := fresh "q" in
  let r := fresh "r" in
  pose proof (N.div_mod c k ltac:(lia));
  pose proof (N.mod_lt c k ltac:(lia));
  set (q := c / k) in *; set (r := c mod k) in *; clearbody q r.

Ltac settle_tests :=
  repeat match goal with
         | |- context [N.ltb ?a ?b] => destruct (N.ltb_spec a b); try lia
         | |- context [N.leb ?a ?b] => destruct (N.leb_spec a b); try lia
         end.

Lemma utf8_decode_encode_char c bs rest :
  utf8_encode_char c = Some bs ->
  utf8_decode (bs ++ rest) = cons c <$> utf8_decode rest.
Proof.
  unfold utf8_encode_char.
  destruct (N.ltb_spec c 128) as [H1|H1].
  { intros [= <-]. cbn [app utf8_decode].
    destruct (N.ltb_spec c 128); [reflexivity | lia]. }
  destruct (N.ltb_spec c 2048) as [H2|H2].
  { intros [= <-]. cbn [app utf8_decode]. unfold is_cont.
    split_div c 64. settle_tests. cbn [andb]. do 2 f_equal. lia. }
  destruct (N.ltb_spec c 65536) as [H3|H3].
  { unfold is_surrogate.
    destruct (N.leb_spec 55296 c) as [H4|H4];
      [destruct (N.leb_spec c 57343) as [H5|H5]|]; cbn [andb];
      try discriminate; intros [= <-]; cbn [app utf8_decode];
      unfold is_cont, is_surrogate;
      replace (c / 4096) with (c / 64 / 64) by (rewrite N.Div0.div_div; reflexivity);
      split_div c 64; split_div q 64; settle_tests; cbn [andb negb];
      do 2 f_equal; lia. }
  destruct (N.leb_spec c 1114111) as [H4|H4]; [|discriminate].
  intros [= <-]. cbn [app utf8_decode]. unfold is_cont.
  replace (c / 262144) with (c / 64 / 64 / 64) by (rewrite !N.Div0.div_div; reflexivity).
  replace (c / 4096) with (c / 64 / 64) by (rewrite N.Div0.div_div; reflexivity).
  split_div c 64. split_div q 64. split_div q0 64.
  settle_tests. cbn [andb]. do 2 f_equal. lia.
Qed.

Lemma utf8_decode_encode s : forall bs,
  utf8_encode s = Some bs -> utf8_decode bs = Some s.
Proof.
  induction s as [|c s IH]; intros bs; cbn [utf8_encode].
  - now intros [= <-].
  - destruct (utf8_encode_char c) as [b|] eqn:Hc; [|discriminate].
    destruct (utf8_encode s) as [bs'|]; [|discriminate].
    intros [= <-]. rewrite (utf8_decode_encode_char c b bs' Hc).
    now rewrite (IH bs' eq_refl).
Qed.

Lemma utf8_encode_char_octets c bs :
  utf8_encode_char c = Some bs -> Forall (fun b => b < 256) bs.
Proof.
  unfold utf8_encode_char.
  destruct (N.ltb_spec c 128); [intros [= <-]; repeat constructor; lia|].
  destruct (N.ltb_spec c 2048).
  { intros [= <-]. split_div c 64. repeat constructor; lia. }
  destruct (N.ltb_spec c 65536).
  { destruct (is_surrogate c); [discriminate|]. intros [= <-].
    replace (c / 4096) with (c / 64 / 64) by (rewrite N.Div0.div_div; reflexivity).
    split_div c 64. split_div q 64. repeat constructor; lia. }
  destruct (N.leb_spec c 1114111); [|discriminate]. intros [= <-].
  replace (c / 262144) with (c / 64 / 64 / 64) by (rewrite !N.Div0.div_div; reflexivity).
  replace (c / 4096) with (c / 64 / 64) by (rewrite N.Div0.div_div; reflexivity).
  split_div c 64. split_div q 64. split_div q0 64. repeat constructor; lia.
Qed.

Lemma utf8_encode_octets s : forall bs,
  utf8_encode s = Some bs -> Forall (fun b => b < 256) bs.
Proof.
  induction s as [|c s IH]; intros bs; cbn [utf8_encode].
  - intros [= <-]. constructor.
  - destruct (utf8_encode_char c) as [b|] eqn:Hc; [|discriminate].
    destruct (utf8_encode s) as [bs'|]; [|discriminate].
    intros [= <-]. apply Forall_app. split.
    + now apply (utf8_encode_char_octets c).
    + now apply IH.
Qed.

Lemma to_N_byte_of_N n : n < 256 -> Byte.to_N (byte_of_N n) = n.
Proof.
  intros H. unfold byte_of_N.
  destruct (Byte.of_N n) as [b|] eqn:E.
  - now apply Byte.to_of_N.
  - apply Byte.of_N_None_iff in E. lia.
Qed.

Lemma octets_back bs :
  Forall (fun b => b < 256) bs -> List.map Byte.to_N (List.map byte_of_N bs) = bs.
Proof.
  induction 1 as [|b bs Hb _ IH]; [reflexivity|].
  cbn [List.map]. now rewrite to_N_byte_of_N, IH.
Qed.

(** What was written as UTF-8 decodes to the text that was written. *)
Lemma written_text_decodes text out :
  utf8_encode text = Some out ->
  utf8_decode (List.map Byte.to_N (List.map byte_of_N out)) = Some text.
Proof.
  intros H. rewrite (octets_back out (utf8_encode_octets text out H)).
  now apply utf8_decode_encode.
Qed.

Lemma universal_newlines_without_CR s :
  forallb (fun c => negb (c =? CR)) s = true -> universal_newlines s = s.
Proof.
  induction s as [|c s IH]; [reflexivity|]. cbn [forallb universal_newlines].
  intros H. apply andb_true_iff in H as [Hc Hs]. apply negb_true_iff in Hc.
  now rewrite Hc, (IH Hs).
Qed.

Lemma no_linebreak_no_CR s :
  no_linebreak s = true -> forallb (fun c => negb (c =? CR)) s = true.
Proof.
  unfold no_linebreak. induction s as [|c s IH]; [reflexivity|]. cbn [forallb].
  intros H. apply andb_true_iff in H as [Hc Hs]. apply negb_true_iff in Hc.
  now rewrite (linebreak_not_CR c Hc), (IH Hs).
Qed.

Lemma env_text_no_CR lines :
  forallb no_linebreak lines = true ->
  forallb (fun c => negb (c =? CR)) (env_text lines) = true.
Proof.
  intros H. unfold env_text. rewrite forallb_app. apply andb_true_iff.
  split; [|reflexivity].
  induction lines as [|p rest IH]; [reflexivity|].
  cbn [forallb] in H. apply andb_true_iff in H as [Hp Hrest].
  destruct rest as [|q rest]; [now apply no_linebreak_no_CR|].
  change (join [LF] (p :: q :: rest)) with (p ++ [LF] ++ join [LF] (q :: rest)).
  rewrite !forallb_app, (no_linebreak_no_CR p Hp), (IH Hrest). reflexivity.
Qed.

(** The update of a readable file, followed by what a later read and a
    later update with the same bundle path find. *)
Lemma update_then_read_then_update b env_path (m : machine) raw text out :
  disk m !! env_path = Some raw ->
  utf8_decode (List.map Byte.to_N raw) = Some text ->
  no_linebreak b = true ->
  utf8_encode (env_text (merged_lines b (splitlines (universal_newlines text))))
    = Some out ->
  exists m1,
    update_env_file b env_path m = (Ok tt, m1)
    /\ disk m1 !! env_path = Some (List.map byte_of_N out)
    /\ read_text env_path m1
       = (Ok (env_text (merged_lines b (splitlines (universal_newlines text)))), m1)
    /\ exists m2,
         update_env_file b env_path m1 = (Ok tt, m2)
         /\ disk m2 !! env_path = Some (List.map byte_of_N out).
Proof.
  intros He Hd Hb Ho.
  set (lines := splitlines (universal_newlines text)) in *.
  assert (Hlb : forallb no_linebreak (merged_lines b lines) = true)
    by (apply merged_lines_no_linebreak; [exact Hb | apply splitlines_no_linebreak]).
  assert (Hnl : universal_newlines (env_text (merged_lines b lines))
                = env_text (merged_lines b lines))
    by (apply universal_newlines_without_CR, env_text_no_CR, Hlb).
  destruct (update_env_file_writes b env_path m raw text out He Hd Ho) as (m1 & H1 & H2).
  exists m1. split; [exact H1|]. split; [exact H2|].
  pose proof (written_text_decodes _ _ Ho) as Hback.
  split.
  - rewrite (read_text_ok env_path _ _ m1 H2 Hback). now rewrite Hnl.
  - apply (update_env_file_writes b env_path m1 _ _ out H2 Hback).
    rewrite Hnl. unfold lines. rewrite (splitlines_merged b _ Hb).
    fold lines. now rewrite (merged_lines_over b b lines).
Qed.

(** Round trip of the environment file: after the update of a readable
    file with a bundle path free of line boundaries, reading the file gives
    back the text that was written, and the lines of that text are exactly
    the merged lines. *)
Theorem update_env_file_reads_back b env_path (m : machine) raw text out :
  disk m !! env_path = Some raw ->
  utf8_decode (List.map Byte.to_N raw) = Some text ->
  no_linebreak b = true ->
  let new_lines := merged_lines b (splitlines (universal_newlines text)) in
  utf8_encode (env_text new_lines) = Some out ->
  exists m1 written,
    update_env_file b env_path m = (Ok tt, m1)
    /\ read_text env_path m1 = (Ok written, m1)
    /\ splitlines written = new_lines.
Proof.
  intros He Hd Hb new_lines Ho.
  destruct (update_then_read_then_update b env_path m raw text out He Hd Hb Ho)
    as (m1 & H1 & _ & H3 & _).
  exists m1, (env_text new_lines). split; [exact H1|]. split; [exact H3|].
  now apply splitlines_merged.
Qed.

Lemma update_env_file_reads_back_witness :
  exists m1 written,
    update_env_file (lit "/b.pem") ENV_PATH
      (Machine [] {[ ENV_PATH := ascii_bytes (lit "A=1" ++ [CR; LF] ++ lit "# c") ]})
    = (Ok tt, m1)
    /\ read_text ENV_PATH m1 = (Ok written, m1)
    /\ splitlines written
       = [lit "A=1"; lit "# c"; lit "SSL_CERT_FILE=/b.pem";
          lit "REQUESTS_CA_BUNDLE=/b.pem"].
Proof.
  refine (update_env_file_reads_back (lit "/b.pem") ENV_PATH
            (Machine [] {[ ENV_PATH := ascii_bytes (lit "A=1" ++ [CR; LF] ++ lit "# c") ]})
            (ascii_bytes (lit "A=1" ++ [CR; LF] ++ lit "# c"))
            (lit "A=1" ++ [CR; LF] ++ lit "# c")
            (lit "A=1" ++ [LF] ++ lit "# c" ++ [LF] ++ lit "SSL_CERT_FILE=/b.pem" ++ [LF]
             ++ lit "REQUESTS_CA_BUNDLE=/b.pem" ++ [LF])
            _ _ _ _); vm_compute; reflexivity.
Defined.

(** Running the update again with the same bundle path changes nothing in
    the environment file: the second run succeeds and leaves it byte for
    byte as the first run wrote it. *)
Theorem update_env_file_twice_same b env_path (m : machine) raw text out :
  disk m !! env_path = Some raw ->
  utf8_decode (List.map Byte.to_N raw) = Some text ->
  no_linebreak b = true ->
  utf8_encode (env_text (merged_lines b (splitlines (universal_newlines text))))
    = Some out ->
  exists m1 m2,
    update_env_file b env_path m = (Ok tt, m1)
    /\ update_env_file b env_path m1 = (Ok tt, m2)
    /\ disk m2 !! env_path = disk m1 !! env_path.
Proof.
  intros He Hd Hb Ho.
  destruct (update_then_read_then_update b env_path m raw text out He Hd Hb Ho)
    as (m1 & H1 & H2 & _ & m2 & H4 & H5).
  exists m1, m2. split; [exact H1|]. split; [exact H4|]. now rewrite H2, H5.
Qed.

Lemma update_env_file_twice_same_witness :
  exists m1 m2,
    update_env_file (lit "/b.pem") ENV_PATH
      (Machine [] {[ ENV_PATH := ascii_bytes (lit "SSL_CERT_FILE=old") ]}) = (Ok tt, m1)
    /\ update_env_file (lit "/b.pem") ENV_PATH m1 = (Ok tt, m2)
    /\ disk m2 !! ENV_PATH = disk m1 !! ENV_PATH.
Proof.
  refine (update_env_file_twice_same (lit "/b.pem") ENV_PATH
            (Machine [] {[ ENV_PATH := ascii_bytes (lit "SSL_CERT_FILE=old") ]})
            (ascii_bytes (lit "SSL_CERT_FILE=old")) (lit "SSL_CERT_FILE=old")
            (lit "SSL_CERT_FILE=/b.pem" ++ [LF] ++ lit "REQUESTS_CA_BUNDLE=/b.pem" ++ [LF])
            _ _ _ _); vm_compute; reflexivity.
Defined.

End ReadBack.


(* ===================================================================== *)
(** * Further properties of the response processor                        *)
(* ===================================================================== *)

Section ProcessorMore.
Import Processor Summary.

(** Summarising is idempotent on every string, short or long: a preview
    is its own preview, it is what a choice holding it as text is
    summarised to, and it starts with the same 400 characters as the
    content it was cut from. *)
Theorem preview_of_idempotent (s : list N) :
  exists p,
    preview_of (JStr s) = Ok (JStr p)
    /\ preview_of (JStr p) = Ok (JStr p)
    /\ summarize_choice (JDict [(lit "text", JStr p)]) = Ok (JStr p)
    /\ take 400 p = take 400 s.
Proof.
  destruct (Nat.le_gt_cases (length s) 400) as [H | H].
  - exists s. rewrite (preview_of_short s H). repeat split.
    cbn [summarize_choice]. exact (preview_of_short s H).
  - exists (take 400 s ++ [ELLIPSIS]).
    assert (Hlen : length (take 400 s) = 400%nat) by (rewrite length_take; lia).
    assert (Hcut : take 400 (take 400 s ++ [ELLIPSIS]) = take 400 s).
    { rewrite take_app_le by lia. rewrite take_take. f_equal. }
    assert (Hagain : preview_of (JStr (take 400 s ++ [ELLIPSIS]))
                     = Ok (JStr (take 400 s ++ [ELLIPSIS]))).
    { rewrite preview_of_long; [now rewrite Hcut|].
      rewrite length_app, Hlen. cbn [length]. lia. }
    rewrite (preview_of_long s H). repeat split; [exact Hagain | | exact Hcut].
    cbn [summarize_choice]. exact Hagain.
Qed.

(** A response that is not a JSON object is never saved: after the
    header and the line that names its type, [process_and_save] raises
    [AttributeError], and no file is created or changed. *)
Theorem process_and_save_rejects_non_object resolve response out_path (m : machine) :
  (forall d, response <> JDict d) ->
  process_and_save resolve response out_path m
  = (Raise AttributeError,
     Machine (stdout m ++ [Line (LF :: lit "=== GROQ Response Summary ===");
                           NotObjectLine response])
             (disk m)).
Proof.
  intros Hd. unfold process_and_save.
  rewrite (bind_ok (print _) _ m _ tt eq_refl).
  destruct response; try (now elim (Hd fields));
    unfold bind, print, raise; cbn [stdout disk]; now rewrite <- app_assoc.
Qed.

Lemma process_and_save_rejects_non_object_witness :
  process_and_save (fun p => p) (JList [JInt 1]) (lit "/out.json") (Machine [] ∅)
  = (Raise AttributeError,
     Machine [Line (LF :: lit "=== GROQ Response Summary ===");
              NotObjectLine (JList [JInt 1])] ∅).
Proof.
  refine (process_and_save_rejects_non_object (fun p => p) (JList [JInt 1])
            (lit "/out.json") (Machine [] ∅) _).
  intros d E. discriminate E.
Defined.

Lemma previews_printed_app a b :
  previews_printed (a ++ b) = previews_printed a ++ previews_printed b.
Proof. unfold previews_printed. apply flat_map_app. Qed.

(** The loop over the choices, when every summary succeeds. *)
Lemma print_previews_ok choices : forall i previews (m : machine),
  Forall2 (fun ch p => summarize_choice ch = Ok p) choices previews ->
  exists out,
    print_previews i choices m = (Ok tt, Machine (stdout m ++ out) (disk m))
    /\ previews_printed out = enumerate i previews.
Proof.
  induction choices as [|ch rest IH]; intros i previews m H.
  - inversion H; subst. exists []. rewrite app_nil_r. now destruct m.
  - inversion H as [|? p ? ps Hch Hrest]; subst. cbn [print_previews].
    rewrite (bind_ok (lift _) _ m m p (f_equal (fun r => (r, m)) Hch)).
    rewrite (bind_ok (print _) _ m _ tt eq_refl).
    destruct (IH (S i) ps (Machine (stdout m ++ [PreviewLine i p]) (disk m)) Hrest)
      as (out & -> & Hout).
    exists (PreviewLine i p :: out). cbn [stdout disk]. split.
    + now rewrite <- app_assoc.
    + cbn [previews_printed flat_map app enumerate]. f_equal. exact Hout.
Qed.

(** The loop over the choices, when some summary fails: it stops there,
    with that exception, having printed only previews. *)
Lemma print_previews_raises choices : forall i (m : machine),
  Exists (fun ch => exists e, summarize_choice ch = Raise e) choices ->
  exists e out,
    print_previews i choices m = (Raise e, Machine (stdout m ++ out) (disk m))
    /\ Exists (fun ch => summarize_choice ch = Raise e) choices.
Proof.
  induction choices as [|ch rest IH]; intros i m H; [inversion H|].
  cbn [print_previews].
  destruct (summarize_choice ch) as [p|e] eqn:Hch.
  - rewrite (bind_ok (lift _) _ m m p eq_refl).
    rewrite (bind_ok (print _) _ m _ tt eq_refl).
    assert (Hrest : Exists (fun ch => exists e, summarize_choice ch = Raise e) rest).
    { inversion H as [? ? [e He]|]; subst; [congruence | assumption]. }
    destruct (IH (S i) (Machine (stdout m ++ [PreviewLine i p]) (disk m)) Hrest)
      as (e & out & -> & Hex).
    exists e, (PreviewLine i p :: out). cbn [stdout disk]. split.
    + now rewrite <- app_assoc.
    + now right.
  - rewrite (bind_raise (lift _) _ m m e eq_refl).
    exists e, []. rewrite app_nil_r. split; [now destruct m | now left].
Qed.

Lemma write_text_run p text out (m : machine) :
  utf8_encode text = Some out ->
  write_text p text m
  = (Ok tt, Machine (stdout m) (<[p := List.map byte_of_N out]> (disk m))).
Proof.
  intros H. unfold write_text, bind, open_wb, write. rewrite H. cbn [stdout disk].
  rewrite lookup_insert_eq. cbn [default app]. now rewrite insert_insert_eq.
Qed.

Lemma prints_lines_print s : prints_lines (print (Line s)).
Proof. intros m. exists [Line s]. split; reflexivity. Qed.

Lemma prints_lines_ret : prints_lines (ret tt).
Proof. intros m. exists []. rewrite app_nil_r. split; [now destruct m | reflexivity]. Qed.

Lemma prints_lines_then (c1 c2 : io unit) :
  prints_lines c1 -> prints_lines c2 -> prints_lines (bind c1 (fun _ => c2)).
Proof.
  intros H1 H2 m. destruct (H1 m) as (o1 & E1 & P1).
  destruct (H2 (Machine (stdout m ++ o1) (disk m))) as (o2 & E2 & P2).
  exists (o1 ++ o2). rewrite (bind_ok _ _ _ _ _ E1), E2. cbn [stdout disk].
  rewrite <- app_assoc. split; [reflexivity|].
  now rewrite previews_printed_app, P1, P2.
Qed.

(** A step followed by the rest, on the console. *)
Lemma after_lines {A} (c : io unit) (k : io A) (m : machine) :
  prints_lines c ->
  exists o1,
    bind c (fun _ => k) m = k (Machine (stdout m ++ o1) (disk m))
    /\ previews_printed o1 = [].
Proof.
  intros H. destruct (H m) as (o1 & E1 & P1). exists o1.
  now rewrite (bind_ok _ _ _ _ _ E1).
Qed.

(** The part of [process_and_save] between the line of keys and the
    file: the count and the previews of the choices. *)
Lemma choices_part_ok (d : list (list N * json)) previews (m : machine) :
  Forall2 (fun ch p => summarize_choice ch = Ok p) (take 3 (choices_of d)) previews ->
  exists out,
    match dict_get (lit "choices") d with
    | Some (JList choices) =>
        bind (print (Line (lit "Choices: " ++ str_of_nat (length choices))))
             (fun _ => print_previews 1 (take 3 choices))
    | _ => ret tt
    end m = (Ok tt, Machine (stdout m ++ out) (disk m))
    /\ previews_printed out = enumerate 1 previews.
Proof.
  unfold choices_of. intros H.
  destruct (dict_get (lit "choices") d) as [[| | | | |choices|]|];
    try (inversion H; subst; exists []; rewrite app_nil_r;
         split; [now destruct m | reflexivity]).
  rewrite (bind_ok (print _) _ m _ tt eq_refl).
  destruct (print_previews_ok (take 3 choices) 1 previews
              (Machine (stdout m ++ [Line (lit "Choices: " ++ str_of_nat (length choices))])
                       (disk m)) H) as (out & -> & Hout).
  exists (Line (lit "Choices: " ++ str_of_nat (length choices)) :: out).
  cbn [stdout disk]. rewrite <- app_assoc. split; [reflexivity | exact Hout].
Qed.

Lemma choices_part_raises (d : list (list N * json)) (m : machine) :
  Exists (fun ch => exists e, summarize_choice ch = Raise e) (take 3 (choices_of d)) ->
  exists e out,
    match dict_get (lit "choices") d with
    | Some (JList choices) =>
        bind (print (Line (lit "Choices: " ++ str_of_nat (length choices))))
             (fun _ => print_previews 1 (take 3 choices))
    | _ => ret tt
    end m = (Raise e, Machine (stdout m ++ out) (disk m))
    /\ Exists (fun ch => summarize_choice ch = Raise e) (take 3 (choices_of d)).
Proof.
  unfold choices_of. intros H.
  destruct (dict_get (lit "choices") d) as [[| | | | |choices|]|];
    try (now inversion H).
  rewrite (bind_ok (print _) _ m _ tt eq_refl).
  destruct (print_previews_raises (take 3 choices) 1
              (Machine (stdout m ++ [Line (lit "Choices: " ++ str_of_nat (length choices))])
                       (disk m)) H) as (e & out & -> & Hex).
  exists e, (Line (lit "Choices: " ++ str_of_nat (length choices)) :: out).
  cbn [stdout disk]. rewrite <- app_assoc. split; [reflexivity | exact Hex].
Qed.

Lemma process_and_save_ok resolve (d : list (list N * json)) out_path
    previews bytes (m : machine) :
  Forall2 (fun ch p => summarize_choice ch = Ok p) (take 3 (choices_of d)) previews ->
  utf8_encode (dump_indent_plain 2 (JDict d)) = Some bytes ->
  exists out,
    process_and_save resolve (JDict d) out_path m
    = (Ok tt, Machine (stdout m ++ out)
                      (<[resolve out_path := List.map byte_of_N bytes]> (disk m)))
    /\ previews_printed out = enumerate 1 previews.
Proof.
  intros Hprev Henc. unfold process_and_save, dump_to_file.
  rewrite (bind_ok (print _) _ m _ tt eq_refl).
  rewrite (bind_ok (print _) _ _ _ tt eq_refl). cbn [stdout disk].
  set (m2 := Machine _ (disk m)).
  destruct (choices_part_ok d previews m2 Hprev) as (o3 & E3 & P3).
  rewrite (bind_ok _ _ m2 _ tt E3).
  set (m3 := Machine _ (disk m2)).
  match goal with
  | |- context [bind ?c (fun _ => ?k)] =>
      destruct (after_lines c k m3) as (o4 & -> & P4)
  end.
  { destruct (truthy _); [|apply prints_lines_ret].
    apply prints_lines_then; apply prints_lines_print. }
  set (m4 := Machine _ (disk m3)).
  match goal with
  | |- context [bind ?c (fun _ => ?k)] =>
      destruct (after_lines c k m4) as (o5 & -> & P5)
  end.
  { destruct (dict_has _ d); [apply prints_lines_print | apply prints_lines_ret]. }
  set (m5 := Machine _ (disk m4)).
  match goal with
  | |- context [bind ?c (fun _ => ?k)] =>
      destruct (after_lines c k m5) as (o6 & -> & P6)
  end.
  { destruct (dict_has _ d); [apply prints_lines_print | apply prints_lines_ret]. }
  set (m6 := Machine _ (disk m5)).
  rewrite (bind_ok _ _ m6 _ tt (write_text_run _ _ bytes m6 Henc)).
  rewrite (bind_ok (print _) _ _ _ tt eq_refl).
  unfold print. cbn [stdout disk m6 m5 m4 m3 m2].
  rewrite <- !app_assoc. eexists. split; [reflexivity|].
  rewrite !previews_printed_app, P3, P4, P5, P6. cbn. now rewrite app_nil_r.
Qed.

(** A response object whose first three choices can all be summarised
    and whose rendering can be encoded is saved: the call succeeds, the
    output file holds the UTF-8 bytes of the indented rendering of the
    whole response (which decode to it again), replacing whatever was
    there, no other file changes, and the previews printed are those of the
    first three choices, numbered from 1, and no more. *)
Theorem process_and_save_saves resolve (d : list (list N * json)) out_path
    previews bytes (m : machine) :
  Forall2 (fun ch p => summarize_choice ch = Ok p) (take 3 (choices_of d)) previews ->
  utf8_encode (dump_indent_plain 2 (JDict d)) = Some bytes ->
  exists out,
    process_and_save resolve (JDict d) out_path m
    = (Ok tt, Machine (stdout m ++ out)
                      (<[resolve out_path := List.map byte_of_N bytes]> (disk m)))
    /\ previews_printed out = enumerate 1 previews
    /\ (length previews <= 3)%nat
    /\ utf8_decode (List.map Byte.to_N (List.map byte_of_N bytes))
       = Some (dump_indent_plain 2 (JDict d)).
Proof.
  intros Hprev Henc.
  destruct (process_and_save_ok resolve d out_path previews bytes m Hprev Henc)
    as (out & H1 & H2).
  exists out. split; [exact H1|]. split; [exact H2|]. split.
  - apply Forall2_length in Hprev. rewrite <- Hprev, length_take. lia.
  - now apply written_text_decodes.
Qed.

Lemma process_and_save_saves_witness :
  exists out,
    process_and_save (fun p => p)
      (JDict [(lit "choices",
               JList [JDict [(lit "message", JDict [(lit "content", JStr (lit "X is..."))])]])])
      (lit "/out.json") (Machine [] ∅)
    = (Ok tt,
       Machine ([] ++ out)
         (<[lit "/out.json" :=
              List.map byte_of_N
                (dump_indent_plain 2
                   (JDict [(lit "choices",
                            JList [JDict [(lit "message",
                                           JDict [(lit "content", JStr (lit "X is..."))])]])]))]>
            ∅))
    /\ previews_printed out = [(1%nat, JStr (lit "X is..."))].
Proof.
  destruct (process_and_save_saves (fun p => p)
              [(lit "choices",
                JList [JDict [(lit "message", JDict [(lit "content", JStr (lit "X is..."))])]])]
              (lit "/out.json") [JStr (lit "X is...")]
              (dump_indent_plain 2
                 (JDict [(lit "choices",
                          JList [JDict [(lit "message",
                                         JDict [(lit "content", JStr (lit "X is..."))])]])]))
              (Machine [] ∅))
    as (out & H1 & H2 & _).
  - repeat constructor.
  - vm_compute. reflexivity.
  - exists out. split; assumption.
Defined.

(** When one of the first three choices cannot be summarised (a content
    that is null, say), [process_and_save] raises that choice's exception
    before it gets to the file: the response is not saved, and no file is
    created or changed. *)
Theorem process_and_save_stops_before_saving resolve (d : list (list N * json))
    out_path (m : machine) :
  Exists (fun ch => exists e, summarize_choice ch = Raise e) (take 3 (choices_of d)) ->
  exists e out,
    process_and_save resolve (JDict d) out_path m
    = (Raise e, Machine (stdout m ++ out) (disk m))
    /\ Exists (fun ch => summarize_choice ch = Raise e) (take 3 (choices_of d)).
Proof.
  intros Hbad. unfold process_and_save.
  rewrite (bind_ok (print _) _ m _ tt eq_refl).
  rewrite (bind_ok (print _) _ _ _ tt eq_refl). cbn [stdout disk].
  set (m2 := Machine _ (disk m)).
  destruct (choices_part_raises d m2 Hbad) as (e & o3 & E3 & Hex).
  rewrite (bind_raise _ _ m2 _ e E3).
  exists e. eexists. cbn [stdout disk m2]. rewrite <- !app_assoc.
  split; [reflexivity | exact Hex].
Qed.

Lemma process_and_save_stops_before_saving_witness :
  exists e out,
    process_and_save (fun p => p)
      (JDict [(lit "choices",
               JList [JDict [(lit "message", JDict [(lit "content", JNull)])]])])
      (lit "/out.json") (Machine [] ∅)
    = (Raise e, Machine ([] ++ out) ∅).
Proof.
  destruct (process_and_save_stops_before_saving (fun p => p)
              [(lit "choices",
                JList [JDict [(lit "message", JDict [(lit "content", JNull)])]])]
              (lit "/out.json") (Machine [] ∅))
    as (e & out & H & _).
  - left. exists TypeError. reflexivity.
  - exists e, out. exact H.
Defined.

End ProcessorMore.


(* ===================================================================== *)
(** * Further properties of the API client                                *)
(* ===================================================================== *)

Section ClientMore.
Import GroqClient Answers Settings Probing.

Lemma py_or_getenv environ k1 k2 :
  py_or (getenv environ k1) (getenv environ k2)
  = match set_nonempty environ k1 with
    | Some v => JStr v
    | None => getenv environ k2
    end.
Proof.
  unfold py_or, getenv, set_nonempty.
  destruct (environ !! k1) as [[|c v]|]; reflexivity.
Qed.

(** Trust resolution, in its order of precedence: a non-empty
    [SSL_CERT_FILE] wins; else a non-empty [REQUESTS_CA_BUNDLE]; else the
    project-local bundle if that file exists, as a resolved path; else the
    platform default.  A variable set to the empty string counts as unset,
    and nothing is printed or written. *)
Theorem effective_verify_path_precedence w (m : machine) :
  _effective_verify_path w m
  = (Ok match set_nonempty (environ w) (lit "SSL_CERT_FILE") with
        | Some p => VerifyPath p
        | None =>
            match set_nonempty (environ w) (lit "REQUESTS_CA_BUNDLE") with
            | Some p => VerifyPath p
            | None =>
                if on_disk m (project_local w)
                then VerifyPath (resolve w (project_local w))
                else VerifyDefault
            end
        end, m).
Proof.
  unfold _effective_verify_path. rewrite py_or_getenv.
  destruct (set_nonempty (environ w) (lit "SSL_CERT_FILE")) as [p|] eqn:E1.
  { unfold set_nonempty in E1.
    destruct (environ w !! lit "SSL_CERT_FILE") as [[|c v]|]; try discriminate.
    now injection E1 as <-. }
  unfold getenv, set_nonempty.
  destruct (environ w !! lit "REQUESTS_CA_BUNDLE") as [[|c v]|]; try reflexivity;
    unfold bind, exists_, ret, on_disk, project_local;
    now destruct (bool_decide _).
Qed.

(** Importing the client fails exactly when [GROQ_API_KEY] is unset or
    empty; otherwise the key is the one set, and the endpoint and the model
    are the ones set or, when unset, the fixed defaults. *)
Theorem load_config_requires_key (environ : gmap (list N) (list N)) :
  (load_config environ = None <-> set_nonempty environ (lit "GROQ_API_KEY") = None)
  /\ forall cfg, load_config environ = Some cfg ->
       Some (GROQ_API_KEY cfg) = environ !! lit "GROQ_API_KEY"
       /\ GROQ_API_URL cfg
          = default (lit "https://api.groq.com/openai/v1/chat/completions")
                    (environ !! lit "GROQ_API_URL")
       /\ GROQ_MODEL cfg
          = default (lit "openai/gpt-oss-20b") (environ !! lit "GROQ_MODEL").
Proof.
  unfold load_config, set_nonempty.
  destruct (environ !! lit "GROQ_API_KEY") as [[|c key]|]; split;
    try (split; congruence); try discriminate.
  intros cfg [= <-]. repeat split.
Qed.

(** [send_chat] posts exactly one request and makes its outcome from the
    answer to it alone: the request goes to the configured endpoint with
    the fixed headers, the caller's timeout and the resolved trust setting;
    its body holds the messages and the temperature as given, the model
    given or else the configured one, and [max_tokens] only when it is not
    [None].  Console and files are left alone. *)
Theorem send_chat_posts_once cfg w messages model temperature max_tokens timeout
    (m : machine) :
  exists verify payload,
    _effective_verify_path w m = (Ok verify, m)
    /\ send_chat cfg w messages model temperature max_tokens timeout m
       = (match post w (Request (GROQ_API_URL cfg) (HEADERS cfg) (JDict payload)
                                timeout verify) with
          | Answered resp => checked resp
          | Failed what => Raise (RequestException what)
          end, m)
    /\ dict_get (lit "model") payload
       = Some (if truthy model then model else JStr (GROQ_MODEL cfg))
    /\ dict_get (lit "messages") payload = Some messages
    /\ dict_get (lit "temperature") payload = Some temperature
    /\ dict_get (lit "max_tokens") payload
       = match max_tokens with JNull => None | v => Some v end.
Proof.
  destruct (effective_verify_path_run w m) as [v Hv].
  exists v.
  exists ([(lit "model", py_or model (JStr (GROQ_MODEL cfg)));
           (lit "messages", messages); (lit "temperature", temperature)]
          ++ match max_tokens with
             | JNull => []
             | _ => [(lit "max_tokens", max_tokens)]
             end).
  split; [exact Hv|]. split.
  - unfold send_chat. rewrite (bind_ok _ _ m m v Hv).
    destruct (post w _) as [resp|what].
    + rewrite (bind_ok (ret resp) _ m m resp eq_refl). unfold checked.
      destruct (negb (ok resp)).
      * unfold raise. do 3 f_equal.
        destruct (json_ resp); [reflexivity|].
        unfold py_or. cbn [truthy]. now destruct (text resp).
      * now destruct (json_ resp).
    + now rewrite (bind_raise (raise (RequestException what)) _ m m _ eq_refl).
  - repeat split; try reflexivity. now destruct max_tokens.
Qed.

End ClientMore.


(* ===================================================================== *)
(** * Further properties of the entry points                              *)
(* ===================================================================== *)

Section EntryPointsMore.
Import GroqClient Processor Answers Summary.

Lemma contains_char_replaced a b s :
  a <> b -> contains_char a (replace_char a b s) = false.
Proof.
  intros Hab. unfold contains_char, replace_char.
  induction s as [|c s IH]; [reflexivity|]. cbn [List.map existsb]. rewrite IH.
  destruct (N.eqb_spec c a) as [->|Hc].
  - destruct (N.eqb_spec b a); [congruence | reflexivity].
  - destruct (N.eqb_spec c a); [congruence | reflexivity].
Qed.

(** A character other than the separator is in a joined text exactly
    when it is in one of the parts. *)
Lemma contains_char_join c sep parts :
  contains_char c sep = false ->
  contains_char c (join sep parts) = existsb (contains_char c) parts.
Proof.
  intros Hsep. induction parts as [|p rest IH]; [reflexivity|].
  destruct rest as [|q rest].
  - cbn [join existsb]. now rewrite orb_false_r.
  - change (join sep (p :: q :: rest)) with (p ++ sep ++ join sep (q :: rest)).
    rewrite !contains_char_app, Hsep, IH. reflexivity.
Qed.

Lemma contains_char_cons c x s :
  contains_char c (x :: s) = (x =? c) || contains_char c s.
Proof. reflexivity. Qed.

Lemma existsb_split_on c sep cur s :
  c <> sep ->
  existsb (contains_char c) (PurePath.split_on sep cur s)
  = contains_char c cur || contains_char c s.
Proof.
  intros Hc. revert cur. induction s as [|x s IH]; intros cur.
  - cbn [PurePath.split_on existsb].
    change (contains_char c []) with false. reflexivity.
  - cbn [PurePath.split_on]. rewrite contains_char_cons.
    destruct (N.eqb_spec x sep) as [->|Hx].
    + cbn [existsb]. rewrite IH. change (contains_char c []) with false.
      destruct (N.eqb_spec sep c); [congruence | reflexivity].
    + rewrite IH, contains_char_app, contains_char_cons.
      change (contains_char c []) with false.
      now rewrite orb_false_r, orb_assoc.
Qed.

Lemma existsb_components c s :
  c <> PurePath.SLASH -> c <> PurePath.DOT ->
  existsb (contains_char c) (PurePath.components s) = contains_char c s.
Proof.
  intros Hs Hd. unfold PurePath.components.
  change (contains_char c s) with (contains_char c [] || contains_char c s).
  rewrite <- (existsb_split_on c PurePath.SLASH [] s Hs).
  induction (PurePath.split_on PurePath.SLASH [] s) as [|piece l IH];
    [reflexivity|].
  cbn [List.filter existsb].
  destruct (PurePath.dropped piece) eqn:E; cbn [negb existsb]; rewrite IH.
  - destruct piece as [|x [|y piece]]; try discriminate E; [reflexivity|].
    cbn [PurePath.dropped] in E. apply N.eqb_eq in E. subst x.
    rewrite contains_char_cons. change (contains_char c []) with false.
    destruct (N.eqb_spec PurePath.DOT c); [congruence | reflexivity].
  - reflexivity.
Qed.

Lemma contains_char_root_of c s :
  c <> PurePath.SLASH -> contains_char c (PurePath.root_of s) = false.
Proof.
  intros Hs. unfold PurePath.root_of.
  assert (H : (PurePath.SLASH =? c) = false) by now apply N.eqb_neq.
  destruct (PurePath.leading_slashes s) as [|[|[|n]]];
    unfold contains_char; cbn [existsb]; now rewrite ?H.
Qed.

Lemma contains_char_render c root parts :
  c <> PurePath.SLASH -> c <> PurePath.DOT ->
  contains_char c (PurePath.render root parts)
  = contains_char c root || existsb (contains_char c) parts.
Proof.
  intros Hs Hd.
  assert (Hsep : contains_char c [PurePath.SLASH] = false).
  { unfold contains_char. cbn [existsb].
    destruct (N.eqb_spec PurePath.SLASH c); [congruence | reflexivity]. }
  assert (Hgen : contains_char c (root ++ join [PurePath.SLASH] parts)
                 = contains_char c root || existsb (contains_char c) parts)
    by now rewrite contains_char_app, contains_char_join.
  unfold PurePath.render. destruct root as [|r root]; [|exact Hgen].
  destruct parts as [|p parts]; [|exact Hgen].
  unfold contains_char. cbn [existsb].
  destruct (N.eqb_spec PurePath.DOT c); [congruence | reflexivity].
Qed.

(** Joining paths neither adds nor removes a character other than the
    separator and the dot, when the second path is relative. *)
Lemma contains_char_joinpath c a b :
  c <> PurePath.SLASH -> c <> PurePath.DOT ->
  PurePath.root_of b = [] ->
  contains_char c (PurePath.joinpath a b) = contains_char c a || contains_char c b.
Proof.
  intros Hs Hd Hb. unfold PurePath.joinpath. rewrite Hb.
  rewrite contains_char_render by assumption.
  rewrite contains_char_root_of by assumption.
  rewrite existsb_app, !existsb_components by assumption. reflexivity.
Qed.

(** The default output path is [str(Path(od) / name)], where [od] is the
    output directory ([OUTPUT_DIR], or [outputs] when unset) and [name]
    holds the time stamp with every colon replaced: the path has a colon
    only if the directory has one, whatever the clock says. *)
Theorem default_output_path_has_no_colon w utcnow :
  let od := default (lit "outputs") (environ w !! lit "OUTPUT_DIR") in
  let name := lit "groq-response-" ++ replace_char 58 45 utcnow ++ lit ".json" in
  Cli.default_output_path w utcnow JNull = PurePath.joinpath od name
  /\ contains_char 58 (Cli.default_output_path w utcnow JNull) = contains_char 58 od.
Proof.
  intros od name. unfold Cli.default_output_path. fold od.
  assert (Hor : py_or JNull (JStr od) = JStr od) by reflexivity.
  rewrite Hor. split; [reflexivity|].
  assert (Hname : contains_char 58 name = false).
  { unfold name.
    rewrite !contains_char_app, contains_char_replaced by discriminate. reflexivity. }
  unfold SetupCerts.path_join. fold name.
  rewrite contains_char_joinpath, Hname; [now rewrite orb_false_r | | | ].
  - discriminate.
  - discriminate.
  - reflexivity.
Qed.

(** A request that is answered with a JSON object whose previews can be
    made and whose rendering can be encoded ends the command-line run with
    exit code 0: the response is saved at [--out], or at the default path
    when [--out] is absent or empty, and the previews of its first three
    choices are printed after the line that announces the request. *)
Theorem main_saves_answer cfg w utcnow a (m m0 : machine) prompt resp
    (d : list (list N * json)) previews bytes :
  Cli.read_prompt a m = (Ok prompt, m0) ->
  (forall req, post w req = Answered resp) ->
  ok resp = true ->
  json_ resp = Parsed (JDict d) ->
  Forall2 (fun ch p => summarize_choice ch = Ok p) (take 3 (choices_of d)) previews ->
  utf8_encode (dump_indent_plain 2 (JDict d)) = Some bytes ->
  let out_path := default (Cli.default_output_path w utcnow JNull)
                          (Cli.given (Cli.out a)) in
  exists out,
    Cli.main cfg w utcnow a m
    = (Ok tt, Machine (stdout m0 ++ Line (lit "Sending request to Groq...") :: out)
                      (<[resolve w out_path := List.map byte_of_N bytes]> (disk m0)))
    /\ exit_status (Cli.main cfg w utcnow a m).1 = 0%Z
    /\ previews_printed out = enumerate 1 previews.
Proof.
  intros Hread Hpost Hok Hjson Hprev Henc out_path.
  set (sending := Line (lit "Sending request to Groq...")).
  destruct (process_and_save_ok (resolve w) d out_path previews bytes
              (Machine (stdout m0 ++ [sending]) (disk m0)) Hprev Henc)
    as (out & Hsave & Hout).
  assert (Hbody : forall messages model,
            Cli.request_and_save cfg w utcnow a messages model m0
            = (Ok tt, Machine (stdout m0 ++ sending :: out)
                              (<[resolve w out_path := List.map byte_of_N bytes]>
                                 (disk m0)))).
  { intros messages model. unfold Cli.request_and_save.
    rewrite (bind_ok (print _) _ m0 _ tt eq_refl). unfold bind at 1.
    rewrite (send_chat_answered _ _ _ _ _ _ _ _ _ Hpost).
    replace (checked resp) with (Ok (JDict d))
      by (unfold checked; now rewrite Hok, Hjson).
    etransitivity; [exact Hsave|]. cbn [stdout disk].
    now rewrite <- app_assoc. }
  assert (E : Cli.main cfg w utcnow a m
              = (Ok tt, Machine (stdout m0 ++ sending :: out)
                                (<[resolve w out_path := List.map byte_of_N bytes]>
                                   (disk m0)))).
  { unfold Cli.main. rewrite (bind_ok _ _ m m0 prompt Hread).
    apply try_except_ok. apply Hbody. }
  exists out. rewrite E. split; [reflexivity|]. split; [reflexivity | exact Hout].
Qed.

Lemma main_saves_answer_witness :
  exit_status
    (Cli.main test_config
       (quiet_net (Answered (Response 200 (lit "OK") (lit "{}") (Parsed (JDict [])))))
       (lit "2026-01-01T00:00:00")
       (Cli.Args (Some (lit "Summarize X")) None (Some (lit "/out.json")) (lit "0.2") 800 None)
       (Machine [] ∅)).1 = 0%Z.
Proof.
  destruct (main_saves_answer test_config
              (quiet_net (Answered (Response 200 (lit "OK") (lit "{}") (Parsed (JDict [])))))
              (lit "2026-01-01T00:00:00")
              (Cli.Args (Some (lit "Summarize X")) None (Some (lit "/out.json"))
                        (lit "0.2") 800 None)
              (Machine [] ∅) (Machine [] ∅) (lit "Summarize X")
              (Response 200 (lit "OK") (lit "{}") (Parsed (JDict [])))
              [] [] (lit "{}"))
    as (out & _ & H & _).
  - reflexivity.
  - intros req. reflexivity.
  - vm_compute. reflexivity.
  - reflexivity.
  - constructor.
  - vm_compute. reflexivity.
  - exact H.
Defined.

End EntryPointsMore.


(* ===================================================================== *)
(** * Further properties of the HTTP front-end                            *)
(* ===================================================================== *)

Section WebappMore.
Import GroqClient Answers Webapp.

(** What the view extracts from an answer: the content of the first
    choice's message when that content is there and truthy; the whole
    response when the response object has no choices at all, or when the
    first choice has no truthy message content; and an [IndexError] when
    the list of choices is empty. *)
Theorem extract_summary_cases (d : list (list N * json)) :
  (dict_get (lit "choices") d = None -> extract_summary (JDict d) = Ok (JDict d))
  /\ (forall first rest message content,
        dict_get (lit "choices") d = Some (JList (JDict first :: rest)) ->
        dict_get (lit "message") first = Some (JDict message) ->
        dict_get (lit "content") message = Some content ->
        extract_summary (JDict d)
        = Ok (if truthy content then content else JDict d))
  /\ (forall first rest message,
        dict_get (lit "choices") d = Some (JList (JDict first :: rest)) ->
        dict_get (lit "message") first = Some (JDict message) ->
        dict_get (lit "content") message = None ->
        extract_summary (JDict d) = Ok (JDict d))
  /\ (dict_get (lit "choices") d = Some (JList []) ->
        extract_summary (JDict d) = Raise IndexError).
Proof.
  unfold extract_summary, py_get, dict_get_default. repeat split.
  - intros ->. reflexivity.
  - intros first rest message content -> . cbn [py_first]. intros -> ->. reflexivity.
  - intros first rest message ->. cbn [py_first]. intros -> ->. reflexivity.
  - intros ->. reflexivity.
Qed.

Lemma extract_summary_cases_witness :
  extract_summary
    (JDict [(lit "choices",
             JList [JDict [(lit "message", JDict [(lit "content", JStr (lit "X is..."))])]])])
  = Ok (JStr (lit "X is...")).
Proof.
  refine (proj1 (proj2 (extract_summary_cases
            [(lit "choices",
              JList [JDict [(lit "message", JDict [(lit "content", JStr (lit "X is..."))])]])]))
            [(lit "message", JDict [(lit "content", JStr (lit "X is..."))])] []
            [(lit "content", JStr (lit "X is..."))] (JStr (lit "X is...")) _ _ _);
    reflexivity.
Defined.

Lemma extract_summary_raises resp e :
  extract_summary resp = Raise e -> is_Exception e = true.
Proof.
  unfold extract_summary.
  destruct (py_get _ _ resp) as [choices|e1] eqn:E1.
  2:{ intros [= <-]. destruct resp; try discriminate; now injection E1 as <-. }
  destruct (py_first choices) as [first|e2] eqn:E2.
  2:{ intros [= <-].
      destruct choices as [| | | |[|]|[|]|]; try discriminate; now injection E2 as <-. }
  destruct (py_get _ _ first) as [message|e3] eqn:E3.
  2:{ intros [= <-]. destruct first; try discriminate; now injection E3 as <-. }
  destruct (py_get _ _ message) as [content|e4] eqn:E4; [discriminate|].
  intros [= <-]. destruct message; try discriminate; now injection E4 as <-.
Qed.

(** The answer of the view to a request whose body is an object, once the
    client has returned a document: status 200 with the prompt and the gist
    extracted; but if the extraction itself raises (an empty list of
    choices, a choice that is not an object), the view reports a failed API
    call with status 500, although the call succeeded. *)
Theorem summarize_replies cfg w request_json (body : list (list N * json))
    (m : machine) resp doc :
  py_or request_json (JDict []) = JDict body ->
  (forall req, post w req = Answered resp) ->
  checked resp = Ok doc ->
  let prompt := dict_get_default (lit "prompt") (JStr (lit "No prompt provided")) body in
  (forall gist, extract_summary doc = Ok gist ->
     summarize cfg w request_json m
     = (Ok (JsonReply 200 (JDict [(lit "prompt", prompt); (lit "gist", gist)])), m))
  /\ (forall e, extract_summary doc = Raise e ->
        summarize cfg w request_json m
        = (Ok (ErrorReply 500 (lit "Failed to call Groq API") e), m)).
Proof.
  intros Hbody Hpost Hdoc prompt.
  assert (Hrun : summarize cfg w request_json m
    = try_except
        (bind (lift (extract_summary doc)) (fun summary =>
           ret (JsonReply 200 (JDict [(lit "prompt", prompt); (lit "gist", summary)]))))
        (fun e => ret (ErrorReply 500 (lit "Failed to call Groq API") e)) m).
  { unfold summarize. rewrite Hbody. cbn [py_get].
    rewrite (bind_ok (lift (Ok prompt)) _ m m prompt eq_refl).
    rewrite (bind_ok (lift _) _ m m _ eq_refl).
    rewrite (bind_ok (lift _) _ m m _ eq_refl).
    rewrite (bind_ok (lift _) _ m m _ eq_refl).
    unfold try_except. unfold bind at 1.
    rewrite (send_chat_answered _ _ _ _ _ _ _ _ _ Hpost), Hdoc. reflexivity. }
  split.
  - intros gist Hg. rewrite Hrun. apply try_except_ok.
    unfold bind, lift. now rewrite Hg.
  - intros e He. rewrite Hrun.
    erewrite try_except_caught; [reflexivity | | exact (extract_summary_raises doc e He)].
    unfold bind, lift. now rewrite He.
Qed.

Lemma summarize_replies_witness :
  summarize test_config
    (quiet_net (Answered (Response 200 (lit "OK") (lit "{...}")
                            (Parsed (JDict [(lit "choices", JList [])])))))
    (JDict [(lit "prompt", JStr (lit "Summarize X"))]) (Machine [] ∅)
  = (Ok (ErrorReply 500 (lit "Failed to call Groq API") IndexError), Machine [] ∅).
Proof.
  refine (proj2 (summarize_replies test_config
            (quiet_net (Answered (Response 200 (lit "OK") (lit "{...}")
                                    (Parsed (JDict [(lit "choices", JList [])])))))
            (JDict [(lit "prompt", JStr (lit "Summarize X"))])
            [(lit "prompt", JStr (lit "Summarize X"))] (Machine [] ∅)
            (Response 200 (lit "OK") (lit "{...}")
                      (Parsed (JDict [(lit "choices", JList [])])))
            (JDict [(lit "choices", JList [])]) eq_refl (fun _ => eq_refl) _)
            IndexError _).
  - vm_compute. reflexivity.
  - reflexivity.
Defined.

(** A request body that is JSON but not an object, and not a falsy value
    either (a non-empty array or string, a non-zero number, [true]), makes
    the view raise [AttributeError] before the [try] statement: the fault
    is not caught, and nothing was printed or written. *)
Theorem summarize_rejects_non_object cfg w request_json (m : machine) :
  truthy request_json = true ->
  (forall d, request_json <> JDict d) ->
  summarize cfg w request_json m = (Raise AttributeError, m).
Proof.
  intros Ht Hd. unfold summarize, py_or. rewrite Ht.
  destruct request_json; try reflexivity. now elim (Hd fields).
Qed.

Lemma summarize_rejects_non_object_witness :
  summarize test_config (quiet_net (Failed [])) (JList [JInt 1]) (Machine [] ∅)
  = (Raise AttributeError, Machine [] ∅).
Proof.
  refine (summarize_rejects_non_object test_config (quiet_net (Failed []))
            (JList [JInt 1]) (Machine [] ∅) eq_refl _).
  intros d E. discriminate E.
Defined.

(** A request without a usable body (no JSON, [null], an empty object or
    array or string, zero, [false]) is served as if it had spelled out the
    defaults: the prompt ["No prompt provided"], temperature 0.2 and 800
    tokens at most, with the configured model. *)
Theorem summarize_defaults cfg w request_json (m : machine) :
  truthy request_json = false ->
  summarize cfg w request_json m
  = summarize cfg w
      (JDict [(lit "prompt", JStr (lit "No prompt provided"));
              (lit "temperature", JFloat (lit "0.2"));
              (lit "max_tokens", JInt 800)]) m.
Proof.
  intros Ht. unfold summarize, py_or. rewrite Ht. reflexivity.
Qed.

Lemma summarize_defaults_witness :
  summarize test_config (quiet_net (Failed [])) JNull (Machine [] ∅)
  = summarize test_config (quiet_net (Failed []))
      (JDict [(lit "prompt", JStr (lit "No prompt provided"));
              (lit "temperature", JFloat (lit "0.2"));
              (lit "max_tokens", JInt 800)]) (Machine [] ∅).
Proof.
  exact (summarize_defaults test_config (quiet_net (Failed [])) JNull (Machine [] ∅)
           eq_refl).
Defined.

End WebappMore.
